(** * Multi-project clangd routing: project resolution and client lifecycle

    A shallow embedding of the project-resolution strategies
    ([workspace-folder-strategy.ts], [cmake-project-strategy.ts]), of the
    project service ([project-service.ts]) and of the routing context
    ([clangd-context.ts]), followed by the properties established for them.

    Conventions of the embedding.
    - A [vscode.Uri] is represented by its canonical text ([toString()]);
      [Uri.parse] of such a text is the identity.
    - JavaScript objects that are compared with [===], [indexOf] or
      [includes] carry the address they were allocated at ([p_obj],
      [doc_obj], [strategy_obj], client addresses); a [new] or an object
      literal takes the next free address of the component that evaluates it.
    - The statements that run between two suspension points of an [async]
      function are one step.  A call of [resolve] that is parked at
      [await this.onReady] has not run any statement of its body; callers
      see it as [Waiting] (as [Parked] for the listeners of the context).
*)

From Stdlib Require Import ZArith Ascii String List.
From Stdlib Require Import Sorted.
From stdpp Require Import base option list gmap strings.
Import ListNotations.

Local Open Scope string_scope.
Local Open Scope Z_scope.

(** ** JavaScript primitives used by the sources *)
Module JS.

(** [s.startsWith(p)] *)
Definition startsWith (s p : string) : bool := String.prefix p s.

(** last character of a string, if any *)
Fixpoint lastChar (s : string) : option ascii :=
  match s with
  | EmptyString => None
  | String c EmptyString => Some c
  | String _ rest => lastChar rest
  end.

(** [s.endsWith(c)] for a one-character [c] *)
Definition endsWithChar (s : string) (c : ascii) : bool :=
  match lastChar s with
  | Some d => bool_decide (d = c)
  | None => false
  end.

(** [s.lastIndexOf(p)]: the greatest index at which [p] occurs, [-1] when
    it does not occur. *)
Fixpoint lastIndexOf_from (i : Z) (s p : string) : Z :=
  match s with
  | EmptyString => if String.prefix p s then i else -1
  | String _ rest =>
      let later := lastIndexOf_from (i + 1) rest p in
      if 0 <=? later then later
      else if String.prefix p s then i else -1
  end.

Definition lastIndexOf (s p : string) : Z := lastIndexOf_from 0 s p.

(** [s.substring(0, e)]: a negative end is treated as [0], an end beyond
    the length as the length. *)
Definition substring0 (s : string) (e : Z) : string :=
  String.substring 0 (Z.to_nat e) s.

Section Arrays.
Context {A : Type}.
(** [same] is the comparison the array methods use on elements: for
    objects, identity of the reference. *)
Variable same : A -> A -> bool.

(** [arr.indexOf(x)]: first index holding [x], [-1] when there is none. *)
Fixpoint indexOf_from (i : Z) (arr : list A) (x : A) : Z :=
  match arr with
  | [] => -1
  | y :: rest => if same y x then i else indexOf_from (i + 1) rest x
  end.

Definition indexOf (arr : list A) (x : A) : Z := indexOf_from 0 arr x.

(** [arr.includes(x)] *)
Definition includes (arr : list A) (x : A) : bool :=
  existsb (fun y => same y x) arr.
End Arrays.

(** [arr.splice(start)] with a single argument: removes every element from
    [start] to the end.  A negative [start] counts from the end.  Returns
    the removed elements and the array that is left. *)
Definition splice_from {A : Type} (arr : list A) (start : Z)
  : list A * list A :=
  let len := Z.of_nat (List.length arr) in
  let from := if start <? 0 then Z.max (len + start) 0
              else Z.min start len in
  (drop (Z.to_nat from) arr, take (Z.to_nat from) arr).

(** [arr.sort((a, b) => a.length - b.length)]: the sort is stable, so it
    is an insertion of each element after the elements that are not
    longer. *)
Fixpoint insertByLength (x : string) (sorted : list string) : list string :=
  match sorted with
  | [] => [x]
  | y :: rest =>
      if (String.length y <=? String.length x)%nat
      then y :: insertByLength x rest
      else x :: y :: rest
  end.

Definition sortByLength (arr : list string) : list string :=
  foldl (fun acc x => insertByLength x acc) [] arr.

(** What a statement sequence ends in: normal completion, or an exception
    that leaves the state as it was when thrown. *)
Inductive Completion (S : Type) : Type :=
| Normal (s : S)
| Thrown (msg : string) (s : S).
Arguments Normal {S} s.
Arguments Thrown {S} msg s.

End JS.

(** ** The data model of [project/api.ts] *)

Record Project := mkProject {
  p_obj : nat;               (* address of the object *)
  p_id : string;
  p_label : option string;
  p_uri : string;            (* uri.toString() *)
}.

(** [a === b] on projects *)
Definition sameProject (a b : Project) : bool := bool_decide (p_obj a = p_obj b).

Record ProjectsChange := mkChange {
  added : option (list Project);
  removed : option (list Project);
  updated : option (list Project);
}.

Record CurrentProjectChange := mkCurrentChange {
  newProject : option Project;
  oldProject : option Project;
}.

(** ** The editor host, as far as the sources consult it *)
Module Host.

Record WorkspaceFolder := mkFolder {
  wf_uri : string;         (* folder.uri.toString() *)
  wf_name : string;
}.

Record TextDocument := mkDocument {
  doc_obj : nat;           (* address of the object *)
  doc_uri : string;        (* document.uri.toString() *)
  doc_languageId : string;
  doc_isClosed : bool;
}.

(** [a === b] on documents *)
Definition sameDocument (a b : TextDocument) : bool :=
  bool_decide (doc_obj a = doc_obj b).

Definition withSlash (s : string) : string :=
  if JS.endsWithChar s "/"%char then s else s ++ "/".

(** [vscode.workspace.getWorkspaceFolder(uri)]: the workspace folder that
    contains [uri], the innermost one when folders are nested, and the
    folder itself when [uri] is a workspace folder. *)
Definition getWorkspaceFolder (folders : list WorkspaceFolder) (uri : string)
  : option WorkspaceFolder :=
  foldl (fun best f =>
           if JS.startsWith (withSlash uri) (withSlash (wf_uri f)) then
             match best with
             | Some b =>
                 if (String.length (wf_uri b) <? String.length (wf_uri f))%nat
                 then Some f else best
             | None => Some f
             end
           else best)
        None folders.

(** [uri.fsPath] of a [file:] uri *)
Definition fsPath (uri : string) : string :=
  if JS.startsWith uri "file://" then String.substring 7 (String.length uri - 7) uri
  else uri.

(** [vscode.Uri.file(path).toString()] *)
Definition Uri_file (path : string) : string := "file://" ++ path.

End Host.

(** ** [WorkspaceFolderStrategy] *)
Module WorkspaceFolderStrategy.
Import Host.

Definition ID : string := "workspaceFolders".

Record State := mkState {
  subscriptions : nat;             (* listeners held on the host *)
  sortedWorkspaces : list string;
  projects : list Project;
  fired : list ProjectsChange;     (* events given to onProjectChangedEmitter *)
  nextObj : nat;                   (* next free object address *)
}.

Definition initial : State :=
  {| subscriptions := 0%nat; sortedWorkspaces := []; projects := [];
     fired := []; nextObj := 0%nat |}.

(** [toUri(folder)] *)
Definition toUri (folder : WorkspaceFolder) : string :=
  let result := wf_uri folder in
  if JS.endsWithChar result "/"%char then result else result ++ "/".

(** [createProject(workspace)]: a new object at address [o]. *)
Definition createProject (o : nat) (workspace : WorkspaceFolder) : Project :=
  {| p_obj := o; p_id := wf_uri workspace;
     p_label := Some (wf_name workspace); p_uri := wf_uri workspace |}.

(** [getSortedWorkspaces()]: stores and returns the sorted list. *)
Definition getSortedWorkspaces (folders : list WorkspaceFolder) (st : State)
  : list string * State :=
  let sorted := JS.sortByLength (map toUri folders) in
  (sorted, {| subscriptions := subscriptions st;
              sortedWorkspaces := sorted; projects := projects st;
              fired := fired st; nextObj := nextObj st |}).

(** The loop of [getOuterMostWorkspaceFolder]: the first element of the
    sorted list that [uri] starts with. *)
Definition firstPrefix (sorted : list string) (uri : string) : option string :=
  find (fun element => JS.startsWith uri element) sorted.

(** [getOuterMostWorkspaceFolder(folder)] for a string argument; [None] is
    the [undefined] that the non-null assertion lets through. *)
Definition getOuterMostWorkspaceFolder_str
    (folders : list WorkspaceFolder) (st : State) (uri : string)
  : option WorkspaceFolder :=
  match firstPrefix (sortedWorkspaces st) uri with
  | Some element => getWorkspaceFolder folders element
  | None => getWorkspaceFolder folders uri
  end.

(** [getOuterMostWorkspaceFolder(folder)] for a folder argument *)
Definition getOuterMostWorkspaceFolder
    (folders : list WorkspaceFolder) (st : State) (folder : WorkspaceFolder)
  : option WorkspaceFolder :=
  getOuterMostWorkspaceFolder_str folders st (toUri folder).

Definition typeError : string :=
  "TypeError: Cannot read properties of undefined (reading 'uri')".

(** [.forEach(workspace => this.projects.push(this.createProject(workspace)))] *)
Fixpoint pushProjects (ws : list (option WorkspaceFolder)) (st : State)
  : JS.Completion State :=
  match ws with
  | [] => JS.Normal st
  | None :: _ => JS.Thrown typeError st
  | Some w :: rest =>
      pushProjects rest
        {| subscriptions := subscriptions st;
           sortedWorkspaces := sortedWorkspaces st;
           projects := projects st ++ [createProject (nextObj st) w];
           fired := fired st;
           nextObj := S (nextObj st) |}
  end.

Definition fire (ev : ProjectsChange) (st : State) : State :=
  {| subscriptions := subscriptions st;
     sortedWorkspaces := sortedWorkspaces st; projects := projects st;
     fired := fired st ++ [ev]; nextObj := nextObj st |}.

(** [this.subscriptions.push(vscode.workspace.onDidChangeWorkspaceFolders(...))] *)
Definition subscribe (st : State) : State :=
  {| subscriptions := S (subscriptions st);
     sortedWorkspaces := sortedWorkspaces st; projects := projects st;
     fired := fired st; nextObj := nextObj st |}.

(** [initialize()] in a workspace with the given folders *)
Definition initialize (folders : list WorkspaceFolder) (st : State)
  : JS.Completion State :=
  let '(sorted, st1) := getSortedWorkspaces folders (subscribe st) in
  let outer := map (getOuterMostWorkspaceFolder_str folders st1) sorted in
  match pushProjects outer st1 with
  | JS.Thrown msg st2 => JS.Thrown msg st2
  | JS.Normal st2 =>
      JS.Normal (fire {| added := Some (projects st2); removed := None;
                         updated := None |} st2)
  end.

(** [event.added.map(...)] and [event.removed.map(...)] of the
    workspace-folder listener: every entry is a new object. *)
Fixpoint mapCreate (folders : list WorkspaceFolder) (st : State)
    (o : nat) (ws : list WorkspaceFolder) : option (list Project * nat) :=
  match ws with
  | [] => Some ([], o)
  | w :: rest =>
      match getOuterMostWorkspaceFolder folders st w with
      | None => None
      | Some outerWorkspace =>
          match mapCreate folders st (S o) rest with
          | None => None
          | Some (ps, o') => Some (createProject o outerWorkspace :: ps, o')
          end
      end
  end.

(** The listener installed on [onDidChangeWorkspaceFolders]; [folders] is
    the workspace after the change. *)
Definition onDidChangeWorkspaceFolders
    (folders ev_added ev_removed : list WorkspaceFolder) (st : State)
  : JS.Completion State :=
  match mapCreate folders st (nextObj st) ev_added with
  | None => JS.Thrown typeError st
  | Some (added_ps, o1) =>
      match mapCreate folders st o1 ev_removed with
      | None => JS.Thrown typeError st
      | Some (removed_ps, o2) =>
          JS.Normal
            {| subscriptions := subscriptions st;
               sortedWorkspaces := sortedWorkspaces st;
               projects := projects st;
               fired := fired st ++ [ {| added := Some added_ps;
                                         removed := Some removed_ps;
                                         updated := None |} ];
               nextObj := o2 |}
      end
  end.

(** [resolve(fileUri)] *)
Definition resolve (st : State) (fileUri : string) : option Project :=
  find (fun project => JS.startsWith fileUri (p_uri project)) (projects st).

(** [dispose()]: every held listener is disposed. *)
Definition dispose (st : State) : State :=
  {| subscriptions := 0%nat;
     sortedWorkspaces := sortedWorkspaces st; projects := projects st;
     fired := fired st; nextObj := nextObj st |}.

(** Every project of the list lives below the next free address. *)
Definition wellFormed (st : State) : Prop :=
  Forall (fun p => (p_obj p < nextObj st)%nat) (projects st).

(** What is expected of the host: asked for the location of a workspace
    folder, it answers with a workspace folder at that location. *)
Definition hostFaithful (folders : list WorkspaceFolder) : Prop :=
  Forall (fun f => exists g, g ∈ folders
                             /\ getWorkspaceFolder folders (toUri f) = Some g
                             /\ toUri g = toUri f) folders.

(** The test of [resolve], on a workspace folder instead of its project *)
Definition matchesFolder (u : string) (o : option WorkspaceFolder) : bool :=
  match o with
  | Some f => JS.startsWith u (wf_uri f)
  | None => false
  end.

End WorkspaceFolderStrategy.

(** ** [CmakeProjectStrategy] *)
Module CmakeProjectStrategy.
Import Host.

Definition ID : string := "cmake.build".
Definition pattern : string := "**/build".

(** The file system and the glob library, as the strategy consults them. *)
Record FileSystem := mkFs {
  existing : gset string;                   (* paths for which fs.existsSync holds *)
  globDirs : string -> option (list string); (* glob(pattern, {cwd, ...}); None is an error *)
}.

Record State := mkState {
  subscriptions : nat;             (* watchers held on the host *)
  projects : list Project;
  fired : list ProjectsChange;     (* events given to onProjectChangedEmitter *)
  nextObj : nat;                   (* next free object address *)
}.

Definition initial : State :=
  {| subscriptions := 0%nat; projects := []; fired := []; nextObj := 0%nat |}.

(** [path.join(a, b)] for operands that are already normalized *)
Definition path_join (a b : string) : string :=
  if JS.endsWithChar a "/"%char then a ++ b else a ++ "/" ++ b.

(** [path.basename(p)]: the last non-empty segment of [p]. *)
Fixpoint basename_from (cur last : string) (p : string) : string :=
  match p with
  | EmptyString => if bool_decide (cur = "") then last else cur
  | String c rest =>
      if bool_decide (c = "/"%char)
      then basename_from "" (if bool_decide (cur = "") then last else cur) rest
      else basename_from (cur ++ String c EmptyString) last rest
  end.

Definition path_basename (p : string) : string := basename_from "" "" p.

(** [createProject(projectUri)]: a new object at address [o]. *)
Definition createProject (o : nat) (projectUri : string) : Project :=
  {| p_obj := o; p_id := projectUri;
     p_label := Some (path_basename (fsPath projectUri));
     p_uri := projectUri |}.

(** [getProjectDirectory(buildDir)] *)
Definition getProjectDirectory (fs : FileSystem) (buildDir : string)
  : option string :=
  let compilationDb := path_join buildDir "compile_commands.json" in
  if bool_decide (compilationDb ∈ existing fs)
  then Some (Uri_file (JS.substring0 buildDir (JS.lastIndexOf buildDir "/build")))
  else None.

(** [configureFileWatcher()]: the watcher with its two listeners is created
    and kept among the subscriptions. *)
Definition configureFileWatcher (st : State) : State :=
  {| subscriptions := S (subscriptions st); projects := projects st;
     fired := fired st; nextObj := nextObj st |}.

(** The [onDidCreate] listener of the file watcher *)
Definition onDidCreate (fs : FileSystem) (uri : string) (st : State) : State :=
  match getProjectDirectory fs (fsPath uri) with
  | Some projectDir =>
      let project := createProject (nextObj st) projectDir in
      {| subscriptions := subscriptions st;
         projects := projects st ++ [project];
         fired := fired st ++ [ {| added := Some [project]; removed := None;
                                   updated := None |} ];
         nextObj := S (nextObj st) |}
  | None => st
  end.

(** The [onDidDelete] listener of the file watcher *)
Definition onDidDelete (fs : FileSystem) (uri : string) (st : State) : State :=
  match getProjectDirectory fs (fsPath uri) with
  | Some projectDir =>
      let index :=
        JS.indexOf sameProject (projects st)
                   (createProject (nextObj st) projectDir) in
      if 0 <=? index then
        let '(removed_ps, rest) := JS.splice_from (projects st) index in
        {| subscriptions := subscriptions st;
           projects := rest;
           fired := fired st ++ [ {| added := None; removed := Some removed_ps;
                                     updated := None |} ];
           nextObj := S (nextObj st) |}
      else
        {| subscriptions := subscriptions st;
           projects := projects st; fired := fired st;
           nextObj := S (nextObj st) |}
  | None => st
  end.

(** [matches.forEach(...)] of [findProjects] *)
Fixpoint pushMatches (fs : FileSystem) (cwd : string) (matches : list string)
    (st : State) : State :=
  match matches with
  | [] => st
  | m :: rest =>
      match getProjectDirectory fs (path_join cwd m) with
      | Some projectDir =>
          pushMatches fs cwd rest
            {| subscriptions := subscriptions st;
               projects := projects st ++ [createProject (nextObj st) projectDir];
               fired := fired st;
               nextObj := S (nextObj st) |}
      | None => pushMatches fs cwd rest st
      end
  end.

(** [findProjects()]: one glob per workspace folder; a glob error rejects
    the whole operation. *)
Fixpoint findProjects (fs : FileSystem) (folders : list WorkspaceFolder)
    (st : State) : JS.Completion State :=
  match folders with
  | [] => JS.Normal st
  | folder :: rest =>
      let cwd := fsPath (wf_uri folder) in
      match globDirs fs cwd with
      | None => JS.Thrown "glob error" st
      | Some matches =>
          let st1 := pushMatches fs cwd matches st in
          findProjects fs rest
            {| subscriptions := subscriptions st1;
               projects := projects st1;
               fired := fired st1 ++ [ {| added := Some (projects st1);
                                          removed := None; updated := None |} ];
               nextObj := nextObj st1 |}
      end
  end.

(** [initialize()]: the watcher is configured, then the folders are
    scanned. *)
Definition initialize (fs : FileSystem) (folders : list WorkspaceFolder)
    (st : State) : JS.Completion State :=
  findProjects fs folders (configureFileWatcher st).

(** [dispose()]: every held watcher is disposed. *)
Definition dispose (st : State) : State :=
  {| subscriptions := 0%nat; projects := projects st; fired := fired st;
     nextObj := nextObj st |}.

(** [resolve(fileUri)] *)
Definition resolve (st : State) (fileUri : string) : option Project :=
  find (fun project => JS.startsWith fileUri (p_uri project)) (projects st).

(** Every project of the list lives below the next free address. *)
Definition wellFormed (st : State) : Prop :=
  Forall (fun p => (p_obj p < nextObj st)%nat) (projects st).

(** What the file watcher reports, with the file system at that moment *)
Inductive WatcherEvent :=
| DidCreate (fs : FileSystem) (uri : string)
| DidDelete (fs : FileSystem) (uri : string).

Definition handle (st : State) (ev : WatcherEvent) : State :=
  match ev with
  | DidCreate fs uri => onDidCreate fs uri st
  | DidDelete fs uri => onDidDelete fs uri st
  end.

Definition runWatcher (st : State) (evs : list WatcherEvent) : State :=
  foldl handle st evs.

End CmakeProjectStrategy.

(** ** [ClangdProjectService] *)
Module ProjectService.
Import Host.

(** A reference to a strategy object together with its [id]. *)
Record Strategy := mkStrategy {
  strategy_obj : nat;
  strategy_id : string;
}.

(** [a === b] on strategies *)
Definition sameStrategy (a b : Strategy) : bool :=
  bool_decide (strategy_obj a = strategy_obj b).

(** The strategy objects behind the [ProjectResolutionStrategy] interface:
    the two built-in ones, and one supplied by another extension, of which
    only its project list and its [resolve] are visible. *)
Inductive StrategyObj :=
| WorkspaceFolders (s : WorkspaceFolderStrategy.State)
| CmakeBuild (s : CmakeProjectStrategy.State)
| External (ps : list Project) (res : string -> option Project).

(** The configuration surface ([ProjectConfiguration]) *)
Record Config := mkConfig {
  cfg_enabled : bool;            (* clangd.multiProject.enabled *)
  cfg_strategy : string;         (* clangd.multiProject.strategy *)
  cfg_defaultStrategy : string;  (* its default value *)
}.

(** The workspace the service runs in *)
Record Env := mkEnv {
  env_folders : list WorkspaceFolder;
  env_fs : CmakeProjectStrategy.FileSystem;
}.

(** What an extension declares under [contributes.clangd.projectResolution] *)
Inductive Declaration :=
| NoDeclaration
| DeclString (id : string)
| DeclArray (ids : list string)
| DeclOther.

Record State := mkState {
  strategies : gmap string Strategy;
  heap : gmap nat StrategyObj;       (* the strategy objects, by address *)
  nextStrategy : nat;                (* next free address *)
  disposedStrategies : gset nat;
  _activeStrategy : option Strategy;
  forwarded : list nat;              (* strategies whose events are forwarded *)
  _currentProject : option Project;
  _isEnabled : bool;
  firedCurrent : list CurrentProjectChange;
  onReadyResolved : bool;            (* state of the onReady promise *)
  externalRegisteredStrategies : gset string;
  subscribed : bool;
  config : Config;
  console : list string;             (* console.warn *)
  shown : list string;               (* window.showWarningMessage *)
  restarts : nat;                    (* executions of clangd.restart *)
}.

(** Field updates *)
Definition with_registry (m : gmap string Strategy) (st : State) : State :=
  {| strategies := m; heap := heap st; nextStrategy := nextStrategy st;
     disposedStrategies := disposedStrategies st;
     _activeStrategy := _activeStrategy st; forwarded := forwarded st;
     _currentProject := _currentProject st; _isEnabled := _isEnabled st;
     firedCurrent := firedCurrent st; onReadyResolved := onReadyResolved st;
     externalRegisteredStrategies := externalRegisteredStrategies st;
     subscribed := subscribed st; config := config st;
     console := console st; shown := shown st; restarts := restarts st |}.

Definition with_heap (h : gmap nat StrategyObj) (n : nat) (st : State) : State :=
  {| strategies := strategies st; heap := h; nextStrategy := n;
     disposedStrategies := disposedStrategies st;
     _activeStrategy := _activeStrategy st; forwarded := forwarded st;
     _currentProject := _currentProject st; _isEnabled := _isEnabled st;
     firedCurrent := firedCurrent st; onReadyResolved := onReadyResolved st;
     externalRegisteredStrategies := externalRegisteredStrategies st;
     subscribed := subscribed st; config := config st;
     console := console st; shown := shown st; restarts := restarts st |}.

Definition with_disposed (d : gset nat) (st : State) : State :=
  {| strategies := strategies st; heap := heap st;
     nextStrategy := nextStrategy st; disposedStrategies := d;
     _activeStrategy := _activeStrategy st; forwarded := forwarded st;
     _currentProject := _currentProject st; _isEnabled := _isEnabled st;
     firedCurrent := firedCurrent st; onReadyResolved := onReadyResolved st;
     externalRegisteredStrategies := externalRegisteredStrategies st;
     subscribed := subscribed st; config := config st;
     console := console st; shown := shown st; restarts := restarts st |}.

Definition with_active (a : option Strategy) (fw : list nat) (st : State) : State :=
  {| strategies := strategies st; heap := heap st;
     nextStrategy := nextStrategy st;
     disposedStrategies := disposedStrategies st;
     _activeStrategy := a; forwarded := fw;
     _currentProject := _currentProject st; _isEnabled := _isEnabled st;
     firedCurrent := firedCurrent st; onReadyResolved := onReadyResolved st;
     externalRegisteredStrategies := externalRegisteredStrategies st;
     subscribed := subscribed st; config := config st;
     console := console st; shown := shown st; restarts := restarts st |}.

Definition with_current (c : option Project) (evs : list CurrentProjectChange)
    (st : State) : State :=
  {| strategies := strategies st; heap := heap st;
     nextStrategy := nextStrategy st;
     disposedStrategies := disposedStrategies st;
     _activeStrategy := _activeStrategy st; forwarded := forwarded st;
     _currentProject := c; _isEnabled := _isEnabled st;
     firedCurrent := evs; onReadyResolved := onReadyResolved st;
     externalRegisteredStrategies := externalRegisteredStrategies st;
     subscribed := subscribed st; config := config st;
     console := console st; shown := shown st; restarts := restarts st |}.

Definition with_enabled (b : bool) (st : State) : State :=
  {| strategies := strategies st; heap := heap st;
     nextStrategy := nextStrategy st;
     disposedStrategies := disposedStrategies st;
     _activeStrategy := _activeStrategy st; forwarded := forwarded st;
     _currentProject := _currentProject st; _isEnabled := b;
     firedCurrent := firedCurrent st; onReadyResolved := onReadyResolved st;
     externalRegisteredStrategies := externalRegisteredStrategies st;
     subscribed := subscribed st; config := config st;
     console := console st; shown := shown st; restarts := restarts st |}.

Definition with_gate (ready : bool) (pending : gset string) (st : State) : State :=
  {| strategies := strategies st; heap := heap st;
     nextStrategy := nextStrategy st;
     disposedStrategies := disposedStrategies st;
     _activeStrategy := _activeStrategy st; forwarded := forwarded st;
     _currentProject := _currentProject st; _isEnabled := _isEnabled st;
     firedCurrent := firedCurrent st; onReadyResolved := ready;
     externalRegisteredStrategies := pending;
     subscribed := subscribed st; config := config st;
     console := console st; shown := shown st; restarts := restarts st |}.

Definition with_host (sub : bool) (cfg : Config) (r : nat) (st : State) : State :=
  {| strategies := strategies st; heap := heap st;
     nextStrategy := nextStrategy st;
     disposedStrategies := disposedStrategies st;
     _activeStrategy := _activeStrategy st; forwarded := forwarded st;
     _currentProject := _currentProject st; _isEnabled := _isEnabled st;
     firedCurrent := firedCurrent st; onReadyResolved := onReadyResolved st;
     externalRegisteredStrategies := externalRegisteredStrategies st;
     subscribed := sub; config := cfg;
     console := console st; shown := shown st; restarts := r |}.

Definition with_log (c w : list string) (st : State) : State :=
  {| strategies := strategies st; heap := heap st;
     nextStrategy := nextStrategy st;
     disposedStrategies := disposedStrategies st;
     _activeStrategy := _activeStrategy st; forwarded := forwarded st;
     _currentProject := _currentProject st; _isEnabled := _isEnabled st;
     firedCurrent := firedCurrent st; onReadyResolved := onReadyResolved st;
     externalRegisteredStrategies := externalRegisteredStrategies st;
     subscribed := subscribed st; config := config st;
     console := c; shown := w; restarts := restarts st |}.

(** [console.warn(msg)] *)
Definition console_warn (msg : string) (st : State) : State :=
  with_log (console st ++ [msg]) (shown st) st.

(** [vscode.window.showWarningMessage(msg)] *)
Definition showWarningMessage (msg : string) (st : State) : State :=
  with_log (console st) (shown st ++ [msg]) st.

(** [getDeclaredStrategies(ext)] *)
Definition getDeclaredStrategies (d : Declaration) : list string :=
  match d with
  | DeclArray ids => ids
  | DeclString id => [id]
  | _ => []
  end.

(** The filter of the constructor: the declaration is truthy. *)
Definition declares (d : Declaration) : bool :=
  match d with
  | NoDeclaration => false
  | DeclString id => negb (bool_decide (id = ""))
  | DeclArray _ => true
  | DeclOther => true
  end.

(** The ids the constructor collects from [vscode.extensions.all] *)
Definition declaredIds (exts : list Declaration) : list string :=
  concat (map getDeclaredStrategies (filter (fun d => declares d = true) exts)).

(** [new ClangdProjectService()] *)
Definition new (cfg : Config) (exts : list Declaration) : State :=
  {| strategies := ∅; heap := ∅; nextStrategy := 0%nat;
     disposedStrategies := ∅;
     _activeStrategy := None; forwarded := [];
     _currentProject := None; _isEnabled := false;
     firedCurrent := []; onReadyResolved := false;
     externalRegisteredStrategies := list_to_set (declaredIds exts);
     subscribed := false; config := cfg; console := []; shown := [];
     restarts := 0%nat |}.

(** [this.resolveReady()] *)
Definition resolveReady (st : State) : State :=
  with_gate true (externalRegisteredStrategies st) st.

(** [new WorkspaceFolderStrategy()] and the like: the object is placed at
    the next free address. *)
Definition newStrategy (id : string) (o : StrategyObj) (st : State)
  : Strategy * State :=
  ({| strategy_obj := nextStrategy st; strategy_id := id |},
   with_heap (<[nextStrategy st := o]> (heap st)) (S (nextStrategy st)) st).

Definition duplicateMsg : string :=
  "Could not register project resolution strategy. Another registry with the same id is already registered!".

(** [registerStrategy(strategy)] *)
Definition registerStrategy (strategy : Strategy) (st : State) : bool * State :=
  match strategies st !! strategy_id strategy with
  | None =>
      let st1 := with_registry (<[strategy_id strategy := strategy]> (strategies st)) st in
      let st2 :=
        if (0 <? size (externalRegisteredStrategies st1))%nat then
          let pending := externalRegisteredStrategies st1 ∖ {[strategy_id strategy]} in
          let st1' := with_gate (onReadyResolved st1) pending st1 in
          if bool_decide (size pending = 0%nat) then resolveReady st1' else st1'
        else st1 in
      (true, st2)
  | Some _ => (false, console_warn duplicateMsg st)
  end.

(** [getStrategy(id)] *)
Definition getStrategy (id : string) (st : State) : option Strategy :=
  strategies st !! id.

(** [strategy.initialize()] through the interface *)
Definition initializeObj (env : Env) (o : StrategyObj) : JS.Completion StrategyObj :=
  match o with
  | WorkspaceFolders s =>
      match WorkspaceFolderStrategy.initialize (env_folders env) s with
      | JS.Normal s' => JS.Normal (WorkspaceFolders s')
      | JS.Thrown msg s' => JS.Thrown msg (WorkspaceFolders s')
      end
  | CmakeBuild s =>
      match CmakeProjectStrategy.initialize (env_fs env) (env_folders env) s with
      | JS.Normal s' => JS.Normal (CmakeBuild s')
      | JS.Thrown msg s' => JS.Thrown msg (CmakeBuild s')
      end
  | External ps res => JS.Normal (External ps res)
  end.

(** [strategy.projects] through the interface *)
Definition projectsObj (o : StrategyObj) : list Project :=
  match o with
  | WorkspaceFolders s => WorkspaceFolderStrategy.projects s
  | CmakeBuild s => CmakeProjectStrategy.projects s
  | External ps _ => ps
  end.

(** [strategy.resolve(fileUri)] through the interface *)
Definition resolveObj (o : StrategyObj) (fileUri : string) : option Project :=
  match o with
  | WorkspaceFolders s => WorkspaceFolderStrategy.resolve s fileUri
  | CmakeBuild s => CmakeProjectStrategy.resolve s fileUri
  | External _ res => res fileUri
  end.

Definition notFoundMsg (id : string) : string :=
  "No project resolution strategy with id '" ++ id ++ "' is registered!".
Definition resetMsg (id : string) : string :=
  "Reset project resolution strategy to '" ++ id ++ "'".

(** [updateActiveStrategy(validate)] *)
Definition updateActiveStrategy (env : Env) (validate : bool) (st : State)
  : JS.Completion State :=
  let newStrategyId := cfg_strategy (config st) in
  match strategies st !! newStrategyId with
  | Some newStrategy =>
      if match _activeStrategy st with
         | Some a => sameStrategy newStrategy a
         | None => false
         end
      then JS.Normal st
      else
        let st1 := with_active (Some newStrategy)
                               (forwarded st ++ [strategy_obj newStrategy]) st in
        match heap st1 !! strategy_obj newStrategy with
        | Some o =>
            match initializeObj env o with
            | JS.Normal o' =>
                JS.Normal (with_heap (<[strategy_obj newStrategy := o']> (heap st1))
                                     (nextStrategy st1) st1)
            | JS.Thrown msg o' =>
                JS.Thrown msg (with_heap (<[strategy_obj newStrategy := o']> (heap st1))
                                         (nextStrategy st1) st1)
            end
        | None => JS.Normal st1
        end
  | None =>
      if validate then
        let defaultStrategy := cfg_defaultStrategy (config st) in
        let st1 := console_warn (notFoundMsg newStrategyId)
                     (showWarningMessage (notFoundMsg newStrategyId) st) in
        let st2 := console_warn (resetMsg defaultStrategy)
                     (showWarningMessage (resetMsg defaultStrategy) st1) in
        JS.Normal (with_active (strategies st2 !! defaultStrategy) (forwarded st2) st2)
      else JS.Normal st
  end.

(** [initialize()] *)
Definition initialize (env : Env) (st : State) : JS.Completion State :=
  let '(wf, st1) := newStrategy WorkspaceFolderStrategy.ID
                      (WorkspaceFolders WorkspaceFolderStrategy.initial) st in
  let '(_, st2) := registerStrategy wf st1 in
  let '(cm, st3) := newStrategy CmakeProjectStrategy.ID
                      (CmakeBuild CmakeProjectStrategy.initial) st2 in
  let '(_, st4) := registerStrategy cm st3 in
  let st5 := with_host true (config st4) (restarts st4) st4 in
  let st6 := with_enabled (cfg_enabled (config st5)) st5 in
  match (if _isEnabled st6 then updateActiveStrategy env false st6
         else JS.Normal st6) with
  | JS.Thrown msg st7 => JS.Thrown msg st7
  | JS.Normal st7 =>
      if bool_decide (size (externalRegisteredStrategies st7) = 0%nat)
      then JS.Normal (resolveReady st7)
      else JS.Normal st7
  end.

(** What a caller of [resolve] observes *)
Inductive Resolution :=
| Waiting                                       (* parked at [await this.onReady] *)
| Resolved (p : option Project) (st : State)
| Rejected (msg : string) (st : State).

(** [resolve(fileUri, updateCurrent)] *)
Definition resolve (env : Env) (fileUri : string) (updateCurrent : bool)
    (st : State) : Resolution :=
  if negb (onReadyResolved st) then Waiting
  else if negb (_isEnabled st) then Resolved None st
  else
    match (match _activeStrategy st with
           | None => updateActiveStrategy env true st
           | Some _ => JS.Normal st
           end) with
    | JS.Thrown msg st1 => Rejected msg st1
    | JS.Normal st1 =>
        let newProject :=
          match _activeStrategy st1 with
          | Some a =>
              match heap st1 !! strategy_obj a with
              | Some o => resolveObj o fileUri
              | None => None
              end
          | None => None
          end in
        match newProject with
        | Some np =>
            if updateCurrent then
              let oldCurrentProject := _currentProject st1 in
              let differs :=
                match oldCurrentProject with
                | Some old => negb (sameProject old np)
                | None => true
                end in
              Resolved newProject
                (with_current (Some np)
                   (if differs
                    then firedCurrent st1 ++
                           [ {| newProject := Some np;
                                oldProject := oldCurrentProject |} ]
                    else firedCurrent st1) st1)
            else Resolved newProject st1
        | None => Resolved None st1
        end
    end.

(** The [projects] getter *)
Definition projects (st : State) : list Project :=
  match _activeStrategy st with
  | Some a =>
      match heap st !! strategy_obj a with
      | Some o => projectsObj o
      | None => []
      end
  | None => []
  end.

(** [handleConfigurationChange(event)]; the two flags are what
    [event.affectsConfiguration] answers for the two sections.  The call
    to [updateActiveStrategy] is not awaited, a rejection of it is lost. *)
Definition handleConfigurationChange (env : Env)
    (affectsEnabled affectsStrategy : bool) (st : State) : State :=
  let restart (s : State) :=
    with_host (subscribed s) (config s) (S (restarts s)) s in
  if affectsEnabled then
    restart (with_enabled (cfg_enabled (config st)) st)
  else if affectsStrategy then
    match updateActiveStrategy env true st with
    | JS.Normal st1 => restart st1
    | JS.Thrown _ st1 => restart st1
    end
  else st.

(** [unregisterStrategy(id)] *)
Definition unregisterStrategy (id : string) (st : State) : bool * State :=
  match strategies st !! id with
  | Some toDelete =>
      let st1 := with_registry (delete (strategy_id toDelete) (strategies st)) st in
      let st2 := with_disposed (disposedStrategies st1 ∪ {[strategy_obj toDelete]}) st1 in
      let st3 :=
        match _activeStrategy st2 with
        | Some a =>
            if bool_decide (strategy_id a = strategy_id toDelete)
            then with_host (subscribed st2)
                   {| cfg_enabled := cfg_enabled (config st2);
                      cfg_strategy := cfg_defaultStrategy (config st2);
                      cfg_defaultStrategy := cfg_defaultStrategy (config st2) |}
                   (restarts st2) st2
            else st2
        | None => st2
        end in
      (true, st3)
  | None => (false, st)
  end.

(** [dispose()] *)
Definition dispose (st : State) : State :=
  let objs : gset nat :=
    list_to_set (map (fun kv => strategy_obj (snd kv)) (map_to_list (strategies st))) in
  with_registry ∅
    (with_disposed (disposedStrategies st ∪ objs)
       (with_host false (config st) (restarts st) st)).

(** The calls the service receives from its host and its clients *)
Inductive Call :=
| CallInitialize (env : Env)
| CallRegister (id : string) (o : StrategyObj)   (* a new strategy object is registered *)
| CallRegisterAgain (s : Strategy)               (* an object seen before is registered *)
| CallUnregister (id : string)
| CallConfigurationChange (env : Env) (cfg : Config) (affectsEnabled affectsStrategy : bool)
| CallExtensionsChanged (env : Env) (allActive : bool)
| CallResolve (env : Env) (fileUri : string) (updateCurrent : bool)
| CallDispose.

Definition afterCompletion (c : JS.Completion State) : State :=
  match c with
  | JS.Normal st => st
  | JS.Thrown _ st => st
  end.

(** The state a call leaves behind.  A [resolve] that is parked leaves the
    state as it is. *)
Definition step (st : State) (c : Call) : State :=
  match c with
  | CallInitialize env => afterCompletion (initialize env st)
  | CallRegister id o =>
      let '(s, st1) := newStrategy id o st in snd (registerStrategy s st1)
  | CallRegisterAgain s => snd (registerStrategy s st)
  | CallUnregister id => snd (unregisterStrategy id st)
  | CallConfigurationChange env cfg ae as_ =>
      handleConfigurationChange env ae as_
        (with_host (subscribed st) cfg (restarts st) st)
  | CallExtensionsChanged env allActive =>
      if allActive then afterCompletion (updateActiveStrategy env true st) else st
  | CallResolve env fileUri updateCurrent =>
      match resolve env fileUri updateCurrent st with
      | Waiting => st
      | Resolved _ st1 => st1
      | Rejected _ st1 => st1
      end
  | CallDispose => dispose st
  end.

(** All states passed through by a sequence of calls, the first one
    included. *)
Fixpoint history (st : State) (calls : list Call) : list State :=
  match calls with
  | [] => [st]
  | c :: rest => st :: history (step st c) rest
  end.

Definition run (st : State) (calls : list Call) : State :=
  foldl step st calls.

(** *** Invariants of the readiness gate *)

(** The gate is released only when no declared id is pending. *)
Definition gate_inv (st : State) : Prop :=
  onReadyResolved st = true -> externalRegisteredStrategies st = ∅.

(** An id that is in the registry is not pending. *)
Definition registered_not_pending (st : State) : Prop :=
  forall id, is_Some (strategies st !! id) -> id ∉ externalRegisteredStrategies st.

(** Once nothing is pending, the gate is released. *)
Definition released_when_done (st : State) : Prop :=
  externalRegisteredStrategies st = ∅ -> onReadyResolved st = true.

(** How a call may move the gate from [st] to [st']. *)
Record gate_step (st st' : State) : Prop := mkGateStep {
  gs_inv : gate_inv st -> gate_inv st';
  gs_sub : externalRegisteredStrategies st' ⊆ externalRegisteredStrategies st;
  gs_left : forall id, id ∈ externalRegisteredStrategies st ->
            id ∈ externalRegisteredStrategies st' \/ is_Some (strategies st' !! id);
  gs_mono : onReadyResolved st = true -> onReadyResolved st' = true;
  gs_last : externalRegisteredStrategies st' = ∅ ->
            externalRegisteredStrategies st <> ∅ -> onReadyResolved st' = true;
  gs_reg : registered_not_pending st -> registered_not_pending st';
}.

(** [st'] follows [st] by registrations only: nothing is unregistered. *)
Definition registers (st st' : State) : Prop :=
  gate_step st st'
  /\ (forall id, is_Some (strategies st !! id) -> is_Some (strategies st' !! id)).

(** [st'] has the gate of [st]. *)
Definition same_gate (st st' : State) : Prop :=
  onReadyResolved st' = onReadyResolved st
  /\ externalRegisteredStrategies st' = externalRegisteredStrategies st.

End ProjectService.

(** ** [ClangdContext]: the routing context *)
Module ClangdContext.
Import Host.

(** A getter or call that either yields a value or throws. *)
Inductive Try (R : Type) : Type :=
| Value (r : R)
| Throws (msg : string).
Arguments Value {R} r.
Arguments Throws {R} msg.

Record DocumentFilter := mkFilter {
  f_scheme : option string;
  f_language : option string;
  f_pattern : option string;
}.

Definition clangdDocumentSelector : list DocumentFilter :=
  [ mkFilter (Some "file") (Some "c") None;
    mkFilter (Some "file") (Some "cpp") None;
    mkFilter (Some "file") (Some "cuda-cpp") None;
    mkFilter (Some "file") (Some "objective-c") None;
    mkFilter (Some "file") (Some "objective-cpp") None ].

Definition fallbackProjectId : string := "none".

(** [vscode.languages.match(selector, document)] is non-zero: some filter
    of the selector has the document's scheme and language. *)
Definition isClangdDocument (document : TextDocument) : bool :=
  existsb
    (fun sel =>
       match f_scheme sel, f_language sel with
       | Some sch, Some lang =>
           JS.startsWith (doc_uri document) (sch ++ ":")
           && bool_decide (doc_languageId document = lang)
       | _, _ => false
       end)
    clangdDocumentSelector.

Record ServerOptions := mkServerOptions {
  command : string;
  args : list string;
}.

(** A [ClangdLanguageClient] object *)
Record Client := mkClient {
  c_serverOptions : option ServerOptions;
  c_documentSelector : list DocumentFilter;
  c_outputChannel : string;          (* name of the channel *)
  c_maxRestartCount : nat;           (* of the installed error handler *)
  c_features : nat;                  (* EnableEditsNearCursorFeature registrations *)
  c_started : bool;
  c_disposed : bool;
}.

(** A client is live when it was started and not disposed. *)
Definition live (c : Client) : bool := c_started c && negb (c_disposed c).

Record State := mkState {
  clients : gmap string nat;             (* the registry, by client address *)
  clientObjs : list Client;              (* the client objects; the address is the position *)
  outputChannels : gmap string string;   (* channel names *)
  serverOptions : option ServerOptions;
  unmatchedDocuments : list TextDocument;
  _activeProjectOverride : option Project;
  projectService : ProjectService.State;
  restartAfterCrash : bool;              (* config.get('restartAfterCrash') *)
  listening : bool;                      (* the listeners of activate are installed *)
}.

Definition with_clients (m : gmap string nat) (objs : list Client) (st : State)
  : State :=
  {| clients := m; clientObjs := objs; outputChannels := outputChannels st;
     serverOptions := serverOptions st;
     unmatchedDocuments := unmatchedDocuments st;
     _activeProjectOverride := _activeProjectOverride st;
     projectService := projectService st;
     restartAfterCrash := restartAfterCrash st; listening := listening st |}.

Definition with_channels (m : gmap string string) (st : State) : State :=
  {| clients := clients st; clientObjs := clientObjs st; outputChannels := m;
     serverOptions := serverOptions st;
     unmatchedDocuments := unmatchedDocuments st;
     _activeProjectOverride := _activeProjectOverride st;
     projectService := projectService st;
     restartAfterCrash := restartAfterCrash st; listening := listening st |}.

Definition with_unmatched (docs : list TextDocument) (st : State) : State :=
  {| clients := clients st; clientObjs := clientObjs st;
     outputChannels := outputChannels st;
     serverOptions := serverOptions st;
     unmatchedDocuments := docs;
     _activeProjectOverride := _activeProjectOverride st;
     projectService := projectService st;
     restartAfterCrash := restartAfterCrash st; listening := listening st |}.

Definition with_override (p : option Project) (st : State) : State :=
  {| clients := clients st; clientObjs := clientObjs st;
     outputChannels := outputChannels st;
     serverOptions := serverOptions st;
     unmatchedDocuments := unmatchedDocuments st;
     _activeProjectOverride := p;
     projectService := projectService st;
     restartAfterCrash := restartAfterCrash st; listening := listening st |}.

Definition with_service (svc : ProjectService.State) (st : State) : State :=
  {| clients := clients st; clientObjs := clientObjs st;
     outputChannels := outputChannels st;
     serverOptions := serverOptions st;
     unmatchedDocuments := unmatchedDocuments st;
     _activeProjectOverride := _activeProjectOverride st;
     projectService := svc;
     restartAfterCrash := restartAfterCrash st; listening := listening st |}.

Definition with_activation (so : option ServerOptions) (l : bool) (st : State)
  : State :=
  {| clients := clients st; clientObjs := clientObjs st;
     outputChannels := outputChannels st;
     serverOptions := so;
     unmatchedDocuments := unmatchedDocuments st;
     _activeProjectOverride := _activeProjectOverride st;
     projectService := projectService st;
     restartAfterCrash := restartAfterCrash st; listening := l |}.

(** [new ClangdContext(projectService)] *)
Definition new (svc : ProjectService.State) (restart : bool) : State :=
  {| clients := ∅; clientObjs := []; outputChannels := ∅;
     serverOptions := None; unmatchedDocuments := [];
     _activeProjectOverride := None; projectService := svc;
     restartAfterCrash := restart; listening := false |}.

(** The [client] getter *)
Definition client (st : State) : Try nat :=
  Throws "Invalid access. Context.client is currently not implemented".

(** [getActiveProject()] *)
Definition getActiveProject (st : State) : option Project :=
  match _activeProjectOverride st with
  | Some p => Some p
  | None => ProjectService._currentProject (projectService st)
  end.

(** [project?.id ?? fallbackProjectId] *)
Definition keyOf (project : option Project) : string :=
  match project with
  | Some p => p_id p
  | None => fallbackProjectId
  end.

Definition channelName (project : option Project) : string :=
  "clangd " ++ match project with
               | Some p => "[" ++ default (p_id p) (p_label p) ++ "]"
               | None => ""
               end.

(** [getOutputChannel(project)] *)
Definition getOutputChannel (project : option Project) (st : State)
  : string * State :=
  match outputChannels st !! keyOf project with
  | Some channel => (channel, st)
  | None =>
      let newChannel := channelName project in
      (newChannel, with_channels (<[keyOf project := newChannel]> (outputChannels st)) st)
  end.

(** The part of [getClientOptions(project)] that depends on the context:
    the document selector and the output channel. *)
Definition getClientOptions (project : option Project) (st : State)
  : (list DocumentFilter * string) * State :=
  let scoped :=
    match project with
    | Some p =>
        map (fun selector =>
               {| f_scheme := f_scheme selector;
                  f_language := f_language selector;
                  f_pattern := Some (fsPath (p_uri p) ++ "/**/*") |})
            clangdDocumentSelector
    | None => []
    end in
  let isActive :=
    match project with
    | None => true
    | Some p =>
        match getActiveProject st with
        | Some a => sameProject a p
        | None => false
        end
    end in
  let documentSelector :=
    if isActive
    then (scoped ++ map (fun document =>
                           {| f_scheme := None; f_language := None;
                              f_pattern := Some (fsPath (doc_uri document)) |})
                        (unmatchedDocuments st))%list
    else scoped in
  let '(outputChannel, st1) := getOutputChannel project st in
  ((documentSelector, outputChannel), st1).

Definition maxRestartCount (st : State) : nat :=
  if restartAfterCrash st then 4%nat else 0%nat.

(** [createNewClient(serverOptions, clientOptions)]: a new client object at
    the next free address, with the error handler and the feature
    installed. *)
Definition createNewClient (so : option ServerOptions)
    (options : list DocumentFilter * string) (st : State) : nat * State :=
  let c := {| c_serverOptions := so;
              c_documentSelector := fst options;
              c_outputChannel := snd options;
              c_maxRestartCount := maxRestartCount st;
              c_features := 1%nat;
              c_started := false; c_disposed := false |} in
  (List.length (clientObjs st),
   with_clients (clients st) (clientObjs st ++ [c]) st).

(** [createClient(project, serverOptions)] *)
Definition createClient (project : option Project) (so : option ServerOptions)
    (st : State) : nat * State :=
  let '(options, st1) := getClientOptions project st in
  let '(addr, st2) := createNewClient so options st1 in
  let configure (c : Client) :=
    {| c_serverOptions := c_serverOptions c;
       c_documentSelector := c_documentSelector c;
       c_outputChannel := c_outputChannel c;
       c_maxRestartCount := maxRestartCount st2;
       c_features := S (c_features c);
       c_started := c_started c; c_disposed := c_disposed c |} in
  let start (c : Client) :=
    {| c_serverOptions := c_serverOptions c;
       c_documentSelector := c_documentSelector c;
       c_outputChannel := c_outputChannel c;
       c_maxRestartCount := c_maxRestartCount c;
       c_features := c_features c;
       c_started := true; c_disposed := c_disposed c |} in
  let st3 := with_clients (clients st2) (alter configure addr (clientObjs st2)) st2 in
  let st4 := with_clients (<[keyOf project := addr]> (clients st3)) (clientObjs st3) st3 in
  (addr, with_clients (clients st4) (alter start addr (clientObjs st4)) st4).

(** [client.dispose()] on the object at an address *)
Definition disposeObj (c : Client) : Client :=
  {| c_serverOptions := c_serverOptions c;
     c_documentSelector := c_documentSelector c;
     c_outputChannel := c_outputChannel c;
     c_maxRestartCount := c_maxRestartCount c;
     c_features := c_features c;
     c_started := c_started c; c_disposed := true |}.

(** The statements [disposeClient] is made of *)
Inductive Stmt :=
| ClientsDelete (id : string)          (* this.clients.delete(id) *)
| ClientDispose (addr : nat).          (* client.dispose() *)

Definition exec (st : State) (s : Stmt) : State :=
  match s with
  | ClientsDelete id => with_clients (delete id (clients st)) (clientObjs st) st
  | ClientDispose addr =>
      with_clients (clients st) (alter disposeObj addr (clientObjs st)) st
  end.

(** The statements [disposeClient(id)] executes, in their order *)
Definition disposeClient_body (id : string) (st : State) : list Stmt :=
  match clients st !! id with
  | Some c => [ClientsDelete id; ClientDispose c]
  | None => []
  end.

(** [disposeClient(id)] *)
Definition disposeClient (id : string) (st : State) : State :=
  foldl exec st (disposeClient_body id st).

(** The states a statement sequence passes through, the first included *)
Fixpoint trace (st : State) (body : list Stmt) : list State :=
  match body with
  | [] => [st]
  | s :: rest => st :: trace (exec st s) rest
  end.

(** [this.clients.get(id)?.dispose()] *)
Definition disposeRegistered (id : string) (st : State) : State :=
  match clients st !! id with
  | Some c => exec st (ClientDispose c)
  | None => st
  end.

(** The setter of [activeProjectOverride] *)
Definition set_activeProjectOverride (project : option Project) (st : State)
  : State :=
  let oldActiveProject := _activeProjectOverride st in
  let st1 := with_override project st in
  let st2 :=
    match oldActiveProject with
    | Some old =>
        snd (createClient (Some old) (serverOptions st1)
               (disposeClient (p_id old) st1))
    | None => st1
    end in
  match project with
  | Some p =>
      snd (createClient (Some p) (serverOptions st2) (disposeClient (p_id p) st2))
  | None => st2
  end.

(** [list?.includes(project)] *)
Definition includesProject (l : option (list Project)) (p : Project) : bool :=
  match l with
  | Some ps => JS.includes sameProject ps p
  | None => false
  end.

(** The listener that [activate] installs on [projectService.onProjectsChanged] *)
Definition onProjectsChanged (change : ProjectsChange) (st : State) : State :=
  match _activeProjectOverride st with
  | None => st
  | Some override =>
      if includesProject (removed change) override then
        with_override None (disposeRegistered (p_id override) st)
      else if includesProject (updated change) override then
        snd (createClient (Some override) (serverOptions st)
               (disposeRegistered (p_id override) st))
      else st
  end.

(** [activate(globalStoragePath)].  [clangdPath] is what [install.activate]
    found.  The open listener is also called for every document that is
    already open; each of these calls parks at its first [await] and is
    continued as an open event of its own. *)
Definition activate (clangdPath : option string) (arguments : list string)
    (st : State) : State :=
  match clangdPath with
  | None => st
  | Some path =>
      let so := Some {| command := path; args := arguments |} in
      if ProjectService._isEnabled (projectService st) then
        with_activation so true st
      else
        let st1 := with_activation so (listening st) st in
        let '(options, st2) := getClientOptions None st1 in
        let '(addr, st3) := createNewClient so options st2 in
        let configure (c : Client) :=
          {| c_serverOptions := c_serverOptions c;
             c_documentSelector := c_documentSelector c;
             c_outputChannel := c_outputChannel c;
             c_maxRestartCount := maxRestartCount st3;
             c_features := S (c_features c);
             c_started := true; c_disposed := c_disposed c |} in
        with_clients (<["*" := addr]> (clients st3))
                     (alter configure addr (clientObjs st3)) st3
  end.

(** What an [async] listener has done when control returns to the host
    after its last statement, or why it has not. *)
Inductive Handled :=
| Parked                                  (* waits for the readiness gate *)
| Finished (st : State)
| Failed (msg : string) (st : State).

(** The statements of [didOpenTextDocument] after
    [await this.projectService.resolve(document.uri, true)] has produced
    [project]. *)
Definition didOpenTextDocument_resume (document : TextDocument)
    (project : option Project) (st : State) : State :=
  match project with
  | None =>
      let activeProject := getActiveProject st in
      let st1 :=
        if JS.includes sameDocument (unmatchedDocuments st) document then st
        else with_unmatched (unmatchedDocuments st ++ [document]) st in
      snd (createClient activeProject (serverOptions st1)
             (disposeClient (keyOf activeProject) st1))
  | Some p => snd (createClient (Some p) (serverOptions st) st)
  end.

(** [didOpenTextDocument(document, serverOptions)] *)
Definition didOpenTextDocument (env : ProjectService.Env)
    (document : TextDocument) (st : State) : Handled :=
  if negb (isClangdDocument document) then Finished st
  else
    match ProjectService.resolve env (doc_uri document) true (projectService st) with
    | ProjectService.Waiting => Parked
    | ProjectService.Rejected msg svc => Failed msg (with_service svc st)
    | ProjectService.Resolved project svc =>
        Finished (didOpenTextDocument_resume document project (with_service svc st))
    end.

(** The statements of [didCloseTextDocument] after
    [await this.projectService.resolve(document.uri)] has produced
    [project]; [textDocuments] is [vscode.workspace.textDocuments]. *)
Definition didCloseTextDocument_resume (textDocuments : list TextDocument)
    (document : TextDocument) (project : option Project) (st : State) : State :=
  match project with
  | None =>
      let index := JS.indexOf sameDocument (unmatchedDocuments st) document in
      if index <? -1
      then with_unmatched (snd (JS.splice_from (unmatchedDocuments st) index)) st
      else st
  | Some p =>
      if match _activeProjectOverride st with
         | Some override => sameProject p override
         | None => false
         end
      then st
      else if existsb (fun d => JS.startsWith (doc_uri d) (p_uri p)
                                && negb (doc_isClosed d)) textDocuments
      then st
      else disposeClient (p_id p) st
  end.

(** [didCloseTextDocument(document)] *)
Definition didCloseTextDocument (env : ProjectService.Env)
    (textDocuments : list TextDocument) (document : TextDocument) (st : State)
  : Handled :=
  if negb (isClangdDocument document) then Finished st
  else
    match ProjectService.resolve env (doc_uri document) false (projectService st) with
    | ProjectService.Waiting => Parked
    | ProjectService.Rejected msg svc => Failed msg (with_service svc st)
    | ProjectService.Resolved project svc =>
        Finished (didCloseTextDocument_resume textDocuments document project
                    (with_service svc st))
    end.

(** [dispose()] *)
Definition dispose (st : State) : State :=
  let st1 :=
    foldl (fun s kv => exec s (ClientDispose (snd kv))) st (map_to_list (clients st)) in
  with_channels ∅ (with_clients ∅ (clientObjs st1) (with_activation (serverOptions st1) false st1)).

End ClangdContext.

(** ** Concrete workspaces and states used in the examples below *)
Module Scenarios.
Import Host.

(** A workspace with a folder nested in another one *)
Definition nestedFolders : list WorkspaceFolder :=
  [ mkFolder "file:///a" "a"; mkFolder "file:///a/sub" "sub" ].

(** A workspace in which the name of one folder starts with the name of
    a sibling *)
Definition siblingFolders : list WorkspaceFolder :=
  [ mkFolder "file:///a" "a"; mkFolder "file:///ab" "ab";
    mkFolder "file:///ab/sub" "sub" ].

(** A build directory with a compilation database below [/proj] *)
Definition fsWithBuild : CmakeProjectStrategy.FileSystem :=
  {| CmakeProjectStrategy.existing := {[ "/proj/build/compile_commands.json" ]};
     CmakeProjectStrategy.globDirs :=
       fun cwd => if bool_decide (cwd = "/proj") then Some ["build/"] else Some [] |}.

(** The same workspace after the build directory has been deleted *)
Definition fsAfterDelete : CmakeProjectStrategy.FileSystem :=
  {| CmakeProjectStrategy.existing := ∅;
     CmakeProjectStrategy.globDirs := fun cwd => Some [] |}.

Definition projFolders : list WorkspaceFolder := [ mkFolder "file:///proj" "proj" ].

Definition cfgOn : ProjectService.Config :=
  {| ProjectService.cfg_enabled := true;
     ProjectService.cfg_strategy := WorkspaceFolderStrategy.ID;
     ProjectService.cfg_defaultStrategy := WorkspaceFolderStrategy.ID |}.

Definition envNested : ProjectService.Env :=
  {| ProjectService.env_folders := nestedFolders;
     ProjectService.env_fs := fsAfterDelete |}.

(** A service without declared external strategies, after [initialize()] *)
Definition svcReady : ProjectService.State :=
  ProjectService.afterCompletion
    (ProjectService.initialize envNested (ProjectService.new cfgOn [])).

(** A service that waits for the external strategy ["ext"] *)
Definition svcWaiting : ProjectService.State :=
  ProjectService.afterCompletion
    (ProjectService.initialize envNested
       (ProjectService.new cfgOn [ProjectService.DeclString "ext"])).

Definition extStrategy : ProjectService.Strategy :=
  {| ProjectService.strategy_obj := 9; ProjectService.strategy_id := "ext" |}.

Definition docA : TextDocument := mkDocument 0 "file:///a/x.cpp" "cpp" false.
Definition docA2 : TextDocument := mkDocument 1 "file:///a/sub/y.cpp" "cpp" false.
Definition docOutside : TextDocument := mkDocument 2 "file:///tmp/z.c" "c" false.

(** The project the folder strategy created for [/a] *)
Definition projectA : Project :=
  {| p_obj := 0; p_id := "file:///a"; p_label := Some "a"; p_uri := "file:///a" |}.

(** A second object for the same project, as [createProject] returns it *)
Definition projectA_again : Project :=
  {| p_obj := 2; p_id := "file:///a"; p_label := Some "a"; p_uri := "file:///a" |}.

Definition completed {S : Type} (c : JS.Completion S) : S :=
  match c with
  | JS.Normal s => s
  | JS.Thrown _ s => s
  end.

(** The folder strategy after [initialize()] in the nested workspace *)
Definition strategyNested : WorkspaceFolderStrategy.State :=
  completed (WorkspaceFolderStrategy.initialize nestedFolders
               WorkspaceFolderStrategy.initial).

(** The event the folder strategy fires when the folder [/a/sub] is taken
    out of the nested workspace *)
Definition changeRemovedA : ProjectsChange :=
  List.last
    (WorkspaceFolderStrategy.fired
       (completed (WorkspaceFolderStrategy.onDidChangeWorkspaceFolders
                     [ mkFolder "file:///a" "a" ] []
                     [ mkFolder "file:///a/sub" "sub" ] strategyNested)))
    {| added := None; removed := None; updated := None |}.

(** An activated context of the ready service *)
Definition ctxActivated : ClangdContext.State :=
  ClangdContext.activate (Some "/usr/bin/clangd") []
    (ClangdContext.new svcReady true).

Definition finished (h : ClangdContext.Handled) (dflt : ClangdContext.State)
  : ClangdContext.State :=
  match h with
  | ClangdContext.Finished st => st
  | _ => dflt
  end.

(** The context after [docA] has been opened *)
Definition ctxWithClient : ClangdContext.State :=
  finished (ClangdContext.didOpenTextDocument envNested docA ctxActivated)
           ctxActivated.

(** The context after [docOutside] has been opened as well *)
Definition ctxWithUnmatched : ClangdContext.State :=
  finished (ClangdContext.didOpenTextDocument envNested docOutside ctxWithClient)
           ctxWithClient.

(** The context with [projectA] pinned as the override *)
Definition ctxPinned : ClangdContext.State :=
  ClangdContext.set_activeProjectOverride (Some projectA) ctxWithClient.

End Scenarios.

(** ** [ClangdLanguageClient] and the middleware of the client options *)
Module LanguageClient.

(** A feature of a language client: the object, and whether it is an
    instance of [ExecuteCommandFeature]. *)
Record Feature := mkFeature {
  feat_obj : nat;
  feat_isExecuteCommand : bool;
}.

(** [a === b] on features *)
Definition sameFeature (a b : Feature) : bool :=
  bool_decide (feat_obj a = feat_obj b).

(** [arr.splice(start, 1)]: takes at most one element out, at [start]; a
    negative [start] counts from the end. *)
Definition splice_one {A : Type} (arr : list A) (start : Z) : list A :=
  let len := Z.of_nat (List.length arr) in
  let from := if start <? 0 then Z.max (len + start) 0
              else Z.min start len in
  (take (Z.to_nat from) arr ++ drop (S (Z.to_nat from)) arr)%list.

(** [deactivateExecuteCommandFeature()], on the array [this['_features']];
    [toRemove] is [undefined] when [find] finds nothing, and [indexOf] of
    [undefined] is [-1]. *)
Definition deactivateExecuteCommandFeature (features : list Feature)
  : list Feature :=
  let toRemove := find feat_isExecuteCommand features in
  let index :=
    match toRemove with
    | Some f => JS.indexOf sameFeature features f
    | None => -1
    end in
  splice_one features index.

(** [s.includes(sub)] *)
Fixpoint includesStr (s sub : string) : bool :=
  String.prefix sub s
  || match s with
     | EmptyString => false
     | String _ rest => includesStr rest sub
     end.

Record SymbolInformation := mkSymbol {
  sym_name : string;
  sym_containerName : option string;   (* [None] is [undefined] *)
}.

(** The function that [provideWorkspaceSymbols] maps over the symbols *)
Definition qualifySymbol (query : string) (symbol : SymbolInformation)
  : SymbolInformation :=
  if includesStr query "::" then
    {| sym_name :=
         match sym_containerName symbol with
         | Some container =>
             if bool_decide (container = "") then sym_name symbol
             else container ++ "::" ++ sym_name symbol
         | None => sym_name symbol
         end;
       sym_containerName := Some "" |}
  else symbol.

(** The middleware [provideWorkspaceSymbols], applied to what [next]
    returned ([None] for [undefined]) *)
Definition provideWorkspaceSymbols (query : string)
    (symbols : option (list SymbolInformation))
  : option (list SymbolInformation) :=
  map (qualifySymbol query) <$> symbols.

End LanguageClient.

(** ** Locations without escapes

    [Host.fsPath] and [Host.Uri_file] work on the text of a uri as it
    stands.  On a POSIX host they give what [uri.fsPath] and
    [vscode.Uri.file(path).toString()] give exactly for the locations
    delimited here: an empty authority, and a path in which [toString()]
    finds nothing to escape, [Uri.file] no slash to add and no authority or
    drive letter to split off, and [path.join] nothing to normalize.
    Statements that name the value of [fsPath] or of [Uri.file] are made
    for these locations. *)
Module Locations.

(** The unreserved characters of RFC 3986; [toString()] leaves them as
    they are. *)
Definition unreserved (c : ascii) : bool :=
  let n := nat_of_ascii c in
  ((97 <=? n) && (n <=? 122) || (65 <=? n) && (n <=? 90)
   || (48 <=? n) && (n <=? 57))%nat
  || bool_decide (c = "-"%char) || bool_decide (c = "."%char)
  || bool_decide (c = "_"%char) || bool_decide (c = "~"%char).

(** A character of a path without escapes *)
Definition plainChar (c : ascii) : bool :=
  unreserved c || bool_decide (c = "/"%char).

Fixpoint allChars (f : ascii -> bool) (s : string) : bool :=
  match s with
  | EmptyString => true
  | String c rest => f c && allChars f rest
  end.

(** A path segment that [path.join] keeps: not empty, not [.] and not
    [..] *)
Definition keptSegment (seg : string) : bool :=
  negb (bool_decide (seg = "")) && negb (bool_decide (seg = "."))
  && negb (bool_decide (seg = "..")).

(** The rest of a path, read after the segment [seg] has been started:
    unreserved characters only, and every segment is kept. *)
Fixpoint normalFrom (seg : string) (p : string) : bool :=
  match p with
  | EmptyString => keptSegment seg
  | String c rest =>
      if bool_decide (c = "/"%char)
      then keptSegment seg && normalFrom "" rest
      else unreserved c && normalFrom (seg ++ String c EmptyString) rest
  end.

(** An absolute path [/s1/.../sn] with at least one segment, as
    [path.normalize] leaves it, made of unreserved characters *)
Definition normalPath (p : string) : bool :=
  match p with
  | String c rest => bool_decide (c = "/"%char) && normalFrom "" rest
  | EmptyString => false
  end.

(** The text of a [file:] uri with an empty authority and a path without
    escapes *)
Definition plainFileUri (uri : string) : bool :=
  JS.startsWith uri "file:///" && allChars plainChar (Host.fsPath uri).

(** A document whose location is such a uri *)
Definition plainDocument (document : Host.TextDocument) : bool :=
  plainFileUri (Host.doc_uri document).

(** A project, if any, whose location is such a uri *)
Definition plainProject (project : option Project) : bool :=
  match project with
  | Some p => plainFileUri (p_uri p)
  | None => true
  end.

End Locations.

(** Names for the two kinds of filter [getClientOptions] puts into a
    document selector *)
Module Selectors.
Import Host ClangdContext.

(** [clangdDocumentSelector.map(selector => ({...selector, pattern:
    `${project.uri.fsPath}/**/*`}))] *)
Definition projectFilters (project : option Project) : list DocumentFilter :=
  match project with
  | Some p =>
      map (fun selector =>
             {| f_scheme := f_scheme selector;
                f_language := f_language selector;
                f_pattern := Some (fsPath (p_uri p) ++ "/**/*") |})
          clangdDocumentSelector
  | None => []
  end.

(** [document => ({'pattern': document.uri.fsPath})] *)
Definition documentFilter (document : TextDocument) : DocumentFilter :=
  {| f_scheme := None; f_language := None;
     f_pattern := Some (fsPath (doc_uri document)) |}.

End Selectors.

Module Fixtures.
Import Host.

(** The nested workspace after the folder [/a] has been taken out of it *)
Definition foldersWithoutA : list WorkspaceFolder :=
  [ mkFolder "file:///a/sub" "sub" ].

(** A workspace folder given with a final slash *)
Definition folderWithSlash : WorkspaceFolder := mkFolder "file:///a/" "a".

(** A file system whose glob fails *)
Definition fsGlobFails : CmakeProjectStrategy.FileSystem :=
  {| CmakeProjectStrategy.existing := ∅;
     CmakeProjectStrategy.globDirs := fun cwd => None |}.

(** The build-directory strategy after [initialize()] below [/proj] *)
Definition cmakeReady : CmakeProjectStrategy.State :=
  Scenarios.completed
    (CmakeProjectStrategy.initialize Scenarios.fsWithBuild Scenarios.projFolders
       CmakeProjectStrategy.initial).

(** A second build directory appears below [/other] *)
Definition fsTwoBuilds : CmakeProjectStrategy.FileSystem :=
  {| CmakeProjectStrategy.existing :=
       {[ "/proj/build/compile_commands.json"; "/other/build/compile_commands.json" ]};
     CmakeProjectStrategy.globDirs := fun cwd => Some [] |}.

(** The features of a client: some feature, the [ExecuteCommandFeature],
    and the feature registered last *)
Definition clientFeatures : list LanguageClient.Feature :=
  [ LanguageClient.mkFeature 0 false; LanguageClient.mkFeature 1 true;
    LanguageClient.mkFeature 2 false ].

(** A configuration that names a strategy nobody registers *)
Definition cfgUnknown : ProjectService.Config :=
  {| ProjectService.cfg_enabled := true;
     ProjectService.cfg_strategy := "no.such.strategy";
     ProjectService.cfg_defaultStrategy := WorkspaceFolderStrategy.ID |}.

(** The service after [initialize()] under that configuration *)
Definition svcUnknown : ProjectService.State :=
  ProjectService.afterCompletion
    (ProjectService.initialize Scenarios.envNested
       (ProjectService.new cfgUnknown [])).

End Fixtures.

(** The order in which [getSortedWorkspaces] keeps the folder names: by
    length, the shortest first *)
Module Orders.

Definition notLonger (a b : string) : Prop :=
  (String.length a <= String.length b)%nat.

End Orders.

(** * Properties *)

(** ** Array primitives *)
Module JSFacts.

Lemma indexOf_from_lower_bound {A : Type} (same : A -> A -> bool)
    (arr : list A) (x : A) (i : Z) :
  0 <= i -> -1 <= JS.indexOf_from same i arr x.
Proof.
  revert i. induction arr as [|y rest IH]; intros i Hi; simpl.
  - lia.
  - destruct (same y x); [lia|]. apply IH. lia.
Qed.

Lemma indexOf_lower_bound {A : Type} (same : A -> A -> bool)
    (arr : list A) (x : A) :
  -1 <= JS.indexOf same arr x.
Proof. apply indexOf_from_lower_bound. lia. Qed.

Lemma indexOf_from_absent {A : Type} (same : A -> A -> bool)
    (arr : list A) (x : A) (i : Z) :
  Forall (fun y => same y x = false) arr ->
  JS.indexOf_from same i arr x = -1.
Proof.
  intros Hall. revert i.
  induction Hall as [|y rest Hy _ IH]; intros i; simpl; [done|].
  rewrite Hy. apply IH.
Qed.

Lemma includes_absent {A : Type} (same : A -> A -> bool)
    (arr : list A) (x : A) :
  Forall (fun y => same y x = false) arr ->
  JS.includes same arr x = false.
Proof.
  unfold JS.includes.
  induction 1 as [|y rest Hy _ IH]; simpl; [done|].
  by rewrite Hy, IH.
Qed.

Lemma insertByLength_length (x : string) (l : list string) :
  List.length (JS.insertByLength x l) = S (List.length l).
Proof.
  induction l as [|y rest IH]; simpl; [done|].
  destruct (_ <=? _)%nat; simpl; [by rewrite IH | done].
Qed.

Lemma sortByLength_length (l : list string) :
  List.length (JS.sortByLength l) = List.length l.
Proof.
  unfold JS.sortByLength.
  assert (forall acc, List.length (foldl (fun acc x => JS.insertByLength x acc) acc l)
                      = (List.length l + List.length acc)%nat) as H.
  { induction l as [|x rest IH]; intros acc; simpl; [done|].
    rewrite IH, insertByLength_length. lia. }
  rewrite H. simpl. lia.
Qed.

Lemma prefix_refl (s : string) : String.prefix s s = true.
Proof. induction s as [|c s IH]; simpl; [done|]. destruct (ascii_dec c c); [done|congruence]. Qed.

Lemma prefix_nil (s : string) : String.prefix "" s = true.
Proof. by destruct s. Qed.

Lemma prefix_trans (a b c : string) :
  String.prefix a b = true -> String.prefix b c = true -> String.prefix a c = true.
Proof.
  revert b c. induction a as [|x a IH]; intros b c Hab Hbc; [apply prefix_nil|].
  destruct b as [|y b]; simpl in Hab; [done|].
  destruct c as [|z c]; simpl in Hbc; [done|]. simpl.
  destruct (ascii_dec x y) as [->|]; [|done].
  destruct (ascii_dec y z) as [->|]; [|done].
  destruct (ascii_dec z z); [|congruence]. eauto.
Qed.

Lemma prefix_app (a b : string) : String.prefix a (a ++ b) = true.
Proof.
  induction a as [|x a IH]; simpl; [apply prefix_nil|].
  destruct (ascii_dec x x); [done|congruence].
Qed.

Lemma insertByLength_elem (x y : string) (l : list string) :
  y ∈ JS.insertByLength x l -> y = x \/ y ∈ l.
Proof.
  induction l as [|z rest IH]; simpl.
  - intros H. apply list_elem_of_singleton in H. by left.
  - destruct (_ <=? _)%nat.
    + intros H. apply elem_of_cons in H as [->|H].
      * right. apply list_elem_of_here.
      * destruct (IH H) as [->|Hin]; [by left|]. right. by apply list_elem_of_further.
    + intros H. apply elem_of_cons in H as [->|H]; [by left | by right].
Qed.

Lemma sortByLength_elem (y : string) (l : list string) :
  y ∈ JS.sortByLength l -> y ∈ l.
Proof.
  unfold JS.sortByLength.
  assert (forall acc, y ∈ foldl (fun acc x => JS.insertByLength x acc) acc l ->
                      y ∈ acc \/ y ∈ l) as H.
  { induction l as [|x rest IH]; intros acc Hy; simpl in Hy; [by left|].
    destruct (IH _ Hy) as [Hacc|Hrest].
    - destruct (insertByLength_elem _ _ _ Hacc) as [->|Hin]; [|by left].
      right. apply list_elem_of_here.
    - right. by apply list_elem_of_further. }
  intros Hy. destruct (H [] Hy) as [Hnil|Hl]; [|done]. by apply elem_of_nil in Hnil.
Qed.

Lemma find_split {A : Type} (P : A -> bool) (l : list A) (x : A) :
  find P l = Some x ->
  exists pre post, l = (pre ++ x :: post)%list /\ P x = true
                   /\ Forall (fun y => P y = false) pre.
Proof.
  induction l as [|y rest IH]; simpl; [discriminate|].
  destruct (P y) eqn:Hy.
  - intros [= ->]. exists [], rest. repeat split; [done | constructor].
  - intros H. destruct (IH H) as (pre & post & -> & Hx & Hpre).
    exists (y :: pre), post. repeat split; [done | by constructor].
Qed.

Lemma find_skip {A : Type} (P : A -> bool) (pre post : list A) (x : A) :
  Forall (fun y => P y = false) pre -> P x = true ->
  find P (pre ++ x :: post) = Some x.
Proof.
  induction 1 as [|y pre Hy _ IH]; intros Hx; simpl; [by rewrite Hx|].
  rewrite Hy. by apply IH.
Qed.

Lemma find_in_front {A : Type} (P : A -> bool) (pre post : list A) (x : A) :
  x ∈ pre -> P x = true ->
  exists y, find P (pre ++ post) = Some y /\ y ∈ pre /\ P y = true.
Proof.
  induction pre as [|z pre IH]; intros Hin Hx; [by apply elem_of_nil in Hin|].
  simpl. destruct (P z) eqn:Hz.
  - exists z. repeat split; [apply list_elem_of_here | done].
  - apply elem_of_cons in Hin as [->|Hin]; [congruence|].
    destruct (IH Hin Hx) as (y & Hf & Hy & HP).
    exists y. repeat split; [done | by apply list_elem_of_further | done].
Qed.

End JSFacts.

(** ** The folder-based strategy *)
Module WorkspaceFolderStrategyFacts.
Import Host WorkspaceFolderStrategy.

Lemma pushProjects_length (ws : list (option WorkspaceFolder)) (st st' : State) :
  pushProjects ws st = JS.Normal st' ->
  List.length (projects st') = (List.length (projects st) + List.length ws)%nat.
Proof.
  revert st. induction ws as [|w rest IH]; intros st H; simpl in H.
  - injection H as <-. simpl. lia.
  - destruct w as [w|]; [|discriminate].
    apply IH in H. rewrite H. simpl. rewrite length_app. simpl. lia.
Qed.

(** [initialize()] pushes one project for every workspace folder, nested
    or not. *)
Lemma initialize_one_entry_per_folder (folders : list WorkspaceFolder) (st : State) :
  initialize folders initial = JS.Normal st ->
  List.length (projects st) = List.length folders.
Proof.
  unfold initialize, getSortedWorkspaces. cbn [sortedWorkspaces].
  destruct (pushProjects _ _) as [st2|msg st2] eqn:Hpush; [|discriminate].
  intros [= <-]. cbn [fire projects].
  apply pushProjects_length in Hpush. rewrite Hpush. simpl.
  by rewrite length_map, JSFacts.sortByLength_length, length_map.
Qed.

Lemma mapCreate_new_objects (folders : list WorkspaceFolder) (st : State)
    (ws : list WorkspaceFolder) (o o' : nat) (ps : list Project) :
  mapCreate folders st o ws = Some (ps, o') ->
  (o <= o')%nat /\ Forall (fun p => (o <= p_obj p < o')%nat) ps.
Proof.
  revert o o' ps. induction ws as [|w rest IH]; intros o o' ps H; simpl in H.
  - injection H as <- <-. split; [lia | constructor].
  - destruct (getOuterMostWorkspaceFolder folders st w) as [outer|]; [|discriminate].
    destruct (mapCreate folders st (S o) rest) as [[ps1 o1]|] eqn:Hrest; [|discriminate].
    injection H as <- <-. destruct (IH _ _ _ Hrest) as [Hle Hall].
    split; [lia|]. constructor; [simpl; lia|].
    eapply Forall_impl; [exact Hall|]. intros p Hp. simpl in Hp. lia.
Qed.

(** Every project that the workspace-folder listener puts into an event is
    a new object: none of them is an element of the strategy's own list. *)
Lemma listener_lists_new_objects
    (folders ev_added ev_removed : list WorkspaceFolder) (st st' : State) :
  wellFormed st ->
  onDidChangeWorkspaceFolders folders ev_added ev_removed st = JS.Normal st' ->
  exists added_ps removed_ps,
    fired st' = (fired st ++ [ {| added := Some added_ps;
                                  removed := Some removed_ps;
                                  updated := None |} ])%list
    /\ Forall (fun r => Forall (fun p => p_obj r <> p_obj p) (projects st)) removed_ps.
Proof.
  intros Hwf. unfold onDidChangeWorkspaceFolders.
  destruct (mapCreate folders st (nextObj st) ev_added) as [[aps o1]|] eqn:Ha;
    [|discriminate].
  destruct (mapCreate folders st o1 ev_removed) as [[rps o2]|] eqn:Hr; [|discriminate].
  intros [= <-]. exists aps, rps. split; [reflexivity|].
  destruct (mapCreate_new_objects _ _ _ _ _ _ Ha) as [Hle1 _].
  destruct (mapCreate_new_objects _ _ _ _ _ _ Hr) as [_ Hnew].
  eapply Forall_impl; [exact Hnew|]. intros r Hr'.
  eapply Forall_impl; [exact Hwf|]. intros p Hp. simpl in *. lia.
Qed.

Lemma pushProjects_wellFormed (ws : list (option WorkspaceFolder)) (st : State) :
  wellFormed st ->
  match pushProjects ws st with
  | JS.Normal st' | JS.Thrown _ st' => wellFormed st'
  end.
Proof.
  revert st. induction ws as [|w rest IH]; intros st Hwf; simpl; [done|].
  destruct w as [w|]; [|done]. apply IH.
  unfold wellFormed. cbn [projects nextObj]. apply Forall_app. split.
  - eapply Forall_impl; [exact Hwf|]. intros p Hp. simpl in Hp. lia.
  - constructor; [simpl; lia | constructor].
Qed.

Lemma initialize_wellFormed (folders : list WorkspaceFolder) (st : State) :
  wellFormed st ->
  match initialize folders st with
  | JS.Normal st' | JS.Thrown _ st' => wellFormed st'
  end.
Proof.
  intros Hwf. unfold initialize, getSortedWorkspaces.
  match goal with
  | |- context [pushProjects ?ws ?s] =>
      pose proof (pushProjects_wellFormed ws s Hwf) as H;
      destruct (pushProjects ws s) as [st2|msg st2]
  end; exact H.
Qed.

Lemma uri_prefix_toUri (f : WorkspaceFolder) : String.prefix (wf_uri f) (toUri f) = true.
Proof. unfold toUri. destruct (JS.endsWithChar _ _); [apply JSFacts.prefix_refl | apply JSFacts.prefix_app]. Qed.

Lemma pushProjects_extends (ows : list (option WorkspaceFolder)) (st st' : State) :
  pushProjects ows st = JS.Normal st' ->
  sortedWorkspaces st' = sortedWorkspaces st
  /\ exists extra, projects st' = (projects st ++ extra)%list.
Proof.
  revert st. induction ows as [|o rest IH]; intros st H; simpl in H.
  - injection H as <-. split; [done|]. exists []. by rewrite app_nil_r.
  - destruct o as [w|]; [|discriminate].
    destruct (IH _ H) as (Hs & extra & Hp). cbn in Hs, Hp.
    split; [done|]. eexists. rewrite Hp, <- app_assoc. reflexivity.
Qed.

Lemma pushProjects_resolve (u : string) (ows : list (option WorkspaceFolder))
    (st st' : State) (f : WorkspaceFolder) :
  pushProjects ows st = JS.Normal st' ->
  find (fun p => JS.startsWith u (p_uri p)) (projects st) = None ->
  find (matchesFolder u) ows = Some (Some f) ->
  exists p, resolve st' u = Some p
            /\ p_uri p = wf_uri f /\ p_id p = wf_uri f /\ p_label p = Some (wf_name f).
Proof.
  revert st. induction ows as [|o rest IH]; intros st Hpush Hnone Hfind;
    simpl in Hpush, Hfind; [discriminate|].
  destruct o as [w|]; [|discriminate]. cbn [matchesFolder] in Hfind.
  destruct (JS.startsWith u (wf_uri w)) eqn:Hw.
  - injection Hfind as ->.
    destruct (pushProjects_extends _ _ _ Hpush) as (_ & extra & Hp). cbn in Hp.
    exists (createProject (nextObj st) f). unfold resolve. rewrite Hp.
    split; [|done]. rewrite <- app_assoc. simpl.
    assert (forall l, find (fun p => JS.startsWith u (p_uri p)) (projects st ++ l)
                      = find (fun p => JS.startsWith u (p_uri p)) l) as Happ.
    { intros l. revert Hnone. generalize (projects st) as ps.
      induction ps as [|q ps IHps]; simpl; [done|].
      destruct (JS.startsWith u (p_uri q)); [discriminate | auto]. }
    rewrite Happ. simpl. by rewrite Hw.
  - apply (IH _ Hpush); [|exact Hfind]. cbn [projects].
    revert Hnone. generalize (projects st) as ps.
    induction ps as [|q ps IHps]; simpl; [by rewrite Hw|].
    destruct (JS.startsWith u (p_uri q)); [discriminate | auto].
Qed.

(** Where no workspace folder has a location that is a prefix of the file's
    location only without its final slash, [resolve] returns the project of
    the outermost workspace folder that contains the file. *)
Lemma resolve_outermost_without_clash
    (folders : list WorkspaceFolder) (st : State) (u : string) (e : string) :
  hostFaithful folders ->
  initialize folders initial = JS.Normal st ->
  Forall (fun g => JS.startsWith u (wf_uri g) = true -> JS.startsWith u (toUri g) = true)
         folders ->
  firstPrefix (sortedWorkspaces st) u = Some e ->
  exists f p,
    getOuterMostWorkspaceFolder_str folders st u = Some f
    /\ resolve st u = Some p
    /\ p_uri p = wf_uri f /\ p_id p = wf_uri f /\ p_label p = Some (wf_name f).
Proof.
  intros Hhost Hinit Hclash Hfirst.
  unfold initialize, getSortedWorkspaces in Hinit.
  set (sorted := JS.sortByLength (map toUri folders)) in *.
  set (st1 := {| subscriptions := _; sortedWorkspaces := sorted |}) in *.
  destruct (pushProjects _ st1) as [st2|msg st2] eqn:Hpush; [|discriminate].
  injection Hinit as <-.
  destruct (pushProjects_extends _ _ _ Hpush) as (Hsorted & _).
  cbn [fire sortedWorkspaces] in Hfirst. rewrite Hsorted in Hfirst. cbn in Hfirst.
  (* every element of the sorted list is answered by the host *)
  assert (forall x, x ∈ sorted ->
            exists g, g ∈ folders /\ getWorkspaceFolder folders x = Some g /\ toUri g = x)
    as Hanswer.
  { intros x Hx. apply JSFacts.sortByLength_elem in Hx.
    apply list_elem_of_fmap in Hx as (f0 & -> & Hf0).
    unfold hostFaithful in Hhost. rewrite Forall_forall in Hhost. exact (Hhost f0 Hf0). }
  destruct (JSFacts.find_split _ _ _ Hfirst) as (pre & post & Hsplit & He & Hpre).
  assert (e ∈ sorted) as Hein by (rewrite Hsplit; apply elem_of_app; right; apply list_elem_of_here).
  destruct (Hanswer e Hein) as (f & Hf & Hget & HtoUri).
  assert (getOuterMostWorkspaceFolder_str folders st1 e = Some f) as HGe.
  { unfold getOuterMostWorkspaceFolder_str. cbn [sortedWorkspaces st1].
    unfold firstPrefix. rewrite Hsplit, JSFacts.find_skip; [done| |apply JSFacts.prefix_refl].
    eapply Forall_impl; [exact Hpre|]. intros x Hx. cbn beta in *.
    destruct (JS.startsWith e x) eqn:Hex; [|done].
    unfold JS.startsWith in *. by rewrite (JSFacts.prefix_trans _ _ _ Hex He) in Hx. }
  exists f.
  assert (exists p, resolve st2 u = Some p /\ p_uri p = wf_uri f /\ p_id p = wf_uri f
                    /\ p_label p = Some (wf_name f)) as (p & Hres & Hp).
  { apply (pushProjects_resolve u _ st1 st2 f Hpush); [done|].
    rewrite Hsplit, map_app. cbn [map]. rewrite HGe.
    apply JSFacts.find_skip.
    - apply Forall_fmap. rewrite Forall_forall. intros x Hx. cbn.
      assert (x ∈ sorted) as Hxs by (rewrite Hsplit; apply elem_of_app; by left).
      destruct (JSFacts.find_in_front (fun el => JS.startsWith x el) pre (e :: post) x Hx
                  (JSFacts.prefix_refl x)) as (y & Hfy & Hy & _).
      unfold getOuterMostWorkspaceFolder_str, firstPrefix. cbn [sortedWorkspaces st1].
      rewrite Hsplit, Hfy.
      assert (y ∈ sorted) as Hys by (rewrite Hsplit; apply elem_of_app; by left).
      destruct (Hanswer y Hys) as (g & Hg & Hgety & HtoUrig).
      rewrite Hgety. cbn [matchesFolder].
      destruct (JS.startsWith u (wf_uri g)) eqn:Hug; [|done].
      rewrite Forall_forall in Hclash. specialize (Hclash g Hg Hug).
      rewrite HtoUrig in Hclash.
      rewrite Forall_forall in Hpre. by rewrite (Hpre y Hy) in Hclash.
    - cbn [matchesFolder]. unfold JS.startsWith in *.
      apply (JSFacts.prefix_trans _ (toUri f)); [apply uri_prefix_toUri | by rewrite HtoUri]. }
  exists p. split; [|split; [exact Hres | exact Hp]].
  unfold getOuterMostWorkspaceFolder_str, firstPrefix. cbn [fire sortedWorkspaces].
  rewrite Hsorted. subst st1. cbn [sortedWorkspaces]. by rewrite Hfirst.
Qed.

Lemma hostFaithful_nested : hostFaithful Scenarios.nestedFolders.
Proof.
  repeat constructor.
  - exists (mkFolder "file:///a" "a").
    split; [apply list_elem_of_here | split; vm_compute; reflexivity].
  - exists (mkFolder "file:///a/sub" "sub").
    split; [apply list_elem_of_further, list_elem_of_here
           | split; vm_compute; reflexivity].
Qed.

(** The lemma above applies to the nested workspace. *)
Lemma resolve_outermost_nested :
  exists f p,
    getOuterMostWorkspaceFolder_str Scenarios.nestedFolders Scenarios.strategyNested
      "file:///a/sub/x.cpp" = Some f
    /\ resolve Scenarios.strategyNested "file:///a/sub/x.cpp" = Some p
    /\ wf_uri f = "file:///a" /\ p_uri p = wf_uri f.
Proof.
  destruct (resolve_outermost_without_clash Scenarios.nestedFolders
              Scenarios.strategyNested "file:///a/sub/x.cpp" "file:///a/"
              hostFaithful_nested) as (f & p & Hf & Hp & Huri & _).
  - vm_compute. reflexivity.
  - repeat constructor; vm_compute; intros; reflexivity.
  - vm_compute. reflexivity.
  - exists f, p. split; [exact Hf|]. split; [exact Hp|]. split; [|exact Huri].
    vm_compute in Hf. by injection Hf as <-.
Defined.

(** The scenario of the specification: with the folders [/a] and [/a/sub],
    a file below [/a/sub] resolves to the project rooted at [/a]. *)
Lemma resolve_nested_scenario :
  exists st p,
    initialize Scenarios.nestedFolders initial = JS.Normal st
    /\ resolve st "file:///a/sub/x.cpp" = Some p
    /\ p_uri p = "file:///a" /\ p_id p = "file:///a".
Proof. do 2 eexists. vm_compute. repeat split; reflexivity. Qed.

(** C4 is not met by the code.  With the workspace
    folders [/a] and [/a/sub], [initialize()] completes with a projects
    list of two entries, both for [/a]: the nested folder contributes an
    entry of its own, and the two entries have the same id. *)
Theorem initialize_nested_lists_project_twice :
  exists st,
    initialize Scenarios.nestedFolders initial = JS.Normal st
    /\ map p_id (projects st) = ["file:///a"; "file:///a"]
    /\ ~ NoDup (map p_id (projects st)).
Proof.
  eexists. split; [vm_compute; reflexivity|]. split; [reflexivity|].
  cbn. intros Hnd. apply NoDup_cons in Hnd as [Hnotin _].
  apply Hnotin. apply list_elem_of_here.
Qed.

(** C5 is not met by the code.  With the workspace
    folders [/a], [/ab] and [/ab/sub], the outermost folder that contains
    [/ab/sub/x.cpp] is [/ab], as [getOuterMostWorkspaceFolder] finds it on
    the slash-terminated folder list; [resolve] compares with the project
    uris, which carry no final slash, and returns the project of [/a]. *)
Theorem resolve_takes_sibling_with_common_prefix :
  exists st,
    initialize Scenarios.siblingFolders initial = JS.Normal st
    /\ sortedWorkspaces st = ["file:///a/"; "file:///ab/"; "file:///ab/sub/"]
    /\ getOuterMostWorkspaceFolder_str Scenarios.siblingFolders st "file:///ab/sub/x.cpp"
       = Some (mkFolder "file:///ab" "ab")
    /\ p_id <$> resolve st "file:///ab/sub/x.cpp" = Some "file:///a".
Proof. eexists. vm_compute. repeat split; reflexivity. Qed.

End WorkspaceFolderStrategyFacts.

(** ** The build-directory strategy *)
Module CmakeProjectStrategyFacts.
Import Host CmakeProjectStrategy.

Lemma wellFormed_initial : wellFormed initial.
Proof. constructor. Qed.

Lemma wellFormed_push (st : State) (uri : string) (evs : list ProjectsChange) :
  wellFormed st ->
  wellFormed {| subscriptions := subscriptions st;
                projects := projects st ++ [createProject (nextObj st) uri];
                fired := evs; nextObj := S (nextObj st) |}.
Proof.
  unfold wellFormed. cbn [projects nextObj]. intros H.
  apply Forall_app. split.
  - eapply Forall_impl; [exact H|]. intros p Hp. simpl in Hp. lia.
  - constructor; [simpl; lia | constructor].
Qed.

Lemma wellFormed_onDidCreate (fs : FileSystem) (uri : string) (st : State) :
  wellFormed st -> wellFormed (onDidCreate fs uri st).
Proof.
  intros H. unfold onDidCreate.
  destruct (getProjectDirectory fs (fsPath uri)); [|done].
  by apply wellFormed_push.
Qed.

(** A project that [createProject] has just returned is not an element of
    the list, so [indexOf] answers [-1]. *)
Lemma indexOf_created (st : State) (uri : string) :
  wellFormed st ->
  JS.indexOf sameProject (projects st) (createProject (nextObj st) uri) = -1.
Proof.
  intros H. apply JSFacts.indexOf_from_absent.
  eapply Forall_impl; [exact H|].
  intros p Hp. unfold sameProject. apply bool_decide_eq_false. simpl in *. lia.
Qed.

(** The delete listener never changes the project list and never fires
    an event. *)
Lemma onDidDelete_keeps_projects (fs : FileSystem) (uri : string) (st : State) :
  wellFormed st ->
  projects (onDidDelete fs uri st) = projects st
  /\ fired (onDidDelete fs uri st) = fired st
  /\ wellFormed (onDidDelete fs uri st).
Proof.
  intros H. unfold onDidDelete.
  destruct (getProjectDirectory fs (fsPath uri)) as [dir|]; [|done].
  rewrite (indexOf_created st dir H).
  replace (0 <=? -1) with false by reflexivity. cbn [projects fired].
  repeat split.
  unfold wellFormed. cbn [projects nextObj].
  eapply Forall_impl; [exact H|]. intros p Hp. simpl in Hp. lia.
Qed.

Lemma wellFormed_pushMatches (fs : FileSystem) (cwd : string)
    (matches : list string) (st : State) :
  wellFormed st -> wellFormed (pushMatches fs cwd matches st).
Proof.
  revert st. induction matches as [|m rest IH]; intros st Hwf; simpl; [done|].
  destruct (getProjectDirectory fs (path_join cwd m)); [|by apply IH].
  apply IH. by apply wellFormed_push.
Qed.

Lemma wellFormed_findProjects (fs : FileSystem) (folders : list WorkspaceFolder)
    (st : State) :
  wellFormed st ->
  match findProjects fs folders st with
  | JS.Normal st' | JS.Thrown _ st' => wellFormed st'
  end.
Proof.
  revert st. induction folders as [|folder rest IH]; intros st Hwf; simpl; [done|].
  destruct (globDirs fs (fsPath (wf_uri folder))) as [matches|]; [|done].
  apply IH. exact (wellFormed_pushMatches fs _ matches st Hwf).
Qed.

Lemma wellFormed_runWatcher (evs : list WatcherEvent) (st : State) :
  wellFormed st -> wellFormed (runWatcher st evs).
Proof.
  revert st. induction evs as [|ev rest IH]; intros st Hwf; [done|].
  cbn [runWatcher foldl]. apply IH. destruct ev as [fs uri|fs uri]; simpl.
  - by apply wellFormed_onDidCreate.
  - by apply onDidDelete_keeps_projects.
Qed.

(** Whatever the watcher reports after [initialize()], a deletion leaves the
    project list and the fired events as they are. *)
Lemma onDidDelete_after_initialize
    (fs0 : FileSystem) (folders : list WorkspaceFolder) (st0 : State)
    (evs : list WatcherEvent) (fs : FileSystem) (uri : string) :
  initialize fs0 folders initial = JS.Normal st0 ->
  projects (onDidDelete fs uri (runWatcher st0 evs)) = projects (runWatcher st0 evs)
  /\ fired (onDidDelete fs uri (runWatcher st0 evs)) = fired (runWatcher st0 evs).
Proof.
  intros Hinit.
  assert (wellFormed st0) as Hwf0.
  { pose proof (wellFormed_findProjects fs0 folders (configureFileWatcher initial)) as H.
    unfold initialize in Hinit. rewrite Hinit in H. apply H. constructor. }
  destruct (onDidDelete_keeps_projects fs uri (runWatcher st0 evs)) as (Hp & Hf & _);
    [by apply wellFormed_runWatcher | done].
Qed.

(** [splice(index)] takes every element from [index] on out of the array. *)
Lemma splice_from_truncates {A : Type} (before after : list A) (x : A) :
  JS.splice_from (before ++ x :: after) (Z.of_nat (List.length before))
  = (x :: after, before).
Proof.
  unfold JS.splice_from.
  rewrite length_app. cbn [List.length].
  destruct (Z.ltb_spec (Z.of_nat (List.length before)) 0) as [Hneg|_]; [lia|].
  rewrite Z.min_l by lia. rewrite Nat2Z.id.
  by rewrite drop_app_length, take_app_length.
Qed.

(** C6 is not met by the code.  The strategy has
    discovered the project of [/proj] through [/proj/build]; the watcher
    then reports the deletion of [/proj/build].  The project stays in the
    list and no event is fired, both when the compilation database is gone
    with the directory and when it could still be found. *)
Theorem onDidDelete_removes_nothing :
  exists st,
    initialize Scenarios.fsWithBuild Scenarios.projFolders initial = JS.Normal st
    /\ map p_id (projects st) = ["file:///proj"]
    /\ projects (onDidDelete Scenarios.fsAfterDelete "file:///proj/build" st)
       = projects st
    /\ fired (onDidDelete Scenarios.fsAfterDelete "file:///proj/build" st) = fired st
    /\ projects (onDidDelete Scenarios.fsWithBuild "file:///proj/build" st)
       = projects st
    /\ fired (onDidDelete Scenarios.fsWithBuild "file:///proj/build" st) = fired st.
Proof. eexists. vm_compute. repeat split; reflexivity. Qed.

End CmakeProjectStrategyFacts.

(** ** The project service *)
Module ProjectServiceFacts.
Import Host ProjectService.

#[local] Set Warnings "-clear-no-such-hyp".

(** *** Registration *)

Lemma registerStrategy_fresh (s : Strategy) (st : State) :
  strategies st !! strategy_id s = None ->
  fst (registerStrategy s st) = true
  /\ strategies (snd (registerStrategy s st)) = <[strategy_id s := s]> (strategies st)
  /\ externalRegisteredStrategies (snd (registerStrategy s st))
     = externalRegisteredStrategies st ∖ {[strategy_id s]}
  /\ onReadyResolved (snd (registerStrategy s st))
     = onReadyResolved st
       || bool_decide (externalRegisteredStrategies st <> ∅
                       /\ externalRegisteredStrategies st ∖ {[strategy_id s]} = ∅)
  /\ console (snd (registerStrategy s st)) = console st.
Proof.
  intros Hnone. unfold registerStrategy. rewrite Hnone.
  cbn [fst snd with_registry externalRegisteredStrategies].
  destruct (0 <? size (externalRegisteredStrategies st))%nat eqn:Hsize.
  - apply Nat.ltb_lt in Hsize.
    assert (externalRegisteredStrategies st <> ∅) as Hne.
    { intros Heq. rewrite Heq, size_empty in Hsize. lia. }
    cbn [with_gate externalRegisteredStrategies].
    case_bool_decide as Hlast.
    + apply size_empty_iff, leibniz_equiv in Hlast.
      cbn. rewrite bool_decide_eq_true_2 by done.
      by rewrite orb_true_r.
    + cbn. rewrite bool_decide_eq_false_2; [by rewrite orb_false_r|].
      intros [_ Heq]. apply Hlast. by rewrite Heq, size_empty.
  - apply Nat.ltb_ge in Hsize.
    assert (externalRegisteredStrategies st = ∅) as Hempty.
    { apply leibniz_equiv, size_empty_iff. lia. }
    cbn. rewrite Hempty.
    rewrite bool_decide_eq_false_2 by (intros [Hne _]; done).
    rewrite orb_false_r. repeat split. set_solver.
Qed.

Lemma registerStrategy_duplicate (s prev : Strategy) (st : State) :
  strategies st !! strategy_id s = Some prev ->
  registerStrategy s st = (false, console_warn duplicateMsg st).
Proof. intros H. unfold registerStrategy. by rewrite H. Qed.

(** C8. Registering a strategy whose id is already registered returns
    [false] (nothing is thrown), writes the problem to the console log and
    leaves the registry as it was, so the id still maps to the instance
    registered before; the readiness gate is not touched.  Registering a
    strategy with a new id stores it and returns [true]; when its id was the
    last pending externally declared id, the readiness gate is released, and
    otherwise the gate stays as it was. *)
Theorem registerStrategy_spec (s : Strategy) (st : State) :
  (forall prev,
      strategies st !! strategy_id s = Some prev ->
      fst (registerStrategy s st) = false
      /\ console (snd (registerStrategy s st)) = (console st ++ [duplicateMsg])%list
      /\ strategies (snd (registerStrategy s st)) = strategies st
      /\ strategies (snd (registerStrategy s st)) !! strategy_id s = Some prev
      /\ onReadyResolved (snd (registerStrategy s st)) = onReadyResolved st
      /\ externalRegisteredStrategies (snd (registerStrategy s st))
         = externalRegisteredStrategies st)
  /\ (strategies st !! strategy_id s = None ->
      fst (registerStrategy s st) = true
      /\ strategies (snd (registerStrategy s st)) !! strategy_id s = Some s
      /\ (forall id, id <> strategy_id s ->
             strategies (snd (registerStrategy s st)) !! id = strategies st !! id)
      /\ (externalRegisteredStrategies st = {[strategy_id s]} ->
          onReadyResolved (snd (registerStrategy s st)) = true)
      /\ (externalRegisteredStrategies st <> {[strategy_id s]} ->
          onReadyResolved (snd (registerStrategy s st)) = onReadyResolved st)).
Proof.
  split.
  - intros prev Hprev. rewrite (registerStrategy_duplicate s prev st Hprev).
    cbn. repeat split. exact Hprev.
  - intros Hnone.
    destruct (registerStrategy_fresh s st Hnone) as (Hret & Hreg & Hpend & Hready & _).
    split; [exact Hret|]. rewrite Hreg, Hready.
    split; [apply lookup_insert_eq|].
    split; [intros id Hid; by rewrite lookup_insert_ne|].
    split.
    + intros Hlast. rewrite bool_decide_eq_true_2; [by rewrite orb_true_r|].
      rewrite Hlast. split; [|set_solver].
      intros Heq. assert (strategy_id s ∈ (∅ : gset string)) as Hin
        by (rewrite <- Heq; set_solver).
      set_solver.
    + intros Hnot. rewrite bool_decide_eq_false_2; [by rewrite orb_false_r|].
      intros [Hne Hempty]. apply Hnot.
      apply set_eq. intros x. split.
      * intros Hx. destruct (decide (x = strategy_id s)) as [->|Hxs]; [set_solver|].
        assert (x ∈ externalRegisteredStrategies st ∖ {[strategy_id s]}) as Hx'
          by set_solver.
        rewrite Hempty in Hx'. set_solver.
      * intros Hx. apply elem_of_singleton in Hx as ->.
        destruct (decide (strategy_id s ∈ externalRegisteredStrategies st)) as [|Hout];
          [done|].
        exfalso. apply Hne. apply set_eq. intros y. split; [|set_solver].
        intros Hy.
        assert (y ∈ externalRegisteredStrategies st ∖ {[strategy_id s]}) as Hy'
          by set_solver.
        rewrite Hempty in Hy'. set_solver.
Qed.

Lemma registerStrategy_spec_witness :
  (* a second registration under the id of the folder strategy *)
  (strategies Scenarios.svcWaiting !! WorkspaceFolderStrategy.ID
     = Some {| strategy_obj := 0; strategy_id := WorkspaceFolderStrategy.ID |}
   /\ fst (registerStrategy {| strategy_obj := 5; strategy_id := WorkspaceFolderStrategy.ID |}
             Scenarios.svcWaiting) = false
   /\ strategies (snd (registerStrategy
                         {| strategy_obj := 5; strategy_id := WorkspaceFolderStrategy.ID |}
                         Scenarios.svcWaiting)) !! WorkspaceFolderStrategy.ID
      = Some {| strategy_obj := 0; strategy_id := WorkspaceFolderStrategy.ID |})
  (* the registration of the last pending external strategy *)
  /\ (strategies Scenarios.svcWaiting !! "ext" = None
      /\ externalRegisteredStrategies Scenarios.svcWaiting = {[ "ext" ]}
      /\ onReadyResolved Scenarios.svcWaiting = false
      /\ fst (registerStrategy Scenarios.extStrategy Scenarios.svcWaiting) = true
      /\ onReadyResolved (snd (registerStrategy Scenarios.extStrategy Scenarios.svcWaiting))
         = true).
Proof.
  assert (strategies Scenarios.svcWaiting !! WorkspaceFolderStrategy.ID
          = Some {| strategy_obj := 0; strategy_id := WorkspaceFolderStrategy.ID |}) as Hdup
    by (vm_compute; reflexivity).
  assert (strategies Scenarios.svcWaiting !! "ext" = None) as Hnew
    by (vm_compute; reflexivity).
  assert (externalRegisteredStrategies Scenarios.svcWaiting = {[ "ext" ]}) as Hpend
    by (vm_compute; reflexivity).
  split.
  - destruct (proj1 (registerStrategy_spec
                       {| strategy_obj := 5; strategy_id := WorkspaceFolderStrategy.ID |}
                       Scenarios.svcWaiting) _ Hdup) as (Hret & _ & _ & Hkept & _).
    split; [exact Hdup|]. split; [exact Hret | exact Hkept].
  - destruct (proj2 (registerStrategy_spec Scenarios.extStrategy Scenarios.svcWaiting) Hnew)
      as (Hret & _ & _ & Hrelease & _).
    split; [exact Hnew|]. split; [exact Hpend|].
    split; [vm_compute; reflexivity|].
    split; [exact Hret | exact (Hrelease Hpend)].
Defined.

(** *** The readiness gate *)

Lemma gate_step_frame (st st' : State) :
  same_gate st st' ->
  (forall id, is_Some (strategies st' !! id) -> is_Some (strategies st !! id)) ->
  gate_step st st'.
Proof.
  intros [Hr Hp] Hs.
  split; unfold gate_inv, registered_not_pending; rewrite ?Hr, ?Hp; auto.
Qed.

Lemma registers_frame (st st' : State) :
  same_gate st st' -> strategies st' = strategies st -> registers st st'.
Proof.
  intros Hg Hs. split.
  - apply gate_step_frame; [exact Hg|]. by rewrite Hs.
  - by rewrite Hs.
Qed.

Lemma registers_refl (st : State) : registers st st.
Proof. apply registers_frame; [split|]; reflexivity. Qed.

Lemma registers_trans (st1 st2 st3 : State) :
  registers st1 st2 -> registers st2 st3 -> registers st1 st3.
Proof.
  intros [H12 Hm1] [H23 Hm2]. split; [split|]; auto.
  - intros Hinv. apply (gs_inv _ _ H23), (gs_inv _ _ H12), Hinv.
  - etrans; [apply (gs_sub _ _ H23) | apply (gs_sub _ _ H12)].
  - intros id Hid. destruct (gs_left _ _ H12 id Hid) as [Hin|Hreg].
    + apply (gs_left _ _ H23 id Hin).
    + right. auto.
  - intros Hr. apply (gs_mono _ _ H23), (gs_mono _ _ H12), Hr.
  - intros Hempty Hne.
    destruct (decide (externalRegisteredStrategies st2 = ∅)) as [H2|H2].
    + apply (gs_mono _ _ H23), (gs_last _ _ H12 H2 Hne).
    + apply (gs_last _ _ H23 Hempty H2).
  - intros Hreg. apply (gs_reg _ _ H23), (gs_reg _ _ H12), Hreg.
Qed.

Lemma registerStrategy_registers (s : Strategy) (st : State) :
  registers st (snd (registerStrategy s st)).
Proof.
  destruct (strategies st !! strategy_id s) as [prev|] eqn:Hlook.
  - rewrite (registerStrategy_duplicate s prev st Hlook).
    apply registers_frame; [split|]; reflexivity.
  - destruct (registerStrategy_fresh s st Hlook) as (_ & Hreg & Hpend & Hready & _).
    split; [split|]; unfold gate_inv, registered_not_pending;
      rewrite ?Hreg, ?Hpend, ?Hready.
    + intros Hinv Hrel. apply orb_true_iff in Hrel as [Hrel|Hrel].
      * rewrite (Hinv Hrel). set_solver.
      * apply bool_decide_eq_true in Hrel as [_ Hempty]. exact Hempty.
    + set_solver.
    + intros id Hid. destruct (decide (id = strategy_id s)) as [->|Hne].
      * right. rewrite lookup_insert_eq. eauto.
      * left. set_solver.
    + intros ->. reflexivity.
    + intros Hempty Hne. rewrite bool_decide_eq_true_2 by done.
      by rewrite orb_true_r.
    + intros Hinv id Hid. destruct (decide (id = strategy_id s)) as [->|Hne].
      * set_solver.
      * rewrite lookup_insert_ne in Hid by done. specialize (Hinv id Hid). set_solver.
    + intros id Hsome. destruct (decide (id = strategy_id s)) as [->|Hne].
      * rewrite lookup_insert_eq. eauto.
      * by rewrite lookup_insert_ne.
Qed.

Lemma newStrategy_registers (id : string) (o : StrategyObj) (st : State) :
  registers st (snd (newStrategy id o st)).
Proof. apply registers_frame; [split|]; reflexivity. Qed.

Lemma updateActiveStrategy_frame (env : Env) (validate : bool) (st : State) :
  same_gate st (afterCompletion (updateActiveStrategy env validate st))
  /\ strategies (afterCompletion (updateActiveStrategy env validate st)) = strategies st.
Proof.
  unfold updateActiveStrategy, same_gate.
  destruct (strategies st !! cfg_strategy (config st)) as [s|].
  - destruct (match _activeStrategy st with
              | Some a => sameStrategy s a
              | None => false
              end); [done|].
    destruct (heap _ !! strategy_obj s) as [o|]; [|done].
    destruct (initializeObj env o); done.
  - destruct validate; done.
Qed.

Lemma resolveReady_registers (st : State) :
  externalRegisteredStrategies st = ∅ -> registers st (resolveReady st).
Proof.
  intros Hempty. split; [split|]; unfold gate_inv, registered_not_pending; cbn; auto.
Qed.

Lemma initialize_registers (env : Env) (st : State) :
  registers st (afterCompletion (initialize env st)).
Proof.
  unfold initialize.
  destruct (newStrategy WorkspaceFolderStrategy.ID _ st) as [wf st1] eqn:H1.
  destruct (registerStrategy wf st1) as [r2 st2] eqn:H2.
  destruct (newStrategy CmakeProjectStrategy.ID _ st2) as [cm st3] eqn:H3.
  destruct (registerStrategy cm st3) as [r4 st4] eqn:H4.
  assert (registers st st4) as Hreg.
  { eapply registers_trans; [|eapply registers_trans; [|eapply registers_trans]].
    - pose proof (newStrategy_registers WorkspaceFolderStrategy.ID
                    (WorkspaceFolders WorkspaceFolderStrategy.initial) st) as H.
      rewrite H1 in H. exact H.
    - pose proof (registerStrategy_registers wf st1) as H. rewrite H2 in H. exact H.
    - pose proof (newStrategy_registers CmakeProjectStrategy.ID
                    (CmakeBuild CmakeProjectStrategy.initial) st2) as H.
      rewrite H3 in H. exact H.
    - pose proof (registerStrategy_registers cm st3) as H. rewrite H4 in H. exact H. }
  clear H1 H2 H3 H4.
  set (st6 := with_enabled _ _).
  assert (registers st st6) as Hreg6.
  { eapply registers_trans; [exact Hreg|].
    apply registers_frame; [split|]; reflexivity. }
  assert (registers st6 (afterCompletion
                           (if _isEnabled st6 then updateActiveStrategy env false st6
                            else JS.Normal st6))) as Hreg7.
  { destruct (_isEnabled st6); [|apply registers_refl].
    destruct (updateActiveStrategy_frame env false st6) as [Hg Hs].
    by apply registers_frame. }
  destruct (if _isEnabled st6 then updateActiveStrategy env false st6 else JS.Normal st6)
    as [st7|msg st7]; cbn [afterCompletion] in *.
  - case_bool_decide as Hsize; cbn [afterCompletion].
    + eapply registers_trans; [exact Hreg6|].
      eapply registers_trans; [exact Hreg7|].
      apply resolveReady_registers. by apply leibniz_equiv, size_empty_iff.
    + eapply registers_trans; eauto.
  - eapply registers_trans; eauto.
Qed.

Lemma resolve_frame (env : Env) (fileUri : string) (updateCurrent : bool)
    (st : State) :
  match resolve env fileUri updateCurrent st with
  | Waiting => True
  | Resolved _ st' | Rejected _ st' =>
      same_gate st st' /\ strategies st' = strategies st
  end.
Proof.
  unfold resolve.
  destruct (negb (onReadyResolved st)); [done|].
  destruct (negb (_isEnabled st)); [done|].
  assert (let st1 := afterCompletion
                       match _activeStrategy st with
                       | Some _ => JS.Normal st
                       | None => updateActiveStrategy env true st
                       end in
          same_gate st st1 /\ strategies st1 = strategies st) as Hframe.
  { destruct (_activeStrategy st); [done|].
    apply updateActiveStrategy_frame. }
  destruct (match _activeStrategy st with
            | Some _ => JS.Normal st
            | None => updateActiveStrategy env true st
            end) as [st1|msg st1]; cbn [afterCompletion] in Hframe; [|done].
  destruct (match _activeStrategy st1 with
            | Some a => _
            | None => None
            end) as [np|]; [|done].
  destruct updateCurrent; done.
Qed.

(** Every call keeps the gate closed while a declared id is pending, takes
    an id out of the pending set only when it has registered a strategy
    under it, and releases the gate when it takes the last one out. *)
Lemma step_gate (st : State) (c : Call) : gate_step st (step st c).
Proof.
  destruct c as [env|id o|s|id|env cfg ae as_|env allActive|env fileUri upd|];
    cbn [step].
  - apply initialize_registers.
  - pose proof (newStrategy_registers id o st) as H1.
    destruct (newStrategy id o st) as [s st1]. cbn [snd] in H1.
    apply (registers_trans _ _ _ H1 (registerStrategy_registers s st1)).
  - apply registerStrategy_registers.
  - unfold unregisterStrategy.
    destruct (strategies st !! id) as [toDelete|] eqn:Hlook; cbn [snd];
      [|by apply gate_step_frame].
    apply gate_step_frame.
    + destruct (_activeStrategy _) as [a|]; [|done]. case_bool_decide; done.
    + intros i.
      assert (strategies
                match _activeStrategy
                        (with_disposed (disposedStrategies
                                          (with_registry (delete (strategy_id toDelete)
                                                            (strategies st)) st)
                                        ∪ {[strategy_obj toDelete]})
                           (with_registry (delete (strategy_id toDelete) (strategies st)) st))
                with
                | Some a =>
                    if bool_decide (strategy_id a = strategy_id toDelete)
                    then _ else _
                | None => _
                end = delete (strategy_id toDelete) (strategies st)) as ->.
      { destruct (_activeStrategy _) as [a|]; [|done]. case_bool_decide; done. }
      rewrite lookup_delete. case_decide; [by intros [? ?]|done].
  - unfold handleConfigurationChange.
    destruct ae; [by apply gate_step_frame|].
    destruct as_; [|by apply gate_step_frame].
    set (st0 := with_host _ _ _ _).
    destruct (updateActiveStrategy_frame env true st0) as [Hg Hs].
    destruct (updateActiveStrategy env true st0) as [st1|msg st1];
      cbn [afterCompletion] in *; apply gate_step_frame; try exact Hg;
      cbn; rewrite Hs; done.
  - destruct allActive; [|by apply gate_step_frame].
    destruct (updateActiveStrategy_frame env true st) as [Hg Hs].
    apply gate_step_frame; [exact Hg | by rewrite Hs].
  - pose proof (resolve_frame env fileUri upd st) as H.
    destruct (resolve env fileUri upd st) as [|p st1|msg st1];
      [by apply gate_step_frame | |];
      destruct H as [Hg Hs]; apply gate_step_frame; try exact Hg; by rewrite Hs.
  - apply gate_step_frame; [done|]. cbn. intros i. rewrite lookup_empty.
    by intros [? ?].
Qed.

Lemma pending_until_registered (id : string) (calls : list Call) (st : State) :
  gate_inv st ->
  id ∈ externalRegisteredStrategies st ->
  (forall s, s ∈ history st calls -> strategies s !! id = None) ->
  gate_inv (run st calls) /\ id ∈ externalRegisteredStrategies (run st calls).
Proof.
  revert st. induction calls as [|c rest IH]; intros st Hinv Hin Hnone; [done|].
  cbn [run foldl]. pose proof (step_gate st c) as Hstep.
  apply IH.
  - apply (gs_inv _ _ Hstep Hinv).
  - destruct (gs_left _ _ Hstep id Hin) as [Hstill|[x Hx]]; [done|].
    rewrite (Hnone (step st c)) in Hx; [done|].
    cbn [history]. apply list_elem_of_further.
    destruct rest; cbn [history]; apply list_elem_of_here.
  - intros s Hs. apply Hnone. cbn [history]. by apply list_elem_of_further.
Qed.

Lemma no_pending_preserved (calls : list Call) (st : State) :
  externalRegisteredStrategies st = ∅ ->
  externalRegisteredStrategies (run st calls) = ∅.
Proof.
  revert st. induction calls as [|c rest IH]; intros st Hempty; [done|].
  cbn [run foldl]. apply IH.
  pose proof (gs_sub _ _ (step_gate st c)) as Hsub. set_solver.
Qed.

Lemma released_when_done_step (st st' : State) :
  gate_step st st' -> released_when_done st -> released_when_done st'.
Proof.
  intros Hstep Hdone Hempty.
  destruct (decide (externalRegisteredStrategies st = ∅)) as [H|H].
  - apply (gs_mono _ _ Hstep), Hdone, H.
  - apply (gs_last _ _ Hstep Hempty H).
Qed.

(** Once every pending id has been seen in the registry, the gate is
    released. *)
Lemma released_once_registered (calls : list Call) (st : State) :
  registered_not_pending st ->
  released_when_done st ->
  (forall id, id ∈ externalRegisteredStrategies st ->
     exists s, s ∈ history st calls /\ is_Some (strategies s !! id)) ->
  onReadyResolved (run st calls) = true.
Proof.
  revert st. induction calls as [|c rest IH]; intros st Hreg Hdone Hall.
  - cbn. apply Hdone. apply set_eq. intros id. split; [|set_solver].
    intros Hid. destruct (Hall id Hid) as (s & Hs & Hsome).
    cbn [history] in Hs. apply list_elem_of_singleton in Hs as ->.
    by destruct (Hreg id Hsome).
  - cbn [run foldl]. pose proof (step_gate st c) as Hstep. apply IH.
    + apply (gs_reg _ _ Hstep Hreg).
    + apply (released_when_done_step _ _ Hstep Hdone).
    + intros id Hid.
      assert (id ∈ externalRegisteredStrategies st) as Hid0
        by (apply (gs_sub _ _ Hstep), Hid).
      destruct (Hall id Hid0) as (s & Hs & Hsome).
      cbn [history] in Hs. apply elem_of_cons in Hs as [->|Hs].
      * by destruct (Hreg id Hsome).
      * eauto.
Qed.

Lemma resolve_returns_when_ready (env : Env) (fileUri : string)
    (updateCurrent : bool) (st : State) :
  onReadyResolved st = true -> resolve env fileUri updateCurrent st <> Waiting.
Proof.
  intros Hready. unfold resolve. rewrite Hready. cbn [negb].
  destruct (negb (_isEnabled st)); [discriminate|].
  destruct (match _activeStrategy st with
            | Some _ => JS.Normal st
            | None => updateActiveStrategy env true st
            end) as [st1|msg st1]; [|discriminate].
  destruct (match _activeStrategy st1 with
            | Some a => _
            | None => None
            end) as [np|]; [|discriminate].
  destruct updateCurrent; discriminate.
Qed.

(** C2. While an externally declared strategy id has at no point been
    registered, a call of [resolve] stays parked at the readiness gate and
    returns no result, whatever calls the service has received; once every
    declared id has been registered the gate is released and [resolve] no
    longer waits.  When no external strategy id was declared, the gate is
    released as soon as [initialize()] completes. *)
Theorem resolve_waits_for_declared_strategies
    (cfg : Config) (exts : list Declaration) (calls : list Call) (env : Env) :
  (forall (id fileUri : string) (updateCurrent : bool),
      id ∈ declaredIds exts ->
      (forall s, s ∈ history (new cfg exts) calls -> strategies s !! id = None) ->
      resolve env fileUri updateCurrent (run (new cfg exts) calls) = Waiting)
  /\ (declaredIds exts <> [] ->
      (forall id, id ∈ declaredIds exts ->
         exists s, s ∈ history (new cfg exts) calls /\ is_Some (strategies s !! id)) ->
      onReadyResolved (run (new cfg exts) calls) = true
      /\ forall (fileUri : string) (updateCurrent : bool),
           resolve env fileUri updateCurrent (run (new cfg exts) calls) <> Waiting)
  /\ (declaredIds exts = [] ->
      forall st',
        initialize env (run (new cfg exts) calls) = JS.Normal st' ->
        onReadyResolved st' = true
        /\ forall (fileUri : string) (updateCurrent : bool),
             resolve env fileUri updateCurrent st' <> Waiting).
Proof.
  split; [|split].
  - intros id fileUri updateCurrent Hdecl Hnone.
    destruct (pending_until_registered id calls (new cfg exts)) as [Hinv Hin].
    + intros Hready. discriminate.
    + cbn. by apply elem_of_list_to_set.
    + exact Hnone.
    + unfold resolve.
      destruct (onReadyResolved (run (new cfg exts) calls)) eqn:Hready; [|done].
      rewrite (Hinv Hready) in Hin. set_solver.
  - intros Hdecl Hall.
    assert (onReadyResolved (run (new cfg exts) calls) = true) as Hready.
    { apply released_once_registered.
      - intros id [x Hx]. cbn in Hx. by rewrite lookup_empty in Hx.
      - intros Hempty. cbn in Hempty. exfalso.
        destruct (declaredIds exts) as [|d rest] eqn:Hd; [done|].
        assert (d ∈ (∅ : gset string)) as Hin
          by (rewrite <- Hempty; apply elem_of_list_to_set, list_elem_of_here).
        set_solver.
      - intros id Hid. apply Hall. cbn in Hid. by apply elem_of_list_to_set in Hid. }
    split; [exact Hready|].
    intros fileUri updateCurrent. by apply resolve_returns_when_ready.
  - intros Hdecl st' Hinit.
    assert (externalRegisteredStrategies (run (new cfg exts) calls) = ∅) as Hempty.
    { apply no_pending_preserved. cbn. by rewrite Hdecl. }
    assert (onReadyResolved st' = true) as Hready.
    { pose proof (gs_sub _ _ (proj1 (initialize_registers env (run (new cfg exts) calls))))
        as Hsub.
      revert Hinit Hsub. unfold initialize.
      destruct (newStrategy WorkspaceFolderStrategy.ID _ _) as [wf st1].
      destruct (registerStrategy wf st1) as [r2 st2].
      destruct (newStrategy CmakeProjectStrategy.ID _ st2) as [cm st3].
      destruct (registerStrategy cm st3) as [r4 st4].
      destruct (if _isEnabled _ then _ else _) as [st7|msg st7]; [|discriminate].
      case_bool_decide as Hsize; intros [= <-]; cbn [afterCompletion]; [done|].
      intros Hsub. exfalso. apply Hsize. apply size_empty_iff.
      rewrite Hempty in Hsub. set_solver. }
    split; [exact Hready|].
    intros fileUri updateCurrent. by apply resolve_returns_when_ready.
Qed.

Lemma resolve_waits_for_declared_strategies_witness :
  (* one declared id that is never registered: [resolve] waits *)
  ("ext" ∈ declaredIds [DeclString "ext"]
   /\ resolve Scenarios.envNested "file:///a/x.cpp" true
        (run (new Scenarios.cfgOn [DeclString "ext"])
             [CallInitialize Scenarios.envNested;
              CallResolve Scenarios.envNested "file:///a/x.cpp" true])
      = Waiting)
  (* the declared id is registered: [resolve] returns *)
  /\ resolve Scenarios.envNested "file:///a/x.cpp" true
       (run (new Scenarios.cfgOn [DeclString "ext"])
            [CallInitialize Scenarios.envNested;
             CallRegister "ext" (External [] (fun _ => None))])
     <> Waiting
  (* no declared id: [initialize()] releases the gate *)
  /\ (exists st',
        initialize Scenarios.envNested (run (new Scenarios.cfgOn []) []) = JS.Normal st'
        /\ onReadyResolved st' = true
        /\ resolve Scenarios.envNested "file:///a/x.cpp" true st' <> Waiting).
Proof.
  assert ("ext" ∈ declaredIds [DeclString "ext"]) as Hdecl
    by (vm_compute; apply list_elem_of_here).
  split; [|split].
  - split; [exact Hdecl|].
    apply (proj1 (resolve_waits_for_declared_strategies Scenarios.cfgOn
                    [DeclString "ext"]
                    [CallInitialize Scenarios.envNested;
                     CallResolve Scenarios.envNested "file:///a/x.cpp" true]
                    Scenarios.envNested) "ext" "file:///a/x.cpp" true Hdecl).
    intros s Hs. cbn [history] in Hs.
    apply elem_of_cons in Hs as [->|Hs]; [vm_compute; reflexivity|].
    apply elem_of_cons in Hs as [->|Hs]; [vm_compute; reflexivity|].
    apply elem_of_cons in Hs as [->|Hs]; [vm_compute; reflexivity|].
    by apply elem_of_nil in Hs.
  - apply (proj1 (proj2 (resolve_waits_for_declared_strategies Scenarios.cfgOn
                           [DeclString "ext"]
                           [CallInitialize Scenarios.envNested;
                            CallRegister "ext" (External [] (fun _ => None))]
                           Scenarios.envNested))).
    + vm_compute. discriminate.
    + intros id Hid. vm_compute in Hid.
      apply list_elem_of_singleton in Hid as ->.
      eexists. split.
      * cbn [history]. do 2 apply list_elem_of_further. apply list_elem_of_here.
      * vm_compute. eauto.
  - destruct (initialize Scenarios.envNested (run (new Scenarios.cfgOn []) []))
      as [st'|msg st'] eqn:Hinit; [|vm_compute in Hinit; discriminate].
    destruct (proj2 (proj2 (resolve_waits_for_declared_strategies Scenarios.cfgOn [] []
                              Scenarios.envNested)) eq_refl st' Hinit) as [Hready Hres].
    exists st'. split; [reflexivity|]. split; [exact Hready | apply Hres].
Defined.

End ProjectServiceFacts.

(** ** The routing context *)
Module ClangdContextFacts.
Import Host ClangdContext.

(** C10. Reading the [client] property of the routing context throws the
    error "Invalid access. Context.client is currently not implemented" in
    every state of the context; in no state does it yield a client. *)
Theorem client_getter_always_throws (st : State) :
  client st = Throws "Invalid access. Context.client is currently not implemented"
  /\ (forall c : nat, client st <> Value c).
Proof. split; [reflexivity | intros c; discriminate]. Qed.

Lemma didClose_resume_unmatched (docs : list TextDocument) (doc : TextDocument)
    (st : State) :
  unmatchedDocuments (didCloseTextDocument_resume docs doc None st)
  = unmatchedDocuments st.
Proof.
  unfold didCloseTextDocument_resume.
  pose proof (JSFacts.indexOf_lower_bound sameDocument (unmatchedDocuments st) doc) as Hlow.
  destruct (Z.ltb_spec (JS.indexOf sameDocument (unmatchedDocuments st) doc) (-1)) as [Hlt|_].
  - lia.
  - reflexivity.
Qed.

(** C9. When a clangd document whose location resolves to no project is
    closed, the list of unmatched documents is left as it was: the guard of
    the removal branch, [index < -1], is false for every value [indexOf]
    returns, so the branch with the splice is never taken. *)
Theorem didClose_never_prunes_unmatched
    (env : ProjectService.Env) (docs : list TextDocument) (doc : TextDocument)
    (st : State) (svc' : ProjectService.State) :
  isClangdDocument doc = true ->
  ProjectService.resolve env (doc_uri doc) false (projectService st)
    = ProjectService.Resolved None svc' ->
  (forall (arr : list TextDocument) (d : TextDocument),
      (JS.indexOf sameDocument arr d <? -1) = false)
  /\ exists st', didCloseTextDocument env docs doc st = Finished st'
                 /\ unmatchedDocuments st' = unmatchedDocuments st.
Proof.
  intros Hdoc Hres. split.
  - intros arr d. apply Z.ltb_ge. apply JSFacts.indexOf_lower_bound.
  - unfold didCloseTextDocument. rewrite Hdoc, Hres. cbn [negb].
    eexists. split; [reflexivity|].
    by rewrite didClose_resume_unmatched.
Qed.

Lemma didClose_never_prunes_unmatched_witness :
  isClangdDocument Scenarios.docOutside = true
  /\ ProjectService.resolve Scenarios.envNested (doc_uri Scenarios.docOutside) false
       (projectService Scenarios.ctxWithUnmatched)
     = ProjectService.Resolved None (projectService Scenarios.ctxWithUnmatched)
  /\ In Scenarios.docOutside (unmatchedDocuments Scenarios.ctxWithUnmatched)
  /\ exists st', didCloseTextDocument Scenarios.envNested [] Scenarios.docOutside
                   Scenarios.ctxWithUnmatched = Finished st'
                 /\ unmatchedDocuments st' = unmatchedDocuments Scenarios.ctxWithUnmatched.
Proof.
  assert (ProjectService.resolve Scenarios.envNested (doc_uri Scenarios.docOutside) false
            (projectService Scenarios.ctxWithUnmatched)
          = ProjectService.Resolved None (projectService Scenarios.ctxWithUnmatched)) as Hres
    by (vm_compute; reflexivity).
  split; [reflexivity|]. split; [exact Hres|].
  split; [vm_compute; left; reflexivity|].
  exact (proj2 (didClose_never_prunes_unmatched Scenarios.envNested []
                  Scenarios.docOutside Scenarios.ctxWithUnmatched _ eq_refl Hres)).
Defined.

(** *** Creating and disposing clients *)

Lemma getOutputChannel_frame (project : option Project) (st : State) :
  let st1 := snd (getOutputChannel project st) in
  clients st1 = clients st /\ clientObjs st1 = clientObjs st
  /\ unmatchedDocuments st1 = unmatchedDocuments st
  /\ _activeProjectOverride st1 = _activeProjectOverride st
  /\ projectService st1 = projectService st
  /\ restartAfterCrash st1 = restartAfterCrash st.
Proof.
  unfold getOutputChannel.
  destruct (outputChannels st !! keyOf project); simpl; auto 10.
Qed.

Lemma getClientOptions_frame (project : option Project) (st : State) :
  let st1 := snd (getClientOptions project st) in
  clients st1 = clients st /\ clientObjs st1 = clientObjs st
  /\ unmatchedDocuments st1 = unmatchedDocuments st
  /\ _activeProjectOverride st1 = _activeProjectOverride st
  /\ projectService st1 = projectService st
  /\ restartAfterCrash st1 = restartAfterCrash st.
Proof.
  unfold getClientOptions.
  pose proof (getOutputChannel_frame project st) as H.
  destruct (getOutputChannel project st) as [ch st1]. exact H.
Qed.

(** [createClient] always allocates a new client object, starts it and
    stores its address under the key of the project, whatever was stored
    there before. *)
Lemma createClient_spec (project : option Project) (so : option ServerOptions)
    (st : State) :
  let addr := fst (createClient project so st) in
  let st' := snd (createClient project so st) in
  addr = List.length (clientObjs st)
  /\ clients st' = <[keyOf project := addr]> (clients st)
  /\ (exists c, clientObjs st' = (clientObjs st ++ [c])%list
                /\ c_started c = true /\ c_disposed c = false)
  /\ unmatchedDocuments st' = unmatchedDocuments st
  /\ _activeProjectOverride st' = _activeProjectOverride st
  /\ projectService st' = projectService st.
Proof.
  unfold createClient.
  pose proof (getClientOptions_frame project st) as H.
  destruct (getClientOptions project st) as [options st1].
  simpl in H. destruct H as (Hc & Ho & Hu & Hov & Hsvc & _).
  unfold createNewClient. cbn -[alter insert].
  rewrite Hc, Ho, Hu, Hov, Hsvc.
  repeat split; try reflexivity.
  eexists.
  replace (List.length (clientObjs st)) with (List.length (clientObjs st) + 0)%nat by lia.
  rewrite !alter_app_r. cbn. split; [reflexivity|]. split; reflexivity.
Qed.

Lemma live_new_client (l : list Client) (c : Client) :
  c_started c = true -> c_disposed c = false ->
  live <$> (l ++ [c])%list !! List.length l = Some true.
Proof.
  intros Hs Hd.
  replace (List.length l) with (List.length l + 0)%nat by lia.
  rewrite lookup_app_r by lia.
  replace (List.length l + 0 - List.length l)%nat with 0%nat by lia.
  simpl. unfold live. by rewrite Hs, Hd.
Qed.

(** When a clangd document is opened and its location resolves to a
    project P, the context afterwards has one registry entry under P's id,
    and it holds a live client that this very event created, whether or not
    a client was registered for P.  The entries under all other ids stay as
    they were. *)
Lemma didOpen_registers_new_client
    (env : ProjectService.Env) (doc : TextDocument) (st : State)
    (P : Project) (svc' : ProjectService.State) :
  isClangdDocument doc = true ->
  ProjectService.resolve env (doc_uri doc) true (projectService st)
    = ProjectService.Resolved (Some P) svc' ->
  exists st',
    didOpenTextDocument env doc st = Finished st'
    /\ clients st' !! p_id P = Some (List.length (clientObjs st))
    /\ clientObjs st !! List.length (clientObjs st) = None
    /\ live <$> clientObjs st' !! List.length (clientObjs st) = Some true
    /\ List.length (clientObjs st') = S (List.length (clientObjs st))
    /\ (forall id, id <> p_id P -> clients st' !! id = clients st !! id).
Proof.
  intros Hdoc Hres.
  unfold didOpenTextDocument. rewrite Hdoc, Hres. cbn [negb].
  eexists. split; [reflexivity|].
  unfold didOpenTextDocument_resume.
  pose proof (createClient_spec (Some P) (serverOptions (with_service svc' st))
                (with_service svc' st)) as H.
  cbn zeta in H. destruct H as (Haddr & Hcl & (c & Hobjs & Hs & Hd) & _).
  cbn [with_service clientObjs clients] in *.
  rewrite Hcl, Haddr, Hobjs. cbn [keyOf].
  split; [apply lookup_insert_eq|].
  split; [apply lookup_ge_None_2; lia|].
  split; [by apply live_new_client|].
  split; [rewrite length_app; simpl; lia|].
  intros id Hid. by rewrite lookup_insert_ne.
Qed.


(** No open event that resolves to a project reuses the client registered
    for it: the statement that the registered client is kept and no client
    is created fails for the second document of a project. *)
Lemma didOpen_does_not_reuse_client :
  ~ (forall (env : ProjectService.Env) (doc : TextDocument) (st : State)
            (P : Project) (svc' : ProjectService.State) (c0 : nat),
        isClangdDocument doc = true ->
        ProjectService.resolve env (doc_uri doc) true (projectService st)
          = ProjectService.Resolved (Some P) svc' ->
        clients st !! p_id P = Some c0 ->
        exists st',
          didOpenTextDocument env doc st = Finished st'
          /\ clients st' !! p_id P = Some c0
          /\ List.length (clientObjs st') = List.length (clientObjs st)).
Proof.
  intros H.
  destruct (H Scenarios.envNested Scenarios.docA2 Scenarios.ctxWithClient
              Scenarios.projectA (projectService Scenarios.ctxWithClient) 0%nat)
    as (st' & Hfin & Hreg & _).
  - reflexivity.
  - vm_compute. reflexivity.
  - vm_compute. reflexivity.
  - vm_compute in Hfin. injection Hfin as <-.
    vm_compute in Hreg. discriminate.
Qed.

(** C1 is not met by the code.  When a clangd document is opened whose
    location resolves to a project P for which a live client is registered,
    the open listener does not reuse that client: [createClient] runs
    unconditionally, so a second client is created, started and stored
    under P's id.  No [disposeClient] precedes it, unlike in the override
    setter and in the branch for unmatched documents, so the client that
    was registered is left as it was: afterwards two live clients exist for
    P, and the earlier one is no longer the one registered under P's id. *)
Theorem didOpen_orphans_registered_client
    (env : ProjectService.Env) (doc : TextDocument) (st : State)
    (P : Project) (svc' : ProjectService.State) (c0 : nat) (obj : Client) :
  isClangdDocument doc = true ->
  ProjectService.resolve env (doc_uri doc) true (projectService st)
    = ProjectService.Resolved (Some P) svc' ->
  clients st !! p_id P = Some c0 ->
  clientObjs st !! c0 = Some obj ->
  live obj = true ->
  exists st' c1 obj1,
    didOpenTextDocument env doc st = Finished st'
    /\ clients st' !! p_id P = Some c1
    /\ c1 <> c0
    /\ clientObjs st !! c1 = None
    /\ clientObjs st' !! c1 = Some obj1
    /\ live obj1 = true
    /\ clientObjs st' !! c0 = Some obj
    /\ List.length (clientObjs st') = S (List.length (clientObjs st)).
Proof.
  intros Hdoc Hres Hreg Hobj Hlive.
  unfold didOpenTextDocument. rewrite Hdoc, Hres. cbn [negb].
  unfold didOpenTextDocument_resume.
  pose proof (createClient_spec (Some P) (serverOptions (with_service svc' st))
                (with_service svc' st)) as H.
  cbn zeta in H. destruct H as (Haddr & Hcl & (c & Hobjs & Hs & Hd) & _).
  cbn [with_service clientObjs clients keyOf] in *. rewrite Haddr in Hcl.
  pose proof (lookup_lt_Some _ _ _ Hobj) as Hlt.
  exists (createClient (Some P) (serverOptions (with_service svc' st))
            (with_service svc' st)).2, (List.length (clientObjs st)), c.
  split; [reflexivity|]. rewrite Hcl, Hobjs.
  split; [apply lookup_insert_eq|].
  split; [lia|].
  split; [apply lookup_ge_None_2; lia|].
  split; [by apply list_lookup_middle|].
  split; [unfold live; by rewrite Hs, Hd|].
  split; [by rewrite lookup_app_l|].
  rewrite length_app. simpl. lia.
Qed.

Lemma didOpen_orphans_registered_client_witness :
  clients Scenarios.ctxWithClient !! "file:///a" = Some 0%nat
  /\ live <$> clientObjs Scenarios.ctxWithClient !! 0%nat = Some true
  /\ exists st',
       didOpenTextDocument Scenarios.envNested Scenarios.docA2 Scenarios.ctxWithClient
         = Finished st'
       /\ clients st' !! "file:///a" = Some 1%nat
       /\ live <$> clientObjs st' !! 1%nat = Some true
       /\ live <$> clientObjs st' !! 0%nat = Some true.
Proof.
  assert (clients Scenarios.ctxWithClient !! "file:///a" = Some 0%nat) as Hreg
    by (vm_compute; reflexivity).
  assert (exists obj, clientObjs Scenarios.ctxWithClient !! 0%nat = Some obj
                      /\ live obj = true) as (obj & Hobj & Hlive)
    by (vm_compute; eexists; split; reflexivity).
  assert (ProjectService.resolve Scenarios.envNested (doc_uri Scenarios.docA2) true
            (projectService Scenarios.ctxWithClient)
          = ProjectService.Resolved (Some Scenarios.projectA)
              (projectService Scenarios.ctxWithClient)) as Hres
    by (vm_compute; reflexivity).
  split; [exact Hreg|]. split; [by rewrite Hobj; cbn; rewrite Hlive|].
  pose proof (didOpen_orphans_registered_client Scenarios.envNested Scenarios.docA2
                Scenarios.ctxWithClient Scenarios.projectA
                (projectService Scenarios.ctxWithClient) 0%nat obj) as H.
  specialize (H eq_refl). specialize (H Hres). specialize (H Hreg).
  specialize (H Hobj). specialize (H Hlive).
  destruct H as (st' & c1 & obj1 & Hfin & Hreg' & Hne & _ & Hobj1 & Hlive1 & Hobj0 & Hlen').
  assert (List.length (clientObjs Scenarios.ctxWithClient) = 1%nat) as Hlen
    by (vm_compute; reflexivity).
  assert (c1 = 1%nat) as ->.
  { apply lookup_lt_Some in Hobj1. lia. }
  exists st'. split; [exact Hfin|]. split; [exact Hreg'|].
  split; [by rewrite Hobj1; cbn; rewrite Hlive1|].
  by rewrite Hobj0; cbn; rewrite Hlive.
Defined.

(** *** Disposal *)

Lemma disposed_not_live (o : option Client) :
  c_disposed <$> o = Some true -> live <$> o = Some false.
Proof.
  destruct o as [c|]; simpl; [|discriminate].
  intros [= Hd]. unfold live. by rewrite Hd, andb_false_r.
Qed.

(** C7 as stated does not hold: [disposeClient] passes through a state in
    which the entry is gone from the registry while its client has not been
    disposed. *)
Lemma disposeClient_removes_before_disposing :
  ~ (forall (id : string) (st : State) (c : nat) (s : State),
        clients st !! id = Some c ->
        s ∈ trace st (disposeClient_body id st) ->
        clients s !! id = None ->
        c_disposed <$> clientObjs s !! c = Some true).
Proof.
  intros H.
  specialize (H "file:///a" Scenarios.ctxWithClient 0%nat
                (exec Scenarios.ctxWithClient (ClientsDelete "file:///a"))).
  assert (c_disposed <$>
            clientObjs (exec Scenarios.ctxWithClient (ClientsDelete "file:///a")) !! 0%nat
          = Some true) as Habs.
  { apply H.
    - vm_compute. reflexivity.
    - replace (disposeClient_body "file:///a" Scenarios.ctxWithClient)
        with [ClientsDelete "file:///a"; ClientDispose 0%nat]
        by (vm_compute; reflexivity).
      cbn [trace]. apply list_elem_of_further, list_elem_of_here.
    - cbn [exec clients with_clients]. apply lookup_delete_eq. }
  vm_compute in Habs. discriminate.
Qed.

(** C7 (as the code has it). [disposeClient(id)] on a registered id first
    removes the entry from the registry and then disposes the client, both
    within the one synchronous call: of the three states it passes through,
    the middle one has the entry removed and the client object untouched,
    and the last one, in which the call returns, has the entry removed and
    the client disposed. *)
Theorem disposeClient_removes_then_disposes
    (id : string) (st : State) (c : nat) (obj : Client) :
  clients st !! id = Some c ->
  clientObjs st !! c = Some obj ->
  let s1 := exec st (ClientsDelete id) in
  let s2 := exec s1 (ClientDispose c) in
  trace st (disposeClient_body id st) = [st; s1; s2]
  /\ disposeClient id st = s2
  /\ clients s1 !! id = None /\ clientObjs s1 !! c = Some obj
  /\ clients s2 !! id = None
  /\ c_disposed <$> clientObjs s2 !! c = Some true.
Proof.
  intros Hreg Hobj s1 s2. subst s1 s2.
  unfold disposeClient, disposeClient_body. rewrite Hreg.
  cbn [trace foldl exec clients clientObjs with_clients].
  repeat split; try reflexivity; try apply lookup_delete_eq; try exact Hobj.
  rewrite list_lookup_alter_eq, Hobj. reflexivity.
Qed.

Lemma disposeClient_removes_then_disposes_witness :
  clients Scenarios.ctxWithClient !! "file:///a" = Some 0%nat
  /\ live <$> clientObjs Scenarios.ctxWithClient !! 0%nat = Some true
  /\ clients (disposeClient "file:///a" Scenarios.ctxWithClient) !! "file:///a" = None
  /\ live <$> clientObjs (disposeClient "file:///a" Scenarios.ctxWithClient) !! 0%nat
     = Some false.
Proof.
  assert (clients Scenarios.ctxWithClient !! "file:///a" = Some 0%nat) as Hreg
    by (vm_compute; reflexivity).
  assert (live <$> clientObjs Scenarios.ctxWithClient !! 0%nat = Some true) as Hlive
    by (vm_compute; reflexivity).
  split; [exact Hreg|]. split; [exact Hlive|]. clear Hlive.
  destruct (clientObjs Scenarios.ctxWithClient !! 0%nat) as [obj|] eqn:Hobj;
    [|vm_compute in Hobj; discriminate].
  destruct (disposeClient_removes_then_disposes "file:///a" Scenarios.ctxWithClient
              0%nat obj Hreg Hobj) as (_ & Hfinal & _ & _ & Hgone & Hdisp).
  rewrite Hfinal.
  split; [exact Hgone|]. by apply disposed_not_live.
Defined.

(** *** The override and [ProjectsChange] *)

Lemma includesProject_distinct (l : option (list Project)) (p : Project) :
  (forall ps, l = Some ps -> Forall (fun r => p_obj r <> p_obj p) ps) ->
  includesProject l p = false.
Proof.
  intros H. destruct l as [ps|]; [|reflexivity].
  simpl. apply JSFacts.includes_absent.
  eapply Forall_impl; [exact (H ps eq_refl)|].
  intros r Hr. unfold sameProject. by apply bool_decide_eq_false.
Qed.

(** The listener compares the listed projects with the override by object
    identity: a change that lists other objects only, whatever their ids,
    leaves the context as it is. *)
Lemma onProjectsChanged_other_objects (change : ProjectsChange) (st : State)
    (override : Project) :
  _activeProjectOverride st = Some override ->
  (forall ps, removed change = Some ps -> Forall (fun r => p_obj r <> p_obj override) ps) ->
  (forall ps, updated change = Some ps -> Forall (fun r => p_obj r <> p_obj override) ps) ->
  onProjectsChanged change st = st.
Proof.
  intros Hov Hrem Hupd. unfold onProjectsChanged. rewrite Hov.
  by rewrite !includesProject_distinct.
Qed.

(** When the removed list holds the override object itself, the override
    is cleared and the client registered for it is disposed. *)
Lemma onProjectsChanged_same_object (change : ProjectsChange) (st : State)
    (override : Project) (ps : list Project) (c : nat) (obj : Client) :
  _activeProjectOverride st = Some override ->
  removed change = Some ps -> override ∈ ps ->
  clients st !! p_id override = Some c ->
  clientObjs st !! c = Some obj ->
  _activeProjectOverride (onProjectsChanged change st) = None
  /\ c_disposed <$> clientObjs (onProjectsChanged change st) !! c = Some true.
Proof.
  intros Hov Hrem Hin Hreg Hobj. unfold onProjectsChanged. rewrite Hov, Hrem.
  assert (includesProject (Some ps) override = true) as ->.
  { simpl. unfold JS.includes. apply existsb_exists. exists override.
    split; [by apply list_elem_of_In|]. unfold sameProject. by apply bool_decide_eq_true. }
  unfold disposeRegistered. rewrite Hreg.
  cbn [with_override _activeProjectOverride exec clientObjs with_clients].
  split; [reflexivity|]. by rewrite list_lookup_alter_eq, Hobj.
Qed.

(** An override that was taken from the project list of the folder strategy
    is never found in an event of its workspace-folder listener. *)
Lemma folder_listener_never_clears_override
    (folders ev_added ev_removed : list WorkspaceFolder)
    (sst sst' : WorkspaceFolderStrategy.State) (st : State) (override : Project)
    (ev : ProjectsChange) :
  WorkspaceFolderStrategy.wellFormed sst ->
  override ∈ WorkspaceFolderStrategy.projects sst ->
  _activeProjectOverride st = Some override ->
  WorkspaceFolderStrategy.onDidChangeWorkspaceFolders folders ev_added ev_removed sst
    = JS.Normal sst' ->
  last (WorkspaceFolderStrategy.fired sst') = Some ev ->
  onProjectsChanged ev st = st.
Proof.
  intros Hwf Hin Hov Hfire Hlast.
  destruct (WorkspaceFolderStrategyFacts.listener_lists_new_objects
              _ _ _ _ _ Hwf Hfire) as (aps & rps & Hfired & Hnew).
  rewrite Hfired, last_snoc in Hlast. injection Hlast as <-.
  apply (onProjectsChanged_other_objects _ _ override Hov); cbn [removed updated].
  - intros ps [= <-]. eapply Forall_impl; [exact Hnew|].
    intros r Hr. rewrite Forall_forall in Hr. by apply Hr.
  - discriminate.
Qed.

(** C3 is not met by the code.  The override is the
    project object of [/a] taken from the strategy's list; the folder
    strategy then announces the removal with a newly created project of the
    same id.  The listener does not find the override in the removed list:
    the override stays pinned and its client stays live. *)
Theorem override_kept_when_removed_by_id :
  _activeProjectOverride Scenarios.ctxPinned = Some Scenarios.projectA
  /\ removed Scenarios.changeRemovedA = Some [Scenarios.projectA_again]
  /\ p_id Scenarios.projectA_again = p_id Scenarios.projectA
  /\ onProjectsChanged Scenarios.changeRemovedA Scenarios.ctxPinned = Scenarios.ctxPinned
  /\ (exists c, clients Scenarios.ctxPinned !! p_id Scenarios.projectA = Some c
                /\ live <$> clientObjs Scenarios.ctxPinned !! c = Some true).
Proof.
  assert (_activeProjectOverride Scenarios.ctxPinned = Some Scenarios.projectA) as Hov
    by (vm_compute; reflexivity).
  assert (removed Scenarios.changeRemovedA = Some [Scenarios.projectA_again]) as Hrem
    by (vm_compute; reflexivity).
  assert (updated Scenarios.changeRemovedA = None) as Hupd
    by (vm_compute; reflexivity).
  split; [exact Hov|]. split; [exact Hrem|]. split; [reflexivity|]. split.
  - apply (onProjectsChanged_other_objects _ _ Scenarios.projectA Hov).
    + intros ps. rewrite Hrem. intros [= <-].
      constructor; [simpl; lia | constructor].
    + intros ps. rewrite Hupd. discriminate.
  - exists 1%nat. split; vm_compute; reflexivity.
Qed.

End ClangdContextFacts.

(** * Further properties of the code *)

Module WorkspaceFolderStrategyProps.
Import Host WorkspaceFolderStrategy Orders.

Lemma insertByLength_perm (x : string) (l : list string) :
  JS.insertByLength x l ≡ₚ x :: l.
Proof.
  induction l as [|y rest IH]; simpl; [done|].
  destruct (_ <=? _)%nat; [|done].
  rewrite IH. apply Permutation_swap.
Qed.

Lemma insertByLength_sorted (x : string) (l : list string) :
  StronglySorted notLonger l -> StronglySorted notLonger (JS.insertByLength x l).
Proof.
  induction 1 as [|y rest Hsorted IH Hall]; simpl.
  - repeat constructor.
  - destruct (Nat.leb_spec (String.length y) (String.length x)) as [Hle|Hgt].
    + constructor; [exact IH|].
      rewrite insertByLength_perm. constructor; [exact Hle | exact Hall].
    + constructor; [by constructor|].
      constructor; [unfold notLonger; lia|].
      eapply Forall_impl; [exact Hall|]. unfold notLonger. intros z Hz. lia.
Qed.

Lemma sortByLength_acc (l acc : list string) :
  StronglySorted notLonger acc ->
  StronglySorted notLonger (foldl (fun acc x => JS.insertByLength x acc) acc l)
  /\ foldl (fun acc x => JS.insertByLength x acc) acc l ≡ₚ acc ++ l.
Proof.
  revert acc. induction l as [|x rest IH]; intros acc Hacc; simpl.
  - split; [done | by rewrite app_nil_r].
  - destruct (IH _ (insertByLength_sorted x acc Hacc)) as [Hs Hp].
    split; [exact Hs|]. rewrite Hp, insertByLength_perm.
    simpl. apply Permutation_middle.
Qed.

(** X1. [getSortedWorkspaces()] returns, and stores in [sortedWorkspaces],
    the slash-terminated locations of all workspace folders, each as often
    as it occurs, ordered by non-decreasing length; the rest of the state is
    left alone. *)
Theorem getSortedWorkspaces_sorted (folders : list WorkspaceFolder) (st : State) :
  let sorted := fst (getSortedWorkspaces folders st) in
  let st' := snd (getSortedWorkspaces folders st) in
  sortedWorkspaces st' = sorted
  /\ StronglySorted notLonger sorted
  /\ sorted ≡ₚ map toUri folders
  /\ projects st' = projects st /\ fired st' = fired st.
Proof.
  cbn. destruct (sortByLength_acc (map toUri folders) []) as [Hs Hp];
    [constructor|].
  repeat split; [exact Hs | exact Hp].
Qed.

Lemma lastChar_app_char (s : string) (c : ascii) :
  JS.lastChar (s ++ String c EmptyString) = Some c.
Proof.
  induction s as [|d s IH]; [done|].
  change (String d s ++ String c EmptyString)
    with (String d (s ++ String c EmptyString)).
  remember (s ++ String c EmptyString) as t eqn:Heq.
  destruct t as [|a t]; [destruct s; discriminate | exact IH].
Qed.

(** X2. [toUri] always yields a location that ends with a slash; a location
    that already ends with one is returned as it is, so normalizing twice
    gives the same as normalizing once. *)
Theorem toUri_slash_terminated (folder : WorkspaceFolder) :
  JS.endsWithChar (toUri folder) "/"%char = true
  /\ (JS.endsWithChar (wf_uri folder) "/"%char = true -> toUri folder = wf_uri folder)
  /\ (forall name, toUri (mkFolder (toUri folder) name) = toUri folder).
Proof.
  assert (JS.endsWithChar (toUri folder) "/"%char = true) as Hslash.
  { unfold toUri. destruct (JS.endsWithChar (wf_uri folder) "/"%char) eqn:He; [done|].
    unfold JS.endsWithChar. rewrite lastChar_app_char. by apply bool_decide_eq_true. }
  split; [exact Hslash|]. split.
  - intros He. unfold toUri. by rewrite He.
  - intros name. unfold toUri at 1. cbn [wf_uri]. by rewrite Hslash.
Qed.

Lemma toUri_slash_terminated_witness :
  JS.endsWithChar (wf_uri Fixtures.folderWithSlash) "/"%char = true
  /\ toUri Fixtures.folderWithSlash = "file:///a/"
  /\ toUri (mkFolder "file:///a" "a") = "file:///a/".
Proof.
  split; [reflexivity|]. split; [|reflexivity].
  exact (proj1 (proj2 (toUri_slash_terminated Fixtures.folderWithSlash)) eq_refl).
Defined.

Lemma pushProjects_total (ows : list (option WorkspaceFolder)) (st : State)
    (folders : list WorkspaceFolder) :
  Forall (fun o => exists g, o = Some g /\ g ∈ folders) ows ->
  exists st' extra,
    pushProjects ows st = JS.Normal st'
    /\ projects st' = (projects st ++ extra)%list
    /\ List.length extra = List.length ows
    /\ Forall (fun p => exists g, g ∈ folders /\ p_id p = wf_uri g
                                  /\ p_uri p = wf_uri g
                                  /\ p_label p = Some (wf_name g)) extra.
Proof.
  intros Hall. revert st.
  induction Hall as [|o rest (g & -> & Hg) _ IH]; intros st; simpl.
  - exists st, []. by rewrite app_nil_r.
  - destruct (IH {| subscriptions := subscriptions st;
                    sortedWorkspaces := sortedWorkspaces st;
                    projects := projects st ++ [createProject (nextObj st) g];
                    fired := fired st; nextObj := S (nextObj st) |})
      as (st' & extra & Hpush & Hp & Hlen & Hextra).
    exists st', (createProject (nextObj st) g :: extra).
    split; [exact Hpush|]. cbn [projects] in Hp.
    split; [by rewrite Hp, <- app_assoc|].
    split; [simpl; by rewrite Hlen|].
    constructor; [|exact Hextra]. exists g. by repeat split.
Qed.

Lemma outer_answers (folders : list WorkspaceFolder) (st : State) :
  hostFaithful folders ->
  sortedWorkspaces st = JS.sortByLength (map toUri folders) ->
  Forall (fun o => exists g, o = Some g /\ g ∈ folders)
         (map (getOuterMostWorkspaceFolder_str folders st) (sortedWorkspaces st)).
Proof.
  intros Hhost Hsorted. apply Forall_fmap, Forall_forall. intros e He. cbn.
  unfold getOuterMostWorkspaceFolder_str, firstPrefix.
  destruct (JSFacts.find_in_front (fun el => JS.startsWith e el)
              (sortedWorkspaces st) [] e He (JSFacts.prefix_refl e))
    as (y & Hfind & Hy & _).
  rewrite app_nil_r in Hfind. rewrite Hfind.
  rewrite Hsorted in Hy. apply JSFacts.sortByLength_elem in Hy.
  apply list_elem_of_fmap in Hy as (f0 & -> & Hf0).
  unfold hostFaithful in Hhost. rewrite Forall_forall in Hhost.
  destruct (Hhost f0 Hf0) as (g & Hg & Hget & _). eauto.
Qed.

(** X3. In a workspace whose folders the host knows, [initialize()]
    completes without an exception from any state, appends exactly one
    project per workspace folder to the project list it finds (the list is
    never reset, so a second [initialize()] appends them again), and every
    project it appends carries the location and the name of one of the
    workspace folders. *)
Theorem initialize_completes (folders : list WorkspaceFolder) (st : State) :
  hostFaithful folders ->
  exists st' extra,
    initialize folders st = JS.Normal st'
    /\ projects st' = (projects st ++ extra)%list
    /\ List.length extra = List.length folders
    /\ Forall (fun p => exists g, g ∈ folders /\ p_id p = wf_uri g
                                  /\ p_uri p = wf_uri g
                                  /\ p_label p = Some (wf_name g)) extra
    /\ subscriptions st' = S (subscriptions st).
Proof.
  intros Hhost. unfold initialize, getSortedWorkspaces.
  set (sorted := JS.sortByLength (map toUri folders)).
  set (st1 := {| subscriptions := _; sortedWorkspaces := sorted |}).
  destruct (pushProjects_total
              (map (getOuterMostWorkspaceFolder_str folders st1) sorted) st1 folders)
    as (st2 & extra & Hpush & Hp & Hlen & Hextra).
  { exact (outer_answers folders st1 Hhost eq_refl). }
  rewrite Hpush. exists (fire {| added := Some (projects st2); removed := None;
                                 updated := None |} st2), extra.
  split; [reflexivity|]. cbn [fire projects subscriptions].
  split; [exact Hp|].
  split; [rewrite Hlen, length_map; unfold sorted;
          by rewrite JSFacts.sortByLength_length, length_map|].
  split; [exact Hextra|].
  clear -Hpush. revert Hpush. generalize (map (getOuterMostWorkspaceFolder_str folders st1) sorted).
  intros ows. assert (subscriptions st1 = S (subscriptions st)) as <- by reflexivity.
  generalize st1. induction ows as [|o rest IH]; intros s Hpush; simpl in Hpush.
  - by injection Hpush as <-.
  - destruct o as [w|]; [|discriminate]. by rewrite (IH _ Hpush).
Qed.

Lemma initialize_completes_witness :
  hostFaithful Scenarios.nestedFolders
  /\ exists st',
       initialize Scenarios.nestedFolders Scenarios.strategyNested = JS.Normal st'
       /\ List.length (projects Scenarios.strategyNested) = 2%nat
       /\ List.length (projects st') = 4%nat.
Proof.
  split; [exact WorkspaceFolderStrategyFacts.hostFaithful_nested|].
  destruct (initialize_completes Scenarios.nestedFolders Scenarios.strategyNested
              WorkspaceFolderStrategyFacts.hostFaithful_nested)
    as (st' & extra & Hinit & Hp & Hlen & _).
  exists st'. split; [exact Hinit|]. split; [reflexivity|].
  rewrite Hp, length_app, Hlen. reflexivity.
Defined.

(** X4. The listener for workspace-folder changes announces the change
    but never applies it: whether it completes or throws, the project list
    and the sorted folder list stay as [initialize()] left them, so
    [resolve] answers every location as before the change. *)
Theorem workspace_change_keeps_projects
    (folders ev_added ev_removed : list WorkspaceFolder) (st : State) :
  match onDidChangeWorkspaceFolders folders ev_added ev_removed st with
  | JS.Normal st' | JS.Thrown _ st' =>
      projects st' = projects st
      /\ sortedWorkspaces st' = sortedWorkspaces st
      /\ forall fileUri, resolve st' fileUri = resolve st fileUri
  end.
Proof.
  unfold onDidChangeWorkspaceFolders.
  destruct (mapCreate folders st (nextObj st) ev_added) as [[aps o1]|]; [|done].
  destruct (mapCreate folders st o1 ev_removed) as [[rps o2]|]; done.
Qed.

Lemma mapCreate_none (folders : list WorkspaceFolder) (st : State)
    (ws : list WorkspaceFolder) (w : WorkspaceFolder) (o : nat) :
  w ∈ ws -> getOuterMostWorkspaceFolder folders st w = None ->
  mapCreate folders st o ws = None.
Proof.
  intros Hin Hnone. revert o.
  induction ws as [|x rest IH]; intros o; [by apply elem_of_nil in Hin|].
  simpl. apply elem_of_cons in Hin as [<-|Hin].
  - by rewrite Hnone.
  - destruct (getOuterMostWorkspaceFolder folders st x); [|done].
    by rewrite (IH Hin).
Qed.

(** X5. When the host knows no workspace folder for one of the added or
    removed folders (as for a top-level folder that has just been removed),
    the listener throws a TypeError and fires no event. *)
Theorem workspace_change_throws
    (folders ev_added ev_removed : list WorkspaceFolder) (st : State)
    (w : WorkspaceFolder) :
  w ∈ ev_added \/ w ∈ ev_removed ->
  getOuterMostWorkspaceFolder folders st w = None ->
  onDidChangeWorkspaceFolders folders ev_added ev_removed st
  = JS.Thrown typeError st.
Proof.
  intros Hin Hnone. unfold onDidChangeWorkspaceFolders.
  destruct Hin as [Hin|Hin].
  - by rewrite (mapCreate_none _ _ _ _ _ Hin Hnone).
  - destruct (mapCreate folders st (nextObj st) ev_added) as [[aps o1]|]; [|done].
    by rewrite (mapCreate_none _ _ _ _ _ Hin Hnone).
Qed.

Lemma workspace_change_throws_witness :
  getOuterMostWorkspaceFolder Fixtures.foldersWithoutA Scenarios.strategyNested
    (mkFolder "file:///a" "a") = None
  /\ onDidChangeWorkspaceFolders Fixtures.foldersWithoutA [] [mkFolder "file:///a" "a"]
       Scenarios.strategyNested
     = JS.Thrown typeError Scenarios.strategyNested.
Proof.
  assert (getOuterMostWorkspaceFolder Fixtures.foldersWithoutA Scenarios.strategyNested
            (mkFolder "file:///a" "a") = None) as Hnone by (vm_compute; reflexivity).
  split; [exact Hnone|].
  apply (workspace_change_throws _ _ _ _ (mkFolder "file:///a" "a")); [|exact Hnone].
  right. apply list_elem_of_here.
Defined.

End WorkspaceFolderStrategyProps.

Module JSProps.

(** Unfolds [++] on a string whose first character is known. *)
Ltac string_app :=
  repeat match goal with
         | |- context [String ?c ?s ++ ?t] =>
             change (String c s ++ t) with (String c (s ++ t))
         | |- context [EmptyString ++ ?t] => change (EmptyString ++ t) with t
         end.

Lemma lastChar_app (s t : string) :
  t <> "" -> JS.lastChar (s ++ t) = JS.lastChar t.
Proof.
  intros Ht. induction s as [|d s IH]; [done|].
  change (String d s ++ t) with (String d (s ++ t)).
  remember (s ++ t) as r eqn:Heq.
  destruct r as [|a r]; [destruct s, t; done | exact IH].
Qed.

Lemma substring_app (s t : string) :
  String.substring 0 (String.length s) (s ++ t) = s.
Proof.
  induction s as [|c s IH]; string_app; simpl; [by destruct t | by rewrite IH].
Qed.

Lemma lastIndexOf_build (root : string) (i : Z) :
  0 <= i ->
  JS.lastIndexOf_from i (root ++ "/build") "/build" = i + Z.of_nat (String.length root).
Proof.
  revert i. induction root as [|c root IH]; intros i Hi.
  - string_app. cbn. lia.
  - string_app.
    cbn [JS.lastIndexOf_from]. rewrite IH by lia. cbn zeta.
    destruct (Z.leb_spec 0 (i + 1 + Z.of_nat (String.length root))) as [_|Hneg]; [|lia].
    cbn [String.length]. lia.
Qed.

Lemma lastIndexOf_build_marked (root : string) (i : Z) :
  0 <= i ->
  JS.lastIndexOf_from i (root ++ "/build/") "/build" = i + Z.of_nat (String.length root).
Proof.
  revert i. induction root as [|c root IH]; intros i Hi.
  - string_app. cbn. lia.
  - string_app.
    cbn [JS.lastIndexOf_from]. rewrite IH by lia. cbn zeta.
    destruct (Z.leb_spec 0 (i + 1 + Z.of_nat (String.length root))) as [_|Hneg]; [|lia].
    cbn [String.length]. lia.
Qed.

Lemma append_assoc (a b c : string) : (a ++ b) ++ c = a ++ (b ++ c).
Proof. induction a as [|x a IH]; string_app; [done | by rewrite IH]. Qed.

Lemma substring_all (s : string) : String.substring 0 (String.length s) s = s.
Proof. induction s as [|c s IH]; simpl; [done | by rewrite IH]. Qed.

Lemma fsPath_Uri_file (path : string) : Host.fsPath (Host.Uri_file path) = path.
Proof.
  unfold Host.fsPath, Host.Uri_file. string_app. cbn.
  rewrite JSFacts.prefix_nil, Nat.sub_0_r. apply substring_all.
Qed.

End JSProps.

Module CmakeProjectStrategyProps.
Import Host CmakeProjectStrategy.

(** The directory [getProjectDirectory] cuts out of [root/build] *)
Lemma getProjectDirectory_build (fs : FileSystem) (root : string) :
  getProjectDirectory fs (root ++ "/build")
  = (if bool_decide (root ++ "/build/compile_commands.json" ∈ existing fs)
     then Some (Uri_file root) else None)
  /\ getProjectDirectory fs (root ++ "/build/")
     = (if bool_decide (root ++ "/build/compile_commands.json" ∈ existing fs)
        then Some (Uri_file root) else None).
Proof.
  unfold getProjectDirectory, path_join, JS.endsWithChar, JS.lastIndexOf, JS.substring0.
  rewrite !JSProps.lastChar_app by done. cbn [JS.lastChar].
  rewrite JSProps.lastIndexOf_build, JSProps.lastIndexOf_build_marked by lia.
  rewrite Z.add_0_l, Nat2Z.id, !JSProps.substring_app.
  rewrite (bool_decide_eq_false_2 ("d"%char = "/"%char)) by discriminate.
  rewrite (bool_decide_eq_true_2 ("/"%char = "/"%char)) by reflexivity.
  rewrite !JSProps.append_assoc. JSProps.string_app. done.
Qed.

Lemma normalFrom_plain (seg p : string) :
  Locations.normalFrom seg p = true ->
  Locations.allChars Locations.plainChar p = true.
Proof.
  revert seg. induction p as [|c p IH]; intros seg; [done|].
  cbn [Locations.normalFrom Locations.allChars]. unfold Locations.plainChar at 1.
  case_bool_decide as Hc.
  - intros [_ H]%andb_true_iff. rewrite orb_true_r. cbn [andb]. by eapply IH.
  - intros [-> H]%andb_true_iff. cbn [orb andb]. by eapply IH.
Qed.

(** The uri [Uri_file] makes of a normalized absolute path is the text
    [file://] followed by the path, and it has no escape. *)
Lemma normalPath_plainFileUri (p : string) :
  Locations.normalPath p = true -> Locations.plainFileUri (Uri_file p) = true.
Proof.
  unfold Locations.normalPath, Locations.plainFileUri.
  rewrite JSProps.fsPath_Uri_file.
  destruct p as [|c p]; [done|].
  case_bool_decide as Hc; [|done]. subst c. cbn [andb]. intros Hn.
  apply andb_true_iff. split; [|].
  - unfold Uri_file, JS.startsWith.
    change ("file://" ++ String "/" p) with ("file:///" ++ p).
    apply JSFacts.prefix_app.
  - cbn [Locations.allChars]. apply andb_true_iff. split; [done|].
    by eapply normalFrom_plain.
Qed.

(** X6. For a build directory [root/build] below a normalized absolute
    path [root] without escapes, also when the directory is written with a
    final slash as glob reports it, [getProjectDirectory] answers with the
    uri of [root], which is the text [file://] followed by [root] and has
    no escape, exactly when [compile_commands.json] exists directly in the
    build directory, and with nothing otherwise. *)
Theorem getProjectDirectory_root (fs : FileSystem) (root : string) :
  Locations.normalPath root = true ->
  getProjectDirectory fs (root ++ "/build")
  = (if bool_decide (root ++ "/build/compile_commands.json" ∈ existing fs)
     then Some (Uri_file root) else None)
  /\ getProjectDirectory fs (root ++ "/build/")
     = (if bool_decide (root ++ "/build/compile_commands.json" ∈ existing fs)
        then Some (Uri_file root) else None)
  /\ Uri_file root = "file://" ++ root
  /\ Locations.plainFileUri (Uri_file root) = true
  /\ fsPath (Uri_file root) = root.
Proof.
  intros Hroot.
  destruct (getProjectDirectory_build fs root) as [Hbuild Hmarked].
  split; [exact Hbuild|]. split; [exact Hmarked|]. split; [reflexivity|].
  split; [by apply normalPath_plainFileUri | apply JSProps.fsPath_Uri_file].
Qed.

Lemma getProjectDirectory_root_witness :
  getProjectDirectory Scenarios.fsWithBuild "/proj/build/" = Some "file:///proj"
  /\ getProjectDirectory Scenarios.fsAfterDelete "/proj/build/" = None.
Proof.
  pose proof (proj1 (proj2 (getProjectDirectory_root Scenarios.fsWithBuild "/proj"
                              eq_refl))) as Hbuild.
  pose proof (proj1 (proj2 (getProjectDirectory_root Scenarios.fsAfterDelete "/proj"
                              eq_refl))) as Hgone.
  rewrite bool_decide_eq_true_2 in Hbuild by (vm_compute; set_solver).
  rewrite bool_decide_eq_false_2 in Hgone by (vm_compute; set_solver).
  split; [exact Hbuild | exact Hgone].
Defined.

Lemma find_app_none {A : Type} (P : A -> bool) (l1 l2 : list A) :
  find P l1 = None -> find P (l1 ++ l2) = find P l2.
Proof.
  induction l1 as [|x l1 IH]; simpl; [done|].
  destruct (P x); [discriminate | exact IH].
Qed.

Lemma find_app_some {A : Type} (P : A -> bool) (l1 l2 : list A) (x : A) :
  find P l1 = Some x -> find P (l1 ++ l2) = Some x.
Proof.
  induction l1 as [|y l1 IH]; simpl; [discriminate|].
  destruct (P y); [done | exact IH].
Qed.

(** X7. When a build directory [root/build] below a normalized absolute
    path [root] without escapes holds a compilation database and is
    reported as created, the strategy appends one new project for [root],
    whose location has no escape, and announces exactly it; from then on
    every location below [root] resolves to a project: to the one that
    matched before, if there was one, and to the new project otherwise. *)
Theorem onDidCreate_resolves (fs : FileSystem) (root rest : string) (st : State) :
  Locations.normalPath root = true ->
  root ++ "/build/compile_commands.json" ∈ existing fs ->
  let st' := onDidCreate fs (Uri_file (root ++ "/build")) st in
  let created := createProject (nextObj st) (Uri_file root) in
  projects st' = (projects st ++ [created])%list
  /\ fired st' = (fired st ++ [ {| added := Some [created]; removed := None;
                                   updated := None |} ])%list
  /\ Locations.plainProject (Some created) = true
  /\ resolve st' (Uri_file root ++ rest)
     = match resolve st (Uri_file root ++ rest) with
       | Some p => Some p
       | None => Some created
       end.
Proof.
  intros Hroot Hdb st' created. subst st' created. unfold onDidCreate.
  rewrite JSProps.fsPath_Uri_file.
  rewrite (proj1 (getProjectDirectory_build fs root)).
  rewrite bool_decide_eq_true_2 by exact Hdb. cbn [projects fired].
  split; [reflexivity|]. split; [reflexivity|].
  split; [by apply normalPath_plainFileUri|].
  unfold resolve. cbn [projects].
  destruct (find _ (projects st)) as [p|] eqn:Hfind.
  - by apply find_app_some.
  - rewrite find_app_none by exact Hfind. cbn [find createProject p_uri].
    unfold JS.startsWith. by rewrite JSFacts.prefix_app.
Qed.

Lemma onDidCreate_resolves_witness :
  "/other" ++ "/build/compile_commands.json"
    ∈ existing Fixtures.fsTwoBuilds
  /\ resolve Fixtures.cmakeReady "file:///other/src/main.cpp" = None
  /\ p_id <$> resolve (onDidCreate Fixtures.fsTwoBuilds "file:///other/build"
                         Fixtures.cmakeReady) "file:///other/src/main.cpp"
     = Some "file:///other".
Proof.
  assert ("/other" ++ "/build/compile_commands.json" ∈ existing Fixtures.fsTwoBuilds)
    as Hdb by (vm_compute; set_solver).
  assert (resolve Fixtures.cmakeReady "file:///other/src/main.cpp" = None) as Hnone
    by (vm_compute; reflexivity).
  split; [exact Hdb|]. split; [exact Hnone|].
  destruct (onDidCreate_resolves Fixtures.fsTwoBuilds "/other" "/src/main.cpp"
              Fixtures.cmakeReady eq_refl Hdb) as (_ & _ & _ & Hres).
  change (Uri_file "/other" ++ "/src/main.cpp") with "file:///other/src/main.cpp" in Hres.
  change (Uri_file ("/other" ++ "/build")) with "file:///other/build" in Hres.
  rewrite Hres, Hnone. reflexivity.
Defined.

(** X8. [initialize()] completes exactly when glob succeeds for every
    workspace folder; a glob error in one folder rejects the whole
    operation. *)
Theorem initialize_rejects_on_glob_error
    (fs : FileSystem) (folders : list WorkspaceFolder) (st : State) :
  (exists st', initialize fs folders st = JS.Normal st')
  <-> Forall (fun folder => is_Some (globDirs fs (fsPath (wf_uri folder)))) folders.
Proof.
  unfold initialize. generalize (configureFileWatcher st) as s.
  induction folders as [|folder rest IH]; intros s; simpl.
  - split; [constructor | eauto].
  - destruct (globDirs fs (fsPath (wf_uri folder))) as [matches|] eqn:Hglob.
    + rewrite IH. split.
      * intros Hrest. constructor; [by rewrite Hglob | exact Hrest].
      * intros Hall. by apply Forall_cons in Hall as [_ Hrest].
    + split.
      * intros [st' Hst]. discriminate.
      * intros Hall. apply Forall_cons in Hall as [[x Hx] _].
        rewrite Hglob in Hx. discriminate.
Qed.

(** X9. Whatever the file watcher reports, the project list only grows:
    the projects known before keep their places, and no event the strategy
    fires has a [removed] list. *)
Theorem projects_only_grow (evs : list WatcherEvent) (st : State) :
  wellFormed st ->
  exists more_projects more_events,
    projects (runWatcher st evs) = (projects st ++ more_projects)%list
    /\ fired (runWatcher st evs) = (fired st ++ more_events)%list
    /\ Forall (fun ev => removed ev = None) more_events.
Proof.
  revert st. induction evs as [|ev rest IH]; intros st Hwf.
  - exists [], []. cbn. rewrite !app_nil_r. repeat split. constructor.
  - cbn [runWatcher foldl].
    assert (wellFormed (handle st ev)
            /\ exists ps es, projects (handle st ev) = (projects st ++ ps)%list
                             /\ fired (handle st ev) = (fired st ++ es)%list
                             /\ Forall (fun ev => removed ev = None) es)
      as (Hwf' & ps & es & Hp & Hf & Hes).
    { destruct ev as [fs uri|fs uri]; cbn [handle].
      - split; [by apply CmakeProjectStrategyFacts.wellFormed_onDidCreate|].
        unfold onDidCreate.
        destruct (getProjectDirectory fs (fsPath uri)) as [dir|].
        + eexists _, _. cbn [projects fired]. repeat split. by repeat constructor.
        + exists [], []. rewrite !app_nil_r. repeat split. constructor.
      - destruct (CmakeProjectStrategyFacts.onDidDelete_keeps_projects fs uri st Hwf)
          as (Hp & Hf & Hwf').
        split; [exact Hwf'|]. exists [], []. rewrite !app_nil_r, Hp, Hf.
        repeat split. constructor. }
    destruct (IH _ Hwf') as (ps' & es' & Hp' & Hf' & Hes').
    exists (ps ++ ps')%list, (es ++ es')%list.
    fold (runWatcher (handle st ev) rest).
    rewrite Hp', Hf', Hp, Hf, <- !app_assoc.
    repeat split. by apply Forall_app.
Qed.

Lemma projects_only_grow_witness :
  wellFormed Fixtures.cmakeReady
  /\ exists more_projects,
       projects (runWatcher Fixtures.cmakeReady
                   [DidCreate Fixtures.fsTwoBuilds "file:///other/build";
                    DidDelete Scenarios.fsAfterDelete "file:///proj/build"])
       = (projects Fixtures.cmakeReady ++ more_projects)%list.
Proof.
  assert (wellFormed Fixtures.cmakeReady) as Hwf
    by (vm_compute; repeat constructor).
  split; [exact Hwf|].
  destruct (projects_only_grow
              [DidCreate Fixtures.fsTwoBuilds "file:///other/build";
               DidDelete Scenarios.fsAfterDelete "file:///proj/build"]
              Fixtures.cmakeReady Hwf) as (ps & es & Hp & _).
  exists ps. exact Hp.
Defined.

End CmakeProjectStrategyProps.

Module ProjectServiceProps.
Import Host ProjectService.

#[local] Set Warnings "-clear-no-such-hyp".

Lemma unregisterStrategy_known (id : string) (s : Strategy) (st : State) :
  strategies st !! id = Some s ->
  let st' := snd (unregisterStrategy id st) in
  fst (unregisterStrategy id st) = true
  /\ strategies st' = delete (strategy_id s) (strategies st)
  /\ disposedStrategies st' = disposedStrategies st ∪ {[strategy_obj s]}
  /\ same_gate st st'
  /\ _activeStrategy st' = _activeStrategy st
  /\ heap st' = heap st
  /\ _isEnabled st' = _isEnabled st
  /\ _currentProject st' = _currentProject st
  /\ firedCurrent st' = firedCurrent st
  /\ config st'
     = (if match _activeStrategy st with
           | Some a => bool_decide (strategy_id a = strategy_id s)
           | None => false
           end
        then {| cfg_enabled := cfg_enabled (config st);
                cfg_strategy := cfg_defaultStrategy (config st);
                cfg_defaultStrategy := cfg_defaultStrategy (config st) |}
        else config st).
Proof.
  intros Hlook. unfold unregisterStrategy. rewrite Hlook. cbn [fst snd].
  cbn [_activeStrategy with_disposed with_registry].
  destruct (_activeStrategy st) as [a|] eqn:Ha;
    [destruct (bool_decide (strategy_id a = strategy_id s))|];
    unfold same_gate; cbn; repeat split; exact Ha.
Qed.

(** X10. Registering a strategy under a new id and unregistering it again
    leaves the registry as it was and disposes the strategy; the readiness
    gate is not armed again: the id stays out of the pending set. *)
Theorem register_unregister_round_trip (s : Strategy) (st : State) :
  strategies st !! strategy_id s = None ->
  let st1 := snd (registerStrategy s st) in
  let st2 := snd (unregisterStrategy (strategy_id s) st1) in
  fst (unregisterStrategy (strategy_id s) st1) = true
  /\ strategies st2 = strategies st
  /\ strategy_obj s ∈ disposedStrategies st2
  /\ externalRegisteredStrategies st2
     = externalRegisteredStrategies st ∖ {[strategy_id s]}
  /\ onReadyResolved st2 = onReadyResolved st1.
Proof.
  intros Hnone st1 st2. subst st2.
  destruct (ProjectServiceFacts.registerStrategy_fresh s st Hnone)
    as (_ & Hreg & Hpend & _). fold st1 in Hreg, Hpend.
  destruct (unregisterStrategy_known (strategy_id s) s st1)
    as (Hret & Hs & Hd & [Hr Hp] & _).
  { by rewrite Hreg, lookup_insert_eq. }
  split; [exact Hret|]. rewrite Hs, Hd, Hr, Hp, Hreg, Hpend.
  split; [by rewrite delete_insert_eq, delete_id|].
  split; [set_solver | done].
Qed.

Lemma register_unregister_round_trip_witness :
  strategies Scenarios.svcWaiting !! "ext" = None
  /\ strategies (snd (unregisterStrategy "ext"
                        (snd (registerStrategy Scenarios.extStrategy Scenarios.svcWaiting))))
     = strategies Scenarios.svcWaiting
  /\ onReadyResolved Scenarios.svcWaiting = false
  /\ onReadyResolved (snd (unregisterStrategy "ext"
                             (snd (registerStrategy Scenarios.extStrategy
                                     Scenarios.svcWaiting)))) = true.
Proof.
  assert (strategies Scenarios.svcWaiting !! "ext" = None) as Hnone
    by (vm_compute; reflexivity).
  destruct (register_unregister_round_trip Scenarios.extStrategy Scenarios.svcWaiting Hnone)
    as (_ & Hs & _ & _ & Hr).
  split; [exact Hnone|]. split; [exact Hs|]. split; [vm_compute; reflexivity|].
  etrans; [exact Hr|]. vm_compute. reflexivity.
Defined.

(** X11. Unregistering the strategy that is active removes it from the
    registry, disposes it and sets the configured strategy back to the
    default, but the service keeps it as its active strategy: a [resolve]
    that finds the gate open and the service enabled gives the same
    project as before the strategy was unregistered. *)
Theorem unregister_active_strategy
    (env : Env) (s a : Strategy) (st : State) (fileUri : string)
    (updateCurrent : bool) :
  strategies st !! strategy_id s = Some s ->
  _activeStrategy st = Some a ->
  strategy_id a = strategy_id s ->
  let st' := snd (unregisterStrategy (strategy_id s) st) in
  strategies st' !! strategy_id s = None
  /\ strategy_obj s ∈ disposedStrategies st'
  /\ cfg_strategy (config st') = cfg_defaultStrategy (config st)
  /\ _activeStrategy st' = Some a
  /\ match resolve env fileUri updateCurrent st,
           resolve env fileUri updateCurrent st' with
     | Resolved p _, Resolved p' _ => p' = p
     | Waiting, Waiting => True
     | _, _ => False
     end.
Proof.
  intros Hlook Hactive Hid st'. subst st'.
  destruct (unregisterStrategy_known (strategy_id s) s st Hlook)
    as (_ & Hs & Hd & [Hr Hp] & Ha & Hh & He & Hc & _ & Hcfg).
  set (st' := snd (unregisterStrategy (strategy_id s) st)) in *.
  rewrite Hs, Hd, Ha, Hcfg, Hactive.
  split; [apply lookup_delete_eq|].
  split; [set_solver|].
  split; [by rewrite bool_decide_eq_true_2|].
  split; [reflexivity|].
  unfold resolve. rewrite Hr, He, Ha, Hactive. cbn beta iota.
  rewrite ?Ha, ?Hactive, ?Hh.
  destruct (negb (onReadyResolved st)); [done|].
  destruct (negb (_isEnabled st)); [done|].
  destruct (heap st !! strategy_obj a) as [o|]; [|done].
  destruct (resolveObj o fileUri) as [np|]; [|done].
  destruct updateCurrent; done.
Qed.

Lemma unregister_active_strategy_witness :
  strategies Scenarios.svcReady !! WorkspaceFolderStrategy.ID
    = Some {| strategy_obj := 0; strategy_id := WorkspaceFolderStrategy.ID |}
  /\ _activeStrategy Scenarios.svcReady
     = Some {| strategy_obj := 0; strategy_id := WorkspaceFolderStrategy.ID |}
  /\ strategies (snd (unregisterStrategy WorkspaceFolderStrategy.ID Scenarios.svcReady))
       !! WorkspaceFolderStrategy.ID = None
  /\ _activeStrategy (snd (unregisterStrategy WorkspaceFolderStrategy.ID Scenarios.svcReady))
     = Some {| strategy_obj := 0; strategy_id := WorkspaceFolderStrategy.ID |}.
Proof.
  assert (strategies Scenarios.svcReady !! WorkspaceFolderStrategy.ID
          = Some {| strategy_obj := 0; strategy_id := WorkspaceFolderStrategy.ID |}) as Hlook
    by (vm_compute; reflexivity).
  assert (_activeStrategy Scenarios.svcReady
          = Some {| strategy_obj := 0; strategy_id := WorkspaceFolderStrategy.ID |}) as Hact
    by (vm_compute; reflexivity).
  destruct (unregister_active_strategy Scenarios.envNested
              {| strategy_obj := 0; strategy_id := WorkspaceFolderStrategy.ID |}
              {| strategy_obj := 0; strategy_id := WorkspaceFolderStrategy.ID |}
              Scenarios.svcReady "file:///a/x.cpp" false Hlook Hact eq_refl)
    as (Hgone & _ & _ & Hkept & _).
  split; [exact Hlook|]. split; [exact Hact|]. split; [exact Hgone | exact Hkept].
Defined.

(** X12. Once the configured strategy has been made the active one, a
    further [updateActiveStrategy] changes nothing: the strategy is not
    subscribed to and not initialized again, also when its first
    [initialize()] was rejected. *)
Theorem updateActiveStrategy_once
    (env env' : Env) (validate validate' : bool) (s : Strategy) (st : State) :
  strategies st !! cfg_strategy (config st) = Some s ->
  let st1 := afterCompletion (updateActiveStrategy env validate st) in
  (exists a, _activeStrategy st1 = Some a /\ strategy_obj a = strategy_obj s)
  /\ updateActiveStrategy env' validate' st1 = JS.Normal st1.
Proof.
  intros Hlook st1.
  assert (sameStrategy s s = true) as Hsame by (by apply bool_decide_eq_true).
  assert (strategies st1 = strategies st /\ config st1 = config st
          /\ exists a, _activeStrategy st1 = Some a /\ sameStrategy s a = true)
    as (Hs & Hc & a & Ha & Hsa).
  { subst st1. unfold updateActiveStrategy. rewrite Hlook.
    destruct (match _activeStrategy st with
              | Some a => sameStrategy s a
              | None => false
              end) eqn:Hactive.
    - cbn [afterCompletion]. destruct (_activeStrategy st) as [a|]; [|discriminate].
      eauto.
    - cbn [with_active heap strategy_obj].
      destruct (heap st !! strategy_obj s) as [o|]; [destruct (initializeObj env o)|];
        cbn; eauto. }
  split.
  - exists a. split; [exact Ha|]. unfold sameStrategy in Hsa.
    by apply bool_decide_eq_true in Hsa.
  - unfold updateActiveStrategy. by rewrite Hc, Hs, Hlook, Ha, Hsa.
Qed.

Lemma updateActiveStrategy_once_witness :
  strategies (new Scenarios.cfgOn []) !! WorkspaceFolderStrategy.ID = None
  /\ strategies Scenarios.svcReady !! cfg_strategy (config Scenarios.svcReady)
     = Some {| strategy_obj := 0; strategy_id := WorkspaceFolderStrategy.ID |}
  /\ updateActiveStrategy Scenarios.envNested true
       (afterCompletion (updateActiveStrategy Scenarios.envNested false Scenarios.svcReady))
     = JS.Normal
         (afterCompletion (updateActiveStrategy Scenarios.envNested false Scenarios.svcReady)).
Proof.
  split; [vm_compute; reflexivity|].
  assert (strategies Scenarios.svcReady !! cfg_strategy (config Scenarios.svcReady)
          = Some {| strategy_obj := 0; strategy_id := WorkspaceFolderStrategy.ID |}) as Hlook
    by (vm_compute; reflexivity).
  split; [exact Hlook|].
  exact (proj2 (updateActiveStrategy_once Scenarios.envNested Scenarios.envNested
                  false true _ Scenarios.svcReady Hlook)).
Defined.

(** X13. A resolution that has yielded a project is repeatable: resolving
    the same location again gives the same project and leaves the service
    exactly as the first resolution left it, so no second
    [CurrentProjectChange] is fired. *)
Theorem resolve_again (env : Env) (fileUri : string) (updateCurrent : bool)
    (st st1 : State) (p : Project) :
  resolve env fileUri updateCurrent st = Resolved (Some p) st1 ->
  resolve env fileUri updateCurrent st1 = Resolved (Some p) st1.
Proof.
  unfold resolve at 1.
  destruct (negb (onReadyResolved st)) eqn:Hready; [discriminate|].
  destruct (negb (_isEnabled st)) eqn:Henabled; [discriminate|].
  destruct (match _activeStrategy st with
            | Some _ => JS.Normal st
            | None => updateActiveStrategy env true st
            end) as [st0|msg st0] eqn:Hupdate; [|discriminate].
  assert (onReadyResolved st0 = onReadyResolved st /\ _isEnabled st0 = _isEnabled st)
    as [Hr0 He0].
  { destruct (_activeStrategy st); [by injection Hupdate as <-|].
    revert Hupdate. unfold updateActiveStrategy.
    destruct (strategies st !! cfg_strategy (config st)) as [s|].
    - destruct (match _activeStrategy st with
                | Some a => sameStrategy s a
                | None => false
                end); [by intros [= <-]|].
      cbn [with_active heap].
      destruct (heap st !! strategy_obj s) as [o|];
        [destruct (initializeObj env o)|]; by intros [= <-].
    - by intros [= <-]. }
  destruct (_activeStrategy st0) as [a|] eqn:Ha; [|discriminate].
  destruct (heap st0 !! strategy_obj a) as [o|] eqn:Ho; [|discriminate].
  destruct (resolveObj o fileUri) as [np|] eqn:Hnp; [|discriminate].
  destruct updateCurrent.
  - intros [= -> <-]. unfold resolve.
    cbn [with_current onReadyResolved _isEnabled _activeStrategy].
    rewrite Hr0, Hready, He0, Henabled, Ha. cbn beta iota.
    cbn [with_current _activeStrategy heap _currentProject firedCurrent].
    rewrite Ha, Ho, Hnp.
    assert (sameProject p p = true) as -> by (by apply bool_decide_eq_true).
    reflexivity.
  - intros [= -> <-]. unfold resolve.
    rewrite Hr0, Hready, He0, Henabled, Ha. cbn beta iota.
    by rewrite Ha, Ho, Hnp.
Qed.

Lemma resolve_again_witness :
  exists st1,
    resolve Scenarios.envNested "file:///a/x.cpp" true Scenarios.svcReady
      = Resolved (Some Scenarios.projectA) st1
    /\ List.length (firedCurrent st1) = 1%nat
    /\ resolve Scenarios.envNested "file:///a/x.cpp" true st1
       = Resolved (Some Scenarios.projectA) st1.
Proof.
  destruct (resolve Scenarios.envNested "file:///a/x.cpp" true Scenarios.svcReady)
    as [|p st1|msg st1] eqn:Hres; try (vm_compute in Hres; discriminate).
  assert (p = Some Scenarios.projectA) as ->
    by (vm_compute in Hres; by injection Hres as <- _).
  exists st1. split; [reflexivity|]. split.
  - vm_compute in Hres. by injection Hres as <-.
  - exact (resolve_again _ _ _ _ _ _ Hres).
Defined.

(** X14. [dispose()] empties the registry and disposes every strategy that
    was registered; it leaves the readiness gate and the active strategy
    alone, and disposing a second time changes nothing any more. *)
Theorem dispose_idempotent (st : State) :
  strategies (dispose st) = ∅
  /\ (forall id s, strategies st !! id = Some s ->
        strategy_obj s ∈ disposedStrategies (dispose st))
  /\ onReadyResolved (dispose st) = onReadyResolved st
  /\ _activeStrategy (dispose st) = _activeStrategy st
  /\ dispose (dispose st) = dispose st.
Proof.
  split; [reflexivity|]. split; [|split; [reflexivity|split; [reflexivity|]]].
  - intros id s Hs. cbn. apply elem_of_union. right.
    apply elem_of_list_to_set, list_elem_of_fmap.
    exists (id, s). split; [reflexivity|]. by apply elem_of_map_to_list.
  - set (d := dispose st). unfold dispose at 1.
    change (strategies d) with (∅ : gmap string Strategy).
    rewrite map_to_list_empty. cbn [map].
    assert (disposedStrategies d ∪ list_to_set [] = disposedStrategies d) as ->
      by set_solver.
    reflexivity.
Qed.

(** X15. When no strategy is active and the configured strategy id is not
    registered, [resolve] shows and logs the two warnings and takes the
    default strategy as the active one without subscribing to it and
    without calling its [initialize()]: the answer is what that strategy
    object resolves to in the state it happens to be in. *)
Theorem resolve_falls_back_uninitialized
    (env : Env) (fileUri : string) (updateCurrent : bool) (st : State)
    (d : Strategy) (o : StrategyObj) :
  onReadyResolved st = true ->
  _isEnabled st = true ->
  _activeStrategy st = None ->
  strategies st !! cfg_strategy (config st) = None ->
  strategies st !! cfg_defaultStrategy (config st) = Some d ->
  heap st !! strategy_obj d = Some o ->
  exists st1,
    resolve env fileUri updateCurrent st = Resolved (resolveObj o fileUri) st1
    /\ _activeStrategy st1 = Some d
    /\ heap st1 = heap st
    /\ forwarded st1 = forwarded st
    /\ shown st1 = (shown st ++ [notFoundMsg (cfg_strategy (config st));
                                 resetMsg (cfg_defaultStrategy (config st))])%list
    /\ console st1 = (console st ++ [notFoundMsg (cfg_strategy (config st));
                                     resetMsg (cfg_defaultStrategy (config st))])%list.
Proof.
  intros Hready Hen Hact Hcfg Hdef Hobj.
  unfold resolve. rewrite Hready, Hen, Hact. cbn [negb].
  unfold updateActiveStrategy. rewrite Hcfg.
  cbn [console_warn showWarningMessage with_log with_active strategies forwarded
         console shown _activeStrategy heap _currentProject firedCurrent].
  rewrite Hdef, Hobj.
  destruct (resolveObj o fileUri) as [np|];
    [destruct updateCurrent|]; eexists; (split; [reflexivity|]);
    cbn; rewrite <- !app_assoc; repeat split.
Qed.

Lemma resolve_falls_back_uninitialized_witness :
  _activeStrategy Fixtures.svcUnknown = None
  /\ strategies Fixtures.svcUnknown !! cfg_strategy (config Fixtures.svcUnknown) = None
  /\ exists st1,
       resolve Scenarios.envNested "file:///a/x.cpp" true Fixtures.svcUnknown
         = Resolved None st1
       /\ _activeStrategy st1
          = Some {| strategy_obj := 0; strategy_id := WorkspaceFolderStrategy.ID |}.
Proof.
  assert (_activeStrategy Fixtures.svcUnknown = None) as Hact
    by (vm_compute; reflexivity).
  assert (strategies Fixtures.svcUnknown !! cfg_strategy (config Fixtures.svcUnknown)
          = None) as Hcfg by (vm_compute; reflexivity).
  split; [exact Hact|]. split; [exact Hcfg|].
  destruct (resolve_falls_back_uninitialized Scenarios.envNested "file:///a/x.cpp" true
              Fixtures.svcUnknown
              {| strategy_obj := 0; strategy_id := WorkspaceFolderStrategy.ID |}
              (WorkspaceFolders WorkspaceFolderStrategy.initial))
    as (st1 & Hres & Ha & _); try (vm_compute; reflexivity); try assumption.
  exists st1. split; [exact Hres | exact Ha].
Defined.

Lemma updateActiveStrategy_host (env : Env) (validate : bool) (st : State) :
  let st1 := afterCompletion (updateActiveStrategy env validate st) in
  restarts st1 = restarts st /\ _isEnabled st1 = _isEnabled st
  /\ _currentProject st1 = _currentProject st /\ config st1 = config st.
Proof.
  unfold updateActiveStrategy.
  destruct (strategies st !! cfg_strategy (config st)) as [s|].
  - destruct (match _activeStrategy st with
              | Some a => sameStrategy s a
              | None => false
              end); [done|].
    cbn [with_active heap].
    destruct (heap st !! strategy_obj s) as [o|]; [|done].
    destruct (initializeObj env o); done.
  - destruct validate; done.
Qed.

(** X16. A configuration change asks for a restart of clangd exactly when
    it touches the enabled setting or the strategy setting, also when the
    re-selection of the strategy is rejected.  A change of the enabled
    setting takes the new value and does not re-select the strategy, even
    if the same event changes the strategy setting too; a change of the
    strategy setting alone leaves the enabled flag as it was.  The registry
    and the readiness gate are never changed. *)
Theorem configuration_change_restarts
    (env : Env) (affectsEnabled affectsStrategy : bool) (st : State) :
  let st' := handleConfigurationChange env affectsEnabled affectsStrategy st in
  restarts st'
  = (restarts st + (if affectsEnabled || affectsStrategy then 1 else 0))%nat
  /\ strategies st' = strategies st
  /\ same_gate st st'
  /\ _isEnabled st'
     = (if affectsEnabled then cfg_enabled (config st) else _isEnabled st)
  /\ (affectsEnabled = true ->
      _activeStrategy st' = _activeStrategy st /\ heap st' = heap st
      /\ forwarded st' = forwarded st)
  /\ (affectsEnabled = false -> affectsStrategy = true ->
      with_host (subscribed st') (config st') (restarts st) st'
      = afterCompletion (updateActiveStrategy env true st)).
Proof.
  cbn zeta. unfold handleConfigurationChange.
  destruct affectsEnabled; cbn [orb].
  - cbn. repeat split; try done; lia.
  - destruct affectsStrategy.
    + pose proof (updateActiveStrategy_host env true st) as Hh.
      pose proof (ProjectServiceFacts.updateActiveStrategy_frame env true st) as Hf.
      cbn zeta in Hh. destruct Hh as (Hr & He & _ & _).
      destruct Hf as (Hg & Hs).
      destruct (updateActiveStrategy env true st) as [st1|msg st1];
        cbn [afterCompletion] in *; cbn [restarts strategies _isEnabled with_host];
        (split; [lia|]); (split; [done|]); (split; [exact Hg|]);
        (split; [done|]); (split; [done|]); intros _ _;
        rewrite <- Hr; by destruct st1.
    + repeat split; try done; lia.
Qed.

End ProjectServiceProps.

Module ClangdContextProps.
Import Host ClangdContext Selectors.
#[local] Set Warnings "-clear-no-such-hyp".

(** *** What [createClient] builds *)

Lemma with_clients_twice (m m' : gmap string nat) (o o' : list Client) (st : State) :
  with_clients m o (with_clients m' o' st) = with_clients m o st.
Proof. reflexivity. Qed.

Lemma alter_last {A : Type} (f : A -> A) (l : list A) (c : A) :
  alter f (List.length l) (l ++ [c])%list = (l ++ [f c])%list.
Proof.
  replace (List.length l) with (List.length l + 0)%nat by lia.
  by rewrite alter_app_r.
Qed.

Lemma createClient_full (project : option Project) (so : option ServerOptions)
    (st : State) :
  createClient project so st
  = (List.length (clientObjs st),
     with_clients
       (<[keyOf project := List.length (clientObjs st)]> (clients st))
       (clientObjs st
          ++ [ {| c_serverOptions := so;
                  c_documentSelector := fst (fst (getClientOptions project st));
                  c_outputChannel := snd (fst (getClientOptions project st));
                  c_maxRestartCount := maxRestartCount st;
                  c_features := 2%nat;
                  c_started := true; c_disposed := false |} ])%list
       (snd (getClientOptions project st))).
Proof.
  unfold createClient.
  pose proof (ClangdContextFacts.getClientOptions_frame project st) as H.
  destruct (getClientOptions project st) as [options st1].
  simpl in H. destruct H as (Hc & Ho & Hu & Hov & Hsvc & Hr).
  unfold createNewClient, maxRestartCount. cbn -[alter insert].
  rewrite Hc, Ho, Hr.
  by rewrite !with_clients_twice, !alter_last.
Qed.

(** *** Disposal *)

Lemma disposeObj_twice (c : Client) : disposeObj (disposeObj c) = disposeObj c.
Proof. reflexivity. Qed.

(** X17. [disposeClient(id)] does nothing for an id without an entry, and
    otherwise removes exactly that entry and disposes exactly the client it
    held: the entries under other ids and all other client objects are left
    alone, and a second call for the same id changes nothing more. *)
Theorem disposeClient_idempotent (id : string) (st : State) :
  disposeClient id (disposeClient id st) = disposeClient id st
  /\ clients (disposeClient id st) = delete id (clients st)
  /\ (clients st !! id = None -> disposeClient id st = st)
  /\ (forall c obj, clients st !! id = Some c -> clientObjs st !! c = Some obj ->
        clientObjs (disposeClient id st) !! c = Some (disposeObj obj))
  /\ (forall a, clients st !! id <> Some a ->
        clientObjs (disposeClient id st) !! a = clientObjs st !! a).
Proof.
  unfold disposeClient, disposeClient_body.
  destruct (clients st !! id) as [c|] eqn:Hreg;
    cbn [foldl exec clients clientObjs with_clients].
  - rewrite lookup_delete_eq. cbn [foldl]. repeat split; try done.
    + intros c' obj [= <-] Hobj. by rewrite list_lookup_alter_eq, Hobj.
    + intros a Ha. apply list_lookup_alter_ne. congruence.
  - rewrite Hreg. cbn [foldl]. repeat split; try done.
    by rewrite delete_id.
Qed.

Lemma dispose_all_objs (l : list (string * nat)) (st : State) (a : nat) :
  clientObjs (foldl (fun s kv => exec s (ClientDispose kv.2)) st l) !! a
  = (if bool_decide (a ∈ l.*2) then disposeObj else id) <$> clientObjs st !! a.
Proof.
  revert st. induction l as [|[k c] l IH]; intros st.
  - cbn. by rewrite option_fmap_id.
  - cbn [foldl]. rewrite IH. cbn [exec clientObjs with_clients snd].
    rewrite fmap_cons. cbn [snd].
    destruct (decide (a = c)) as [->|Hne].
    + rewrite list_lookup_alter_eq, (bool_decide_eq_true_2 (c ∈ c :: l.*2))
        by apply list_elem_of_here.
      destruct (clientObjs st !! c) as [obj|]; [|done]. cbn.
      by case_bool_decide.
    + rewrite list_lookup_alter_ne by done.
      destruct (clientObjs st !! a) as [obj|]; [|done]. cbn.
      repeat case_bool_decide; try done; set_solver.
Qed.

Lemma dispose_all_frame (l : list (string * nat)) (st : State) :
  let st1 := foldl (fun s kv => exec s (ClientDispose kv.2)) st l in
  clients st1 = clients st /\ serverOptions st1 = serverOptions st
  /\ unmatchedDocuments st1 = unmatchedDocuments st
  /\ _activeProjectOverride st1 = _activeProjectOverride st
  /\ projectService st1 = projectService st
  /\ restartAfterCrash st1 = restartAfterCrash st.
Proof.
  revert st. induction l as [|[k c] l IH]; intros st; [done|].
  cbn [foldl]. destruct (IH (exec st (ClientDispose (k, c).2))) as (-> & -> & -> & -> & -> & ->).
  done.
Qed.

(** X18. [dispose()] of the context empties the registry and the channel
    map and disposes every client the registry held; client objects the
    registry did not hold, the unmatched documents and the override are
    left as they were, and disposing a second time changes nothing. *)
Theorem dispose_releases_clients (st : State) :
  clients (dispose st) = ∅
  /\ outputChannels (dispose st) = ∅
  /\ (forall id c obj, clients st !! id = Some c -> clientObjs st !! c = Some obj ->
        clientObjs (dispose st) !! c = Some (disposeObj obj))
  /\ (forall a, (forall id, clients st !! id <> Some a) ->
        clientObjs (dispose st) !! a = clientObjs st !! a)
  /\ unmatchedDocuments (dispose st) = unmatchedDocuments st
  /\ _activeProjectOverride (dispose st) = _activeProjectOverride st
  /\ dispose (dispose st) = dispose st.
Proof.
  unfold dispose at 1 2 3 4 5 6.
  cbn [clients outputChannels clientObjs unmatchedDocuments _activeProjectOverride
       with_channels with_clients with_activation].
  pose proof (dispose_all_frame (map_to_list (clients st)) st) as Hf.
  cbn zeta in Hf. destruct Hf as (_ & _ & Hu & Hov & _).
  split; [done|]. split; [done|]. split; [|split; [|split; [done|split; [done|]]]].
  - intros id c obj Hreg Hobj. rewrite dispose_all_objs, Hobj.
    rewrite bool_decide_eq_true_2; [done|].
    apply list_elem_of_fmap. exists (id, c). split; [done|].
    by apply elem_of_map_to_list.
  - intros a Ha. rewrite dispose_all_objs.
    rewrite bool_decide_eq_false_2.
    + by rewrite option_fmap_id.
    + intros ((id & c) & -> & Hin)%list_elem_of_fmap.
      apply elem_of_map_to_list in Hin. by apply (Ha id).
  - set (d := dispose st). unfold dispose.
    change (clients d) with (∅ : gmap string nat).
    rewrite map_to_list_empty. reflexivity.
Qed.

(** *** Output channels and document selectors *)

(** X19. The output channel of a project is made once per project id: a
    request for any project of the same id, also for another object of the
    project, returns the channel the first request made and leaves the
    context as it is; the channels of other ids are not touched. *)
Theorem getOutputChannel_cached (p q : option Project) (st : State) :
  keyOf p = keyOf q ->
  getOutputChannel q (getOutputChannel p st).2
  = ((getOutputChannel p st).1, (getOutputChannel p st).2)
  /\ outputChannels (getOutputChannel p st).2 !! keyOf p
     = Some (getOutputChannel p st).1
  /\ (forall id, id <> keyOf p ->
        outputChannels (getOutputChannel p st).2 !! id = outputChannels st !! id).
Proof.
  intros Hk.
  destruct (outputChannels st !! keyOf p) as [ch|] eqn:Hch.
  - assert (getOutputChannel p st = (ch, st)) as ->
      by (unfold getOutputChannel; by rewrite Hch).
    cbn [fst snd]. unfold getOutputChannel. by rewrite <- Hk, Hch.
  - assert (getOutputChannel p st
            = (channelName p,
               with_channels (<[keyOf p := channelName p]> (outputChannels st)) st)) as ->
      by (unfold getOutputChannel; by rewrite Hch).
    cbn [fst snd]. unfold getOutputChannel. cbn [outputChannels with_channels].
    rewrite <- Hk, lookup_insert_eq. repeat split.
    intros id Hid. by rewrite lookup_insert_ne.
Qed.

Lemma getOutputChannel_cached_witness :
  getOutputChannel (Some Scenarios.projectA_again)
    (getOutputChannel (Some Scenarios.projectA) Scenarios.ctxActivated).2
  = ("clangd [a]", (getOutputChannel (Some Scenarios.projectA) Scenarios.ctxActivated).2).
Proof.
  exact (proj1 (getOutputChannel_cached (Some Scenarios.projectA)
                  (Some Scenarios.projectA_again) Scenarios.ctxActivated eq_refl)).
Defined.

(** The filters [getClientOptions] builds for the active project *)
Lemma selector_of_active (project : option Project) (st : State) :
  match project with
  | Some p => exists a, getActiveProject st = Some a /\ p_obj a = p_obj p
  | None => True
  end ->
  (getClientOptions project st).1.1
  = (projectFilters project ++ map documentFilter (unmatchedDocuments st))%list.
Proof.
  intros Hact. unfold getClientOptions.
  destruct (getOutputChannel project st) as [ch st1]. cbn [fst].
  destruct project as [p|]; [|done].
  destruct Hact as (a & -> & Hobj). unfold sameProject.
  by rewrite bool_decide_eq_true_2.
Qed.

Lemma selector_frame (project : option Project) (st st0 : State) :
  unmatchedDocuments st = unmatchedDocuments st0 ->
  _activeProjectOverride st = _activeProjectOverride st0 ->
  projectService st = projectService st0 ->
  (getClientOptions project st).1.1 = (getClientOptions project st0).1.1.
Proof.
  intros Hu Hov Hsvc. unfold getClientOptions, getActiveProject.
  destruct (getOutputChannel project st) as [ch st1].
  destruct (getOutputChannel project st0) as [ch0 st2]. cbn [fst].
  by rewrite Hu, Hov, Hsvc.
Qed.

Lemma channel_frame (project : option Project) (st st0 : State) :
  outputChannels st = outputChannels st0 ->
  (getClientOptions project st).1.2 = (getClientOptions project st0).1.2.
Proof.
  intros Hch. unfold getClientOptions, getOutputChannel. rewrite Hch.
  by destruct (outputChannels st0 !! keyOf project).
Qed.

Lemma getClientOptions_serverOptions (project : option Project) (st : State) :
  serverOptions (getClientOptions project st).2 = serverOptions st.
Proof.
  unfold getClientOptions, getOutputChannel.
  by destruct (outputChannels st !! keyOf project).
Qed.

Lemma getClientOptions_listening (project : option Project) (st : State) :
  listening (getClientOptions project st).2 = listening st.
Proof.
  unfold getClientOptions, getOutputChannel.
  by destruct (outputChannels st !! keyOf project).
Qed.

Lemma getClientOptions_state (project : option Project) (st : State) :
  (getClientOptions project st).2 = (getOutputChannel project st).2.
Proof.
  unfold getClientOptions. by destruct (getOutputChannel project st).
Qed.

Lemma disposeClient_frame (id : string) (st : State) :
  let st1 := disposeClient id st in
  List.length (clientObjs st1) = List.length (clientObjs st)
  /\ outputChannels st1 = outputChannels st
  /\ serverOptions st1 = serverOptions st
  /\ unmatchedDocuments st1 = unmatchedDocuments st
  /\ _activeProjectOverride st1 = _activeProjectOverride st
  /\ projectService st1 = projectService st
  /\ restartAfterCrash st1 = restartAfterCrash st.
Proof.
  unfold disposeClient, disposeClient_body.
  destruct (clients st !! id) as [c|]; cbn; [|done].
  by rewrite length_alter.
Qed.

Lemma disposeClient_clients (key : string) (st : State) :
  clients (disposeClient key st) = delete key (clients st).
Proof.
  unfold disposeClient, disposeClient_body.
  destruct (clients st !! key) as [c|] eqn:Hreg; cbn [foldl exec clients with_clients];
    [done | by rewrite delete_id].
Qed.

Lemma disposeClient_objs (key : string) (st : State) (a : nat) :
  clientObjs (disposeClient key st) !! a
  = (if bool_decide (clients st !! key = Some a) then disposeObj else id)
      <$> clientObjs st !! a.
Proof.
  unfold disposeClient, disposeClient_body.
  destruct (clients st !! key) as [c|] eqn:Hreg; cbn [foldl exec clientObjs with_clients].
  - destruct (decide (c = a)) as [->|Hne].
    + by rewrite list_lookup_alter_eq, bool_decide_eq_true_2.
    + rewrite list_lookup_alter_ne, bool_decide_eq_false_2 by congruence.
      by rewrite option_fmap_id.
  - by rewrite option_fmap_id.
Qed.

(** [disposeClient] followed by [createClient] for the same project: the
    sequence the override setter and the open listener run. *)
Lemma restart_spec (project : option Project) (so : option ServerOptions)
    (st : State) :
  let st' := (createClient project so (disposeClient (keyOf project) st)).2 in
  clients st' = <[keyOf project := List.length (clientObjs st)]> (clients st)
  /\ clientObjs st'
     = (clientObjs (disposeClient (keyOf project) st)
          ++ [ {| c_serverOptions := so;
                  c_documentSelector := (getClientOptions project st).1.1;
                  c_outputChannel := (getClientOptions project st).1.2;
                  c_maxRestartCount := maxRestartCount st;
                  c_features := 2%nat;
                  c_started := true; c_disposed := false |} ])%list
  /\ serverOptions st' = serverOptions st
  /\ unmatchedDocuments st' = unmatchedDocuments st
  /\ _activeProjectOverride st' = _activeProjectOverride st
  /\ projectService st' = projectService st
  /\ restartAfterCrash st' = restartAfterCrash st.
Proof.
  cbn zeta. rewrite createClient_full. cbn [snd].
  pose proof (disposeClient_frame (keyOf project) st) as Hd. cbn zeta in Hd.
  destruct Hd as (Hlen & Hch & Hso & Hu & Hov & Hsvc & Hr).
  pose proof (ClangdContextFacts.getClientOptions_frame project
                (disposeClient (keyOf project) st)) as Hg. cbn zeta in Hg.
  destruct Hg as (_ & _ & Hu' & Hov' & Hsvc' & Hr').
  cbn [clients clientObjs serverOptions unmatchedDocuments _activeProjectOverride
       projectService restartAfterCrash with_clients].
  rewrite Hlen.
  split.
  { rewrite disposeClient_clients. apply insert_delete_eq. }
  split.
  { f_equal. f_equal. f_equal.
    - by apply selector_frame.
    - by apply channel_frame.
    - unfold maxRestartCount. by rewrite Hr. }
  rewrite getClientOptions_serverOptions, Hu', Hov', Hsvc', Hr'. done.
Qed.

Lemma restart_objs (project : option Project) (so : option ServerOptions)
    (st : State) (a : nat) (obj : Client) :
  clientObjs st !! a = Some obj ->
  clientObjs (createClient project so (disposeClient (keyOf project) st)).2 !! a
  = Some (if bool_decide (clients st !! keyOf project = Some a)
          then disposeObj obj else obj).
Proof.
  intros Hobj.
  destruct (restart_spec project so st) as (_ & -> & _).
  rewrite lookup_app_l.
  - rewrite disposeClient_objs, Hobj. by case_bool_decide.
  - rewrite (proj1 (disposeClient_frame (keyOf project) st)).
    by eapply lookup_lt_Some.
Qed.

(** *** The override *)

(** X20. Pinning a project as the override restarts its client: afterwards
    the override is the pinned project, the registry holds under its id a
    client that the call created and started, and the client registered
    under the id before is disposed.  Entries under other ids, the id of
    the previous override apart, and the list of unmatched documents are
    not changed.  When the locations of the project and of the unmatched
    documents have no escapes, the document selector of the new client is
    the project's filters followed by one filter for every unmatched
    document. *)
Theorem override_setter_restarts_client (p : Project) (st : State) :
  let st' := set_activeProjectOverride (Some p) st in
  _activeProjectOverride st' = Some p
  /\ unmatchedDocuments st' = unmatchedDocuments st
  /\ (exists objs c,
        clientObjs st' = (objs ++ [c])%list
        /\ clients st' !! p_id p = Some (List.length objs)
        /\ live c = true
        /\ (Locations.plainProject (Some p) = true ->
            forallb Locations.plainDocument (unmatchedDocuments st) = true ->
            c_documentSelector c
            = (projectFilters (Some p)
                 ++ map documentFilter (unmatchedDocuments st))%list))
  /\ (forall a obj, clients st !! p_id p = Some a -> clientObjs st !! a = Some obj ->
        clientObjs st' !! a = Some (disposeObj obj))
  /\ (forall id, id <> p_id p ->
        (forall old, _activeProjectOverride st = Some old -> id <> p_id old) ->
        clients st' !! id = clients st !! id).
Proof.
  cbn zeta. unfold set_activeProjectOverride.
  set (st1 := with_override (Some p) st).
  assert (exists st2,
             st2 = match _activeProjectOverride st with
                   | Some old =>
                       (createClient (Some old) (serverOptions st1)
                          (disposeClient (p_id old) st1)).2
                   | None => st1
                   end
             /\ _activeProjectOverride st2 = Some p
             /\ unmatchedDocuments st2 = unmatchedDocuments st
             /\ (forall a obj, clients st !! p_id p = Some a ->
                   clientObjs st !! a = Some obj ->
                   exists obj', clientObjs st2 !! a = Some obj'
                                /\ disposeObj obj' = disposeObj obj
                                /\ (clients st2 !! p_id p = Some a
                                    \/ obj' = disposeObj obj))
             /\ (forall id,
                   (forall old, _activeProjectOverride st = Some old -> id <> p_id old) ->
                   clients st2 !! id = clients st !! id))
    as (st2 & Hst2 & Hov2 & Hu2 & Hobj2 & Hreg2).
  { eexists. split; [reflexivity|].
    destruct (_activeProjectOverride st) as [old|] eqn:Hold.
    - destruct (restart_spec (Some old) (serverOptions st1) st1)
        as (Hcl & _ & _ & Hu & Hov & _).
      cbn [keyOf] in *. rewrite Hov, Hu.
      split; [done|]. split; [done|]. split.
      + intros a obj Hreg Hobj.
        rewrite (restart_objs (Some old) _ st1 a obj Hobj). cbn [keyOf].
        eexists. split; [reflexivity|]. rewrite Hcl.
        destruct (decide (p_id old = p_id p)) as [Heq|Hne].
        * split; [by case_bool_decide|].
          right. rewrite Heq. by rewrite bool_decide_eq_true_2.
        * split; [by case_bool_decide|].
          left. by rewrite lookup_insert_ne.
      + intros id Hid. rewrite Hcl. rewrite lookup_insert_ne; [done|].
        intros <-. by apply (Hid old).
    - split; [done|]. split; [done|]. split; [|done].
      intros a obj Hreg Hobj. exists obj. split; [done|]. split; [done|]. by left. }
  rewrite <- Hst2. clear Hst2.
  destruct (restart_spec (Some p) (serverOptions st2) st2)
    as (Hcl & Hobjs & _ & Hu & Hov & _).
  cbn [keyOf] in *.
  split; [by rewrite Hov|]. split; [by rewrite Hu|]. split; [|split].
  - eexists _, _. split; [exact Hobjs|]. rewrite Hcl.
    split.
    { rewrite lookup_insert_eq. f_equal.
      symmetry. apply (disposeClient_frame (p_id p) st2). }
    split; [reflexivity|]. intros _ _. cbn [c_documentSelector].
    rewrite selector_of_active, Hu2; [done|].
    exists p. split; [|done]. unfold getActiveProject. by rewrite Hov2.
  - intros a obj Hreg Hobj.
    destruct (Hobj2 a obj Hreg Hobj) as (obj' & Hobj' & Heq & Hcase).
    rewrite (restart_objs (Some p) _ st2 a obj' Hobj'). cbn [keyOf].
    destruct Hcase as [Hreg'| ->].
    + by rewrite bool_decide_eq_true_2, Heq.
    + by case_bool_decide.
  - intros id Hne Hold. rewrite Hcl, lookup_insert_ne by done. by apply Hreg2.
Qed.

Lemma override_setter_restarts_client_witness :
  Locations.plainProject (Some Scenarios.projectA) = true
  /\ forallb Locations.plainDocument (unmatchedDocuments Scenarios.ctxWithUnmatched) = true
  /\ exists objs c,
       clientObjs (set_activeProjectOverride (Some Scenarios.projectA)
                     Scenarios.ctxWithUnmatched) = (objs ++ [c])%list
       /\ live c = true
       /\ c_documentSelector c
          = (projectFilters (Some Scenarios.projectA)
               ++ [documentFilter Scenarios.docOutside])%list.
Proof.
  assert (forallb Locations.plainDocument (unmatchedDocuments Scenarios.ctxWithUnmatched)
          = true) as Hdocs by (vm_compute; reflexivity).
  assert (unmatchedDocuments Scenarios.ctxWithUnmatched = [Scenarios.docOutside]) as Hu
    by (vm_compute; reflexivity).
  split; [reflexivity|]. split; [exact Hdocs|].
  pose proof (override_setter_restarts_client Scenarios.projectA
                Scenarios.ctxWithUnmatched) as H.
  cbn zeta in H. destruct H as (_ & _ & (objs & c & Hobjs & _ & Hlive & Hsel) & _).
  exists objs, c. split; [exact Hobjs|]. split; [exact Hlive|].
  specialize (Hsel eq_refl Hdocs). rewrite Hu in Hsel. exact Hsel.
Defined.

(** *** Opening and closing documents *)




(** X22. Open and close round trip.  When a clangd document is opened and
    closed again, both times resolving to the project P, P is not pinned as
    the override and no open document lies below P's location, the close
    removes the registry entry the open made and disposes the client it
    created.  All clients that existed before stay as they were: a client
    that was registered for P before the open is not disposed, and it is no
    longer in the registry. *)
Theorem open_close_round_trip
    (env : ProjectService.Env) (docs : list TextDocument) (doc : TextDocument)
    (st : State) (P : Project) (svc1 svc2 : ProjectService.State) :
  isClangdDocument doc = true ->
  ProjectService.resolve env (doc_uri doc) true (projectService st)
    = ProjectService.Resolved (Some P) svc1 ->
  ProjectService.resolve env (doc_uri doc) false svc1
    = ProjectService.Resolved (Some P) svc2 ->
  (forall o, _activeProjectOverride st = Some o -> p_obj P <> p_obj o) ->
  Forall (fun d => JS.startsWith (doc_uri d) (p_uri P) = false
                   \/ doc_isClosed d = true) docs ->
  exists st1 st2 c,
    didOpenTextDocument env doc st = Finished st1
    /\ didCloseTextDocument env docs doc st1 = Finished st2
    /\ clients st1 !! p_id P = Some (List.length (clientObjs st))
    /\ clients st2 = delete (p_id P) (clients st)
    /\ clientObjs st1 = (clientObjs st ++ [c])%list
    /\ live c = true
    /\ clientObjs st2 = (clientObjs st ++ [disposeObj c])%list
    /\ unmatchedDocuments st2 = unmatchedDocuments st
    /\ _activeProjectOverride st2 = _activeProjectOverride st.
Proof.
  intros Hdoc Hopen Hclose Hov Hdocs.
  unfold didOpenTextDocument. rewrite Hdoc, Hopen. cbn [negb].
  unfold didOpenTextDocument_resume.
  rewrite createClient_full. cbn [snd].
  set (st0 := with_service svc1 st).
  pose proof (ClangdContextFacts.getClientOptions_frame (Some P) st0) as Hg.
  cbn zeta in Hg. destruct Hg as (_ & _ & Hu & Hover & Hsvc & _).
  eexists _, _, _. split; [reflexivity|].
  unfold didCloseTextDocument. rewrite Hdoc. cbn [negb].
  cbn [projectService with_clients]. rewrite Hsvc. cbn [st0 projectService with_service].
  rewrite Hclose. unfold didCloseTextDocument_resume.
  cbn [_activeProjectOverride with_clients with_service]. rewrite Hover.
  cbn [st0 _activeProjectOverride with_service].
  assert (match _activeProjectOverride st with
          | Some override => sameProject P override
          | None => false
          end = false) as ->.
  { destruct (_activeProjectOverride st) as [o|] eqn:Ho; [|done].
    unfold sameProject. apply bool_decide_eq_false. by apply Hov. }
  assert (existsb (fun d => JS.startsWith (doc_uri d) (p_uri P) && negb (doc_isClosed d))
                  docs = false) as ->.
  { apply not_true_is_false. intros (d & Hin & Hd)%existsb_exists.
    rewrite Forall_forall in Hdocs.
    apply andb_true_iff in Hd as [Hd1 Hd2].
    destruct (Hdocs d) as [H|H]; [by apply list_elem_of_In|congruence|].
    rewrite H in Hd2. discriminate. }
  split; [reflexivity|].
  unfold disposeClient, disposeClient_body.
  cbn [clients clientObjs with_clients with_service st0 keyOf].
  rewrite lookup_insert_eq.
  cbn [foldl exec clients clientObjs with_clients unmatchedDocuments
       _activeProjectOverride with_service].
  rewrite delete_insert_eq, alter_last, Hu, Hover.
  repeat split.
Qed.

Lemma open_close_round_trip_witness :
  exists st1 st2,
    didOpenTextDocument Scenarios.envNested Scenarios.docA Scenarios.ctxActivated
      = Finished st1
    /\ didCloseTextDocument Scenarios.envNested
         [Scenarios.docOutside; mkDocument 0 "file:///a/x.cpp" "cpp" true]
         Scenarios.docA st1 = Finished st2
    /\ clients st1 !! "file:///a" = Some 0%nat
    /\ clients st2 = ∅
    /\ live <$> clientObjs st2 = [false].
Proof.
  assert (ProjectService.resolve Scenarios.envNested (doc_uri Scenarios.docA)
            true (projectService Scenarios.ctxActivated)
          = ProjectService.Resolved (Some Scenarios.projectA)
              (projectService Scenarios.ctxWithClient))
    as Hopen by (vm_compute; reflexivity).
  assert (ProjectService.resolve Scenarios.envNested (doc_uri Scenarios.docA)
            false (projectService Scenarios.ctxWithClient)
          = ProjectService.Resolved (Some Scenarios.projectA)
              (projectService Scenarios.ctxWithClient))
    as Hclose by (vm_compute; reflexivity).
  pose proof (open_close_round_trip Scenarios.envNested
                [Scenarios.docOutside; mkDocument 0 "file:///a/x.cpp" "cpp" true]
                Scenarios.docA Scenarios.ctxActivated Scenarios.projectA
                (projectService Scenarios.ctxWithClient)
                (projectService Scenarios.ctxWithClient)) as H.
  specialize (H eq_refl). specialize (H Hopen). specialize (H Hclose).
  assert (forall o, _activeProjectOverride Scenarios.ctxActivated = Some o ->
                    p_obj Scenarios.projectA <> p_obj o) as Hov
    by (intros o Ho; vm_compute in Ho; discriminate).
  specialize (H Hov).
  assert (Forall (fun d => JS.startsWith (doc_uri d) (p_uri Scenarios.projectA) = false
                           \/ doc_isClosed d = true)
                 [Scenarios.docOutside; mkDocument 0 "file:///a/x.cpp" "cpp" true])
    as Hdocs by (repeat constructor; vm_compute; auto).
  specialize (H Hdocs).
  destruct H as (st1 & st2 & c & H1 & H2 & Hreg & Hcl & _ & _ & Hobjs & _).
  exists st1, st2. split; [exact H1|]. split; [exact H2|].
  split; [exact Hreg|]. split; [rewrite Hcl; vm_compute; reflexivity|].
  rewrite Hobjs.
  change (clientObjs Scenarios.ctxActivated) with (@nil Client).
  cbn. unfold live. cbn. by rewrite andb_false_r.
Defined.

(** *** Activation and project changes *)

(** X23. Activating the context while the project service is not enabled
    creates one client for the whole workspace: it is registered under the
    key ["*"] and started with the server options of the activation.  The
    clients and entries that existed are left alone and no listener is
    installed.  When the locations of the unmatched documents have no
    escapes, the selector of the client holds one filter per unmatched
    document and no project filters.  Without a clangd binary, activation
    changes nothing. *)
Theorem activate_without_projects
    (path : string) (arguments : list string) (st : State) :
  ProjectService._isEnabled (projectService st) = false ->
  let so := Some {| command := path; args := arguments |} in
  let st' := activate (Some path) arguments st in
  serverOptions st' = so
  /\ clients st' = <["*" := List.length (clientObjs st)]> (clients st)
  /\ (exists c, clientObjs st' = (clientObjs st ++ [c])%list
                /\ live c = true
                /\ c_serverOptions c = so
                /\ (forallb Locations.plainDocument (unmatchedDocuments st) = true ->
                    c_documentSelector c
                    = map documentFilter (unmatchedDocuments st)))
  /\ listening st' = listening st
  /\ unmatchedDocuments st' = unmatchedDocuments st
  /\ activate None arguments st = st.
Proof.
  intros Hoff. cbn zeta. unfold activate. rewrite Hoff.
  set (st1 := with_activation (Some {| command := path; args := arguments |})
                (listening st) st).
  pose proof (ClangdContextFacts.getClientOptions_frame None st1) as Hg.
  pose proof (getClientOptions_serverOptions None st1) as Hso.
  pose proof (getClientOptions_listening None st1) as Hl.
  pose proof (selector_of_active None st1 I) as Hsel.
  destruct (getClientOptions None st1) as [options st2].
  cbn [fst snd] in *. destruct Hg as (Hc & Ho & Hu & _).
  unfold createNewClient.
  cbn [serverOptions clients clientObjs listening unmatchedDocuments
       with_clients].
  rewrite Ho, Hc, Hu, Hso, Hl, alter_last.
  split; [done|]. split; [done|]. split; [|done].
  eexists. split; [reflexivity|]. split; [reflexivity|]. split; [reflexivity|].
  intros _. cbn [c_documentSelector]. by rewrite Hsel.
Qed.

Lemma activate_without_projects_witness :
  clients (activate (Some "/usr/bin/clangd") []
             (new (ProjectService.new Scenarios.cfgOn []) true))
  = {[ "*" := 0%nat ]}
  /\ exists c,
       clientObjs (activate (Some "/usr/bin/clangd") []
                     (new (ProjectService.new Scenarios.cfgOn []) true)) = [c]
       /\ live c = true
       /\ c_documentSelector c = [].
Proof.
  pose proof (activate_without_projects "/usr/bin/clangd" []
                (new (ProjectService.new Scenarios.cfgOn []) true) eq_refl) as H.
  cbn zeta in H. destruct H as (_ & Hreg & (c & Hobjs & Hlive & _ & Hsel) & _).
  split; [exact Hreg|].
  exists c. split; [exact Hobjs|]. split; [exact Hlive | exact (Hsel eq_refl)].
Defined.

Lemma disposeRegistered_as_disposeClient (key : string) (st : State) :
  disposeRegistered key st
  = with_clients (clients st) (clientObjs (disposeClient key st)) st.
Proof.
  unfold disposeRegistered, disposeClient, disposeClient_body.
  destruct (clients st !! key) as [c|]; [done|]. by destruct st.
Qed.

(** X24. When a change lists the override object as updated (and not as
    removed), the client of the override is restarted: the client
    registered under the override's id is disposed, and the registry holds
    there a client the listener created and started.  The override stays
    pinned and the other client objects are not changed.  When the
    locations of the override and of the unmatched documents have no
    escapes, the selector of the new client is the project's filters
    followed by the filters of the unmatched documents. *)
Theorem projects_updated_restarts_override
    (change : ProjectsChange) (st : State) (override : Project)
    (ps : list Project) :
  _activeProjectOverride st = Some override ->
  includesProject (removed change) override = false ->
  updated change = Some ps ->
  override ∈ ps ->
  let st' := onProjectsChanged change st in
  _activeProjectOverride st' = Some override
  /\ clients st' = <[p_id override := List.length (clientObjs st)]> (clients st)
  /\ (exists c, clientObjs st' !! List.length (clientObjs st) = Some c
                /\ live c = true
                /\ (Locations.plainProject (Some override) = true ->
                    forallb Locations.plainDocument (unmatchedDocuments st) = true ->
                    c_documentSelector c
                    = (projectFilters (Some override)
                         ++ map documentFilter (unmatchedDocuments st))%list))
  /\ (forall a obj, clients st !! p_id override = Some a ->
        clientObjs st !! a = Some obj ->
        clientObjs st' !! a = Some (disposeObj obj))
  /\ (forall a obj, clients st !! p_id override <> Some a ->
        clientObjs st !! a = Some obj -> clientObjs st' !! a = Some obj).
Proof.
  intros Hov Hrem Hupd Hin st'. subst st'.
  unfold onProjectsChanged. rewrite Hov, Hrem, Hupd.
  assert (includesProject (Some ps) override = true) as ->.
  { simpl. unfold JS.includes. apply existsb_exists. exists override.
    split; [by apply list_elem_of_In|]. unfold sameProject. by apply bool_decide_eq_true. }
  rewrite disposeRegistered_as_disposeClient, createClient_full. cbn [snd].
  set (st1 := with_clients (clients st) (clientObjs (disposeClient (p_id override) st)) st).
  pose proof (ClangdContextFacts.getClientOptions_frame (Some override) st1) as Hg.
  cbn zeta in Hg. destruct Hg as (_ & _ & _ & Hov' & _).
  pose proof (disposeClient_frame (p_id override) st) as Hd. cbn zeta in Hd.
  destruct Hd as (Hlen & _).
  cbn [_activeProjectOverride clients clientObjs with_clients st1 keyOf].
  rewrite Hlen.
  split; [by rewrite Hov'|]. split; [done|]. split; [|split].
  - eexists. split.
    { rewrite <- Hlen. apply list_lookup_middle. done. }
    split; [reflexivity|]. intros _ _. cbn [c_documentSelector].
    rewrite selector_of_active; [done|]. exists override. split; [|done].
    unfold getActiveProject. cbn. by rewrite Hov.
  - intros a obj Hreg Hobj. rewrite lookup_app_l.
    + by rewrite disposeClient_objs, Hobj, bool_decide_eq_true_2.
    + rewrite Hlen. by eapply lookup_lt_Some.
  - intros a obj Hreg Hobj. rewrite lookup_app_l.
    + by rewrite disposeClient_objs, Hobj, bool_decide_eq_false_2.
    + rewrite Hlen. by eapply lookup_lt_Some.
Qed.

Lemma projects_updated_restarts_override_witness :
  let st' := onProjectsChanged (mkChange None None (Some [Scenarios.projectA]))
               Scenarios.ctxPinned in
  _activeProjectOverride st' = Some Scenarios.projectA
  /\ clients st' !! "file:///a" = Some 2%nat
  /\ exists c, clientObjs st' !! 2%nat = Some c
               /\ live c = true
               /\ c_documentSelector c = projectFilters (Some Scenarios.projectA).
Proof.
  pose proof (projects_updated_restarts_override
                (mkChange None None (Some [Scenarios.projectA]))
                Scenarios.ctxPinned Scenarios.projectA [Scenarios.projectA]) as H.
  assert (_activeProjectOverride Scenarios.ctxPinned = Some Scenarios.projectA) as Hov
    by (vm_compute; reflexivity).
  assert (List.length (clientObjs Scenarios.ctxPinned) = 2%nat) as Hlen
    by (vm_compute; reflexivity).
  assert (unmatchedDocuments Scenarios.ctxPinned = []) as Hu
    by (vm_compute; reflexivity).
  specialize (H Hov). specialize (H eq_refl). specialize (H eq_refl).
  specialize (H ltac:(apply list_elem_of_here)).
  cbn zeta in *. destruct H as (H1 & H2 & (c & Hobj & Hlive & Hsel) & _).
  rewrite Hlen in H2, Hobj. rewrite Hu in Hsel.
  split; [exact H1|]. split.
  { rewrite H2. change (p_id Scenarios.projectA) with "file:///a".
    apply lookup_insert_eq. }
  exists c. split; [exact Hobj|]. split; [exact Hlive|].
  rewrite (Hsel eq_refl eq_refl). cbn [map]. apply app_nil_r.
Defined.

End ClangdContextProps.

Module LanguageClientProps.
Import LanguageClient.

#[local] Set Warnings "-clear-no-such-hyp".

Lemma indexOf_from_found (pre post : list Feature) (f : Feature) (i : Z) :
  Forall (fun g => sameFeature g f = false) pre ->
  JS.indexOf_from sameFeature i (pre ++ f :: post) f = i + Z.of_nat (List.length pre).
Proof.
  intros Hpre. revert i. induction Hpre as [|g pre Hg _ IH]; intros i; simpl.
  - unfold sameFeature. rewrite bool_decide_eq_true_2 by done. lia.
  - rewrite Hg, IH. lia.
Qed.

(** X25. [deactivateExecuteCommandFeature] takes the first
    [ExecuteCommandFeature] out of the feature array and keeps all other
    features in their order; when the array holds no such feature, it takes
    out the last feature instead. *)
Theorem deactivateExecuteCommandFeature_spec (features : list Feature) :
  NoDup (map feat_obj features) ->
  (forall pre f post,
      features = (pre ++ f :: post)%list ->
      feat_isExecuteCommand f = true ->
      Forall (fun g => feat_isExecuteCommand g = false) pre ->
      deactivateExecuteCommandFeature features = (pre ++ post)%list)
  /\ (Forall (fun g => feat_isExecuteCommand g = false) features ->
      deactivateExecuteCommandFeature features = removelast features).
Proof.
  intros Hnodup. split.
  - intros pre f post -> Hf Hpre. unfold deactivateExecuteCommandFeature.
    rewrite (JSFacts.find_skip _ pre post f Hpre Hf).
    unfold JS.indexOf. rewrite indexOf_from_found.
    + unfold splice_one. rewrite Z.add_0_l.
      destruct (Z.ltb_spec (Z.of_nat (List.length pre)) 0) as [Hneg|_]; [lia|].
      rewrite Z.min_l by (rewrite length_app; simpl; lia).
      rewrite Nat2Z.id, take_app_length.
      replace (S (List.length pre)) with (List.length (pre ++ [f]))
        by (rewrite length_app; simpl; lia).
      by rewrite (cons_middle f pre post), app_assoc, drop_app_length.
    + rewrite map_app in Hnodup. cbn [map] in Hnodup.
      apply NoDup_app in Hnodup as (_ & Hdisj & _).
      apply Forall_forall. intros g Hg. unfold sameFeature.
      apply bool_decide_eq_false. intros Heq.
      apply (Hdisj (feat_obj g)); [by apply list_elem_of_fmap_2|].
      rewrite Heq. apply list_elem_of_here.
  - intros Hnone. unfold deactivateExecuteCommandFeature.
    assert (find feat_isExecuteCommand features = None) as ->.
    { clear Hnodup. induction Hnone as [|g l Hg _ IH]; simpl; [done|]. by rewrite Hg. }
    unfold splice_one. cbn [Z.ltb Z.compare].
    destruct features as [|g l] using rev_ind; [done|].
    rewrite removelast_last, length_app. cbn [List.length].
    rewrite Z.max_l by lia.
    replace (Z.to_nat (Z.of_nat (List.length l + 1) + -1)) with (List.length l) by lia.
    rewrite take_app_length.
    replace (S (List.length l)) with (List.length (l ++ [g]))
      by (rewrite length_app; simpl; lia).
    by rewrite drop_all, app_nil_r.
Qed.

Lemma deactivateExecuteCommandFeature_spec_witness :
  NoDup (map feat_obj Fixtures.clientFeatures)
  /\ deactivateExecuteCommandFeature Fixtures.clientFeatures
     = [mkFeature 0 false; mkFeature 2 false]
  /\ deactivateExecuteCommandFeature
       (deactivateExecuteCommandFeature Fixtures.clientFeatures)
     = [mkFeature 0 false].
Proof.
  assert (NoDup (map feat_obj Fixtures.clientFeatures)) as Hnodup.
  { vm_compute. repeat constructor; set_solver. }
  split; [exact Hnodup|].
  assert (deactivateExecuteCommandFeature Fixtures.clientFeatures
          = [mkFeature 0 false; mkFeature 2 false]) as Hfirst.
  { apply (proj1 (deactivateExecuteCommandFeature_spec _ Hnodup)
             [mkFeature 0 false] (mkFeature 1 true) [mkFeature 2 false]);
      [reflexivity | reflexivity | by repeat constructor]. }
  split; [exact Hfirst|]. rewrite Hfirst.
  apply (proj2 (deactivateExecuteCommandFeature_spec
                  [mkFeature 0 false; mkFeature 2 false]
                  ltac:(vm_compute; repeat constructor; set_solver))).
  by repeat constructor.
Defined.

Lemma qualifySymbol_twice (query : string) (symbol : SymbolInformation) :
  qualifySymbol query (qualifySymbol query symbol) = qualifySymbol query symbol.
Proof.
  unfold qualifySymbol. destruct (includesStr query "::"); [|done].
  cbn [sym_containerName sym_name]. by rewrite bool_decide_eq_true_2.
Qed.

(** X26. The middleware for workspace symbols is the identity for a query
    without [::]; for a qualified query it puts the container name in front
    of the name of every symbol that has one and clears the container name,
    so that applying it to its own result changes nothing more. *)
Theorem provideWorkspaceSymbols_idempotent
    (query : string) (symbols : option (list SymbolInformation)) :
  provideWorkspaceSymbols query (provideWorkspaceSymbols query symbols)
  = provideWorkspaceSymbols query symbols
  /\ (includesStr query "::" = false ->
      provideWorkspaceSymbols query symbols = symbols)
  /\ (includesStr query "::" = true ->
      forall l container name,
        symbols = Some l -> container <> "" ->
        mkSymbol name (Some container) ∈ l ->
        exists l', provideWorkspaceSymbols query symbols = Some l'
                   /\ mkSymbol (container ++ "::" ++ name) (Some "") ∈ l'
                   /\ Forall (fun s => sym_containerName s = Some "") l').
Proof.
  unfold provideWorkspaceSymbols. split; [|split].
  - destruct symbols as [l|]; [|done]. cbn. f_equal.
    rewrite map_map. apply map_ext. intros s. apply qualifySymbol_twice.
  - intros Hq. destruct symbols as [l|]; [|done]. cbn. f_equal.
    rewrite <- (map_id l) at 2. apply map_ext. intros s.
    unfold qualifySymbol. by rewrite Hq.
  - intros Hq l container name -> Hne Hin. eexists. split; [reflexivity|]. split.
    + apply list_elem_of_fmap. exists (mkSymbol name (Some container)).
      split; [|exact Hin]. unfold qualifySymbol. rewrite Hq. cbn.
      by rewrite bool_decide_eq_false_2.
    + apply Forall_fmap, Forall_forall. intros s _. cbn.
      unfold qualifySymbol. by rewrite Hq.
Qed.

End LanguageClientProps.
